(** * Security dashboard: threat detector and alert manager

    A shallow embedding of [threat_detector.py] and [alert_manager.py],
    and of the computations of [security_monitor.py].

    Conventions of the embedding.
    - Clock readings ([time.time()], [datetime.now()]) and measured
      percentages are Python floats. A float is the rational [Q] it stands
      for; where the code computes with floats and the result can round,
      it is rounded to binary64 ([float_round]).
      One operation observes one clock reading, passed as [now].
    - Draws of [random.randint] are passed in as arguments.
    - A snapshot is a nested dict read with [.get(key, default)]; a key
      that may be missing is an [option] field.
    - Alert dicts are mutable objects shared between the manager's list
      and its callers: they live in a store and are named by reference.
    - Inputs are typed (a format is a string, a count an integer, ...), so
      the [except] branches that only a wrongly typed value can reach are
      left out; the others are kept. *)

From Stdlib Require Import QArith Qround Qabs Qpower Lqa.
From Stdlib Require Qcanon.
From stdpp Require Import gmap strings list pretty.

Local Open Scope string_scope.
Local Open Scope list_scope.
Local Open Scope Z_scope.

(** ** Numbers, clock and strings *)

Definition Time := Q.
Bind Scope Q_scope with Time.

(** Python's [int(x)] on a float: truncation toward zero. *)
Definition int_of (x : Q) : Z := Z.quot (Qnum x) (Zpos (Qden x)).

(** [x < y] and [x > y] on floats, as booleans. *)
Definition Qltb (x y : Q) : bool := negb (Qle_bool y x).
Definition Qgtb (x y : Q) : bool := Qltb y x.

(** *** Binary64 arithmetic

    A finite float is the rational it stands for, and comparing two
    floats is exact. The difference of two clock readings is exact as
    well: readings of [time.time()] lie within a factor of two of each
    other, and the difference of two such floats is a float. Any other
    sum, difference or quotient is rounded to the nearest binary64 value,
    ties to even. Overflow to infinity lies beyond the values met here
    (percentages, seconds of uptime) and is left out. *)

(** The nearest whole number, ties to even. *)
Definition round_half_even (x : Q) : Z :=
  let f := Qfloor x in
  match (x - inject_Z f ?= 1 # 2)%Q with
  | Lt => f
  | Gt => f + 1
  | Eq => if Z.even f then f else f + 1
  end.

(** The whole part of the binary logarithm of a positive rational. *)
Definition floor_log2 (x : Q) : Z :=
  let k := Z.log2 (Qnum x) - Z.log2 (Zpos (Qden x)) in
  if Qle_bool (2 ^ k) x then k else k - 1.

(** Rounding to binary64: 53 significant bits, the exponent of the last
    bit not below -1074. *)
Definition float_round (x : Q) : Q :=
  let x := Qred x in
  if Qeq_bool x 0 then 0%Q
  else
    let e := Z.max (floor_log2 (Qabs x) - 52) (-1074) in
    (inject_Z (round_half_even (x / 2 ^ e)) * 2 ^ e)%Q.

(** [x - y] on floats *)
Definition float_sub (x y : Q) : Q := float_round (x - y).

(** C's [fmod]: the remainder with the sign of [x]; it is exact. *)
Definition float_fmod (x y : Q) : Q :=
  (x - y * inject_Z (int_of (x / y)))%Q.

(** Whether CPython moves the remainder [m] over to the sign of the
    divisor [y]. *)
Definition wrong_sign (m y : Q) : bool :=
  negb (Qeq_bool m 0) && xorb (Qltb y 0) (Qltb m 0).

(** [x % y] on floats *)
Definition float_mod (x y : Q) : Q :=
  let m := float_fmod x y in
  if wrong_sign m y then float_round (m + y) else m.

(** [x // y] on floats *)
Definition float_floordiv (x y : Q) : Q :=
  let m := float_fmod x y in
  let div := float_round (float_round (x - m) / y) in
  let div := if wrong_sign m y then float_round (div - 1) else div in
  if Qeq_bool div 0 then 0%Q
  else
    let floordiv := inject_Z (Qfloor div) in
    if Qgtb (float_round (div - floordiv)) (1 # 2)
    then float_round (floordiv + 1) else floordiv.

(** [s.startswith(p)] *)
Definition startswith (s p : string) : bool := String.prefix p s.

(** [p in s] on strings *)
Definition contains (s p : string) : bool :=
  match String.index 0 p s with Some _ => true | None => false end.

(** [l[-n:]] for a positive [n] *)
Definition last_n {A} (n : nat) (l : list A) : list A :=
  drop (length l - n)%nat l.

(** ** Data consumed by the detector *)

Record Event := {
  e_severity : option string;
  e_message : option string
}.

Record SystemSnapshot := {
  cpu_usage_percent : option Q;
  memory_usage_percent : option Q;
  disk_usage_percent : option Q;
  processes_total_count : option Z
}.

Record NetworkSnapshot := {
  connections_total : option Z;
  connections_listening : option Z;
  traffic_errors_in : option Z;
  traffic_errors_out : option Z
}.

Record SecurityData := {
  system_metrics : list SystemSnapshot;
  network_traffic : list NetworkSnapshot;
  security_events : list Event
}.

(** Values stored under a threat's ['details']. *)
Inductive DetailVal :=
| DNum (q : Q)
| DNums (l : list Q)
| DEvents (l : list Event).

Definition Details := list (string * DetailVal).

(** A threat is a dict that [create_alert] reads with [.get]. *)
Record Threat := {
  t_id : option string;
  t_timestamp : option Time;
  t_type : option string;
  t_severity : option string;
  t_description : option string;
  t_source : option string;
  t_details : option Details;
  t_status : option string
}.

Definition mk_threat (id : string) (now : Time) (ty sev desc src : string)
    (det : option Details) : Threat :=
  {| t_id := Some id; t_timestamp := Some now; t_type := Some ty;
     t_severity := Some sev; t_description := Some desc;
     t_source := Some src; t_details := det; t_status := Some "detected" |}.

(** [f'{kind}_{int(time.time())}'] *)
Definition stamp_id (kind : string) (now : Time) : string :=
  kind +:+ "_" +:+ pretty (int_of now).

(** ** threat_detector.py *)

Record AnalysisRecord := {
  ar_timestamp : Time;
  ar_threats_found : nat;
  ar_analysis_duration_ms : Z
}.

Record ThreatDetector := {
  analysis_history : list AnalysisRecord;
  last_alert_time : gmap string Time
}.

Definition ThreatDetector_init : ThreatDetector :=
  {| analysis_history := []; last_alert_time := ∅ |}.

(** [self.threat_patterns] and [self.alert_cooldown] *)
Definition cpu_threshold : Q := 95.
Definition memory_threshold : Q := 98.
Definition disk_threshold : Q := 95.
Definition resource_abuse_severity : string := "medium".
Definition connection_threshold : Z := 1500.
Definition port_scan_threshold : Z := 50.
Definition network_anomaly_severity : string := "high".
Definition suspicious_process_severity : string := "medium".
Definition failed_logins_threshold : nat := 5.
Definition brute_force_severity : string := "high".
Definition alert_cooldown : Q := 60.

Definition _should_send_alert (alert_type : string) (now : Time)
    (d : ThreatDetector) : ThreatDetector * bool :=
  let fire :=
    {| analysis_history := analysis_history d;
       last_alert_time := <[alert_type := now]> (last_alert_time d) |} in
  match last_alert_time d !! alert_type with
  | None => (fire, true)
  | Some last =>
      if Qle_bool alert_cooldown (now - last) then (fire, true)
      else (d, false)
  end.

Section Detector.

(** [str] of a float inside an f-string; its digits are left open. *)
Variable str_float : Q → string.

Definition _analyze_system_metrics (system_data : SystemSnapshot)
    (now : Time) (d : ThreatDetector) : ThreatDetector * list Threat :=
  let cpu := default 0%Q (cpu_usage_percent system_data) in
  let threats1 :=
    if Qgtb cpu cpu_threshold then
      [mk_threat (stamp_id "cpu_abuse" now) now "resource_abuse"
         resource_abuse_severity
         ("High CPU usage detected: " +:+ str_float cpu +:+ "%")
         "system_monitor"
         (Some [("cpu_usage", DNum cpu); ("threshold", DNum cpu_threshold)])]
    else [] in
  let mem := default 0%Q (memory_usage_percent system_data) in
  let threats2 :=
    if Qgtb mem memory_threshold then
      [mk_threat (stamp_id "memory_abuse" now) now "resource_abuse"
         resource_abuse_severity
         ("High memory usage detected: " +:+ str_float mem +:+ "%")
         "system_monitor"
         (Some [("memory_usage", DNum mem);
                ("threshold", DNum memory_threshold)])]
    else [] in
  let disk := default 0%Q (disk_usage_percent system_data) in
  let threats3 :=
    if Qgtb disk disk_threshold then
      [mk_threat (stamp_id "disk_abuse" now) now "resource_abuse"
         resource_abuse_severity
         ("High disk usage detected: " +:+ str_float disk +:+ "%")
         "system_monitor"
         (Some [("disk_usage", DNum disk); ("threshold", DNum disk_threshold)])]
    else [] in
  let procs := default 0 (processes_total_count system_data) in
  if 500 <? procs then
    let '(d', send) := _should_send_alert "process_anomaly" now d in
    if send then
      (d', threats1 ++ threats2 ++ threats3 ++
         [mk_threat (stamp_id "process_anomaly" now) now "suspicious_process"
            suspicious_process_severity
            ("Unusually high number of processes: " +:+ pretty procs)
            "system_monitor"
            (Some [("process_count", DNum (inject_Z procs));
                   ("threshold", DNum 500)])])
    else (d', threats1 ++ threats2 ++ threats3)
  else (d, threats1 ++ threats2 ++ threats3).

Definition _analyze_network_traffic (network_data : NetworkSnapshot)
    (now : Time) : list Threat :=
  let total := default 0 (connections_total network_data) in
  let threats1 :=
    if connection_threshold <? total then
      [mk_threat (stamp_id "network_anomaly" now) now "network_anomaly"
         network_anomaly_severity
         ("Excessive network connections detected: " +:+ pretty total)
         "network_monitor"
         (Some [("connection_count", DNum (inject_Z total));
                ("threshold", DNum (inject_Z connection_threshold))])]
    else [] in
  let listening_ports := default 0 (connections_listening network_data) in
  let threats2 :=
    if port_scan_threshold <? listening_ports then
      [mk_threat (stamp_id "port_scan" now) now "network_anomaly"
         network_anomaly_severity
         ("High number of listening ports: " +:+ pretty listening_ports)
         "network_monitor"
         (Some [("listening_ports", DNum (inject_Z listening_ports));
                ("threshold", DNum (inject_Z port_scan_threshold))])]
    else [] in
  let errors_in := default 0 (traffic_errors_in network_data) in
  let errors_out := default 0 (traffic_errors_out network_data) in
  let threats3 :=
    if (100 <? errors_in) || (100 <? errors_out) then
      [mk_threat (stamp_id "network_errors" now) now "network_anomaly"
         "medium" "High network error rate detected" "network_monitor"
         (Some [("errors_in", DNum (inject_Z errors_in));
                ("errors_out", DNum (inject_Z errors_out))])]
    else [] in
  threats1 ++ threats2 ++ threats3.

Definition severity_is (sev : string) (e : Event) : bool :=
  match e_severity e with Some s => String.eqb s sev | None => false end.

Definition is_failed_login (e : Event) : bool :=
  contains (default "" (e_message e)) "Failed login attempt".

Definition _analyze_security_events (events : list Event) (now : Time)
    : list Threat :=
  let high_severity := List.filter (severity_is "high") events in
  let threats1 :=
    if (0 <? length high_severity)%nat then
      [mk_threat (stamp_id "high_severity_events" now) now "security_event"
         "high"
         ("Multiple high severity security events detected: "
            +:+ pretty (length high_severity))
         "security_monitor"
         (Some [("high_severity_count",
                 DNum (inject_Z (Z.of_nat (length high_severity))));
                ("events", DEvents (take 5 high_severity))])]
    else [] in
  let failed_logins := List.filter is_failed_login events in
  let threats2 :=
    if (failed_logins_threshold <=? length failed_logins)%nat then
      [mk_threat (stamp_id "brute_force" now) now "brute_force"
         brute_force_severity
         ("Potential brute force attack detected: "
            +:+ pretty (length failed_logins) +:+ " failed login attempts")
         "security_monitor"
         (Some [("failed_attempts",
                 DNum (inject_Z (Z.of_nat (length failed_logins))));
                ("threshold",
                 DNum (inject_Z (Z.of_nat failed_logins_threshold)))])]
    else [] in
  threats1 ++ threats2.

(** The [except] branch of [_analyze_patterns]. *)
Definition pattern_analysis_error (now : Time) : Threat :=
  {| t_id := Some (stamp_id "pattern_analysis_error" now);
     t_timestamp := Some now; t_type := Some "analysis_error";
     t_severity := Some "low";
     t_description := Some "Error analyzing patterns: list index out of range";
     t_source := Some "threat_detector"; t_details := None;
     t_status := Some "detected" |}.

Definition _analyze_patterns (security_data : SecurityData) (now : Time)
    : list Threat :=
  let cpu_part :=
    if (3 <=? length (system_metrics security_data))%nat then
      let recent_metrics := last_n 3 (system_metrics security_data) in
      let cpu_trend :=
        map (λ m, default 0%Q (cpu_usage_percent m)) recent_metrics in
      if (2 <=? length cpu_trend)%nat then
        match head cpu_trend, last cpu_trend with
        | Some first, Some latest =>
            if Qgtb (float_sub latest first) 30 then
              inl [mk_threat (stamp_id "rapid_cpu_increase" now) now
                     "resource_abuse" "medium"
                     "Rapid CPU usage increase detected" "pattern_analyzer"
                     (Some [("cpu_trend", DNums cpu_trend);
                            ("increase", DNum (float_sub latest first))])]
            else inl []
        | _, _ => inr tt
        end
      else inl []
    else inl [] in
  match cpu_part with
  | inr _ => [pattern_analysis_error now]
  | inl threats1 =>
      if (3 <=? length (network_traffic security_data))%nat then
        let recent_traffic := last_n 3 (network_traffic security_data) in
        let connection_counts :=
          map (λ t, default 0 (connections_total t)) recent_traffic in
        if (2 <=? length connection_counts)%nat then
          match head connection_counts, last connection_counts with
          | Some first, Some latest =>
              if 500 <? latest - first then
                threats1 ++
                [mk_threat (stamp_id "network_spike" now) now
                   "network_anomaly" "medium"
                   "Sudden network traffic spike detected" "pattern_analyzer"
                   (Some [("connection_trend",
                           DNums (map inject_Z connection_counts));
                          ("spike", DNum (inject_Z (latest - first)))])]
              else threats1
          | _, _ => threats1 ++ [pattern_analysis_error now]
          end
        else threats1
      else threats1
  end.

(** [analyze_data]; [duration] is the draw of [random.randint(50, 200)]. *)
Definition analyze_data (security_data : SecurityData) (now : Time)
    (duration : Z) (d : ThreatDetector) : ThreatDetector * list Threat :=
  let '(d1, system_threats) :=
    match last (system_metrics security_data) with
    | Some latest_system => _analyze_system_metrics latest_system now d
    | None => (d, [])
    end in
  let network_threats :=
    match last (network_traffic security_data) with
    | Some latest_network => _analyze_network_traffic latest_network now
    | None => []
    end in
  let event_threats :=
    match security_events security_data with
    | [] => []
    | _ :: _ => _analyze_security_events (security_events security_data) now
    end in
  let pattern_threats := _analyze_patterns security_data now in
  let threats :=
    system_threats ++ network_threats ++ event_threats ++ pattern_threats in
  let history :=
    analysis_history d1 ++
      [{| ar_timestamp := now; ar_threats_found := length threats;
          ar_analysis_duration_ms := duration |}] in
  let history :=
    if (100 <? length history)%nat then last_n 100 history else history in
  ({| analysis_history := history; last_alert_time := last_alert_time d1 |},
   threats).

End Detector.

(** ** alert_manager.py: data *)

Record Rule := {
  auto_resolve : bool;
  resolve_threshold : option Q;
  escalation_time : Q;
  notification_channels : list string
}.

(** [self.alert_rules] *)
Definition alert_rules : gmap string Rule :=
  list_to_map [
    ("resource_abuse",
     {| auto_resolve := true; resolve_threshold := Some 70%Q;
        escalation_time := 300; notification_channels := ["dashboard"; "log"] |});
    ("network_anomaly",
     {| auto_resolve := false; resolve_threshold := None;
        escalation_time := 180;
        notification_channels := ["dashboard"; "log"; "email"] |});
    ("brute_force",
     {| auto_resolve := false; resolve_threshold := None;
        escalation_time := 60;
        notification_channels := ["dashboard"; "log"; "email"; "sms"] |});
    ("security_event",
     {| auto_resolve := false; resolve_threshold := None;
        escalation_time := 120;
        notification_channels := ["dashboard"; "log"; "email"] |})
  ].

Record Level := {
  priority : Z;
  color : string;
  icon : string
}.

(** [self.severity_levels] *)
Definition severity_levels : gmap string Level :=
  list_to_map [
    ("low", {| priority := 1; color := "#28a745"; icon := "info-circle" |});
    ("medium",
     {| priority := 2; color := "#ffc107"; icon := "exclamation-triangle" |});
    ("high",
     {| priority := 3; color := "#fd7e14"; icon := "exclamation-circle" |});
    ("critical",
     {| priority := 4; color := "#dc3545"; icon := "times-circle" |})
  ].

(** ['escalation_time'] holds a [datetime] deadline at creation and the
    ISO string of the escalation instant after [escalate_alert]. *)
Inductive EscalationTime :=
| Deadline (t : Time)
| EscalatedAt (t : Time).

Record Alert := {
  a_id : string;
  a_threat_id : option string;
  a_timestamp : Time;
  a_type : string;
  a_severity : string;
  a_description : string;
  a_source : string;
  a_status : string;
  a_details : Details;
  a_priority : Z;
  a_color : string;
  a_icon : string;
  a_escalation_time : EscalationTime;
  a_auto_resolve : bool;
  a_notification_channels : list string;
  a_acknowledged : bool;
  a_acknowledged_by : option string;
  a_acknowledged_at : option Time;
  a_resolved : bool;
  a_resolved_at : option Time;
  a_resolution_notes : option string
}.

(** *** [==] on alert dicts, as [list.remove] uses it *)

Definition option_eqb {A} (eqb : A → A → bool) (x y : option A) : bool :=
  match x, y with
  | Some a, Some b => eqb a b
  | None, None => true
  | _, _ => false
  end.

Fixpoint list_eqb {A} (eqb : A → A → bool) (l1 l2 : list A) : bool :=
  match l1, l2 with
  | [], [] => true
  | x :: l1', y :: l2' => eqb x y && list_eqb eqb l1' l2'
  | _, _ => false
  end.

Definition event_eqb (e1 e2 : Event) : bool :=
  option_eqb String.eqb (e_severity e1) (e_severity e2)
  && option_eqb String.eqb (e_message e1) (e_message e2).

Definition detail_eqb (v1 v2 : DetailVal) : bool :=
  match v1, v2 with
  | DNum a, DNum b => Qeq_bool a b
  | DNums a, DNums b => list_eqb Qeq_bool a b
  | DEvents a, DEvents b => list_eqb event_eqb a b
  | _, _ => false
  end.

Fixpoint dict_get (k : string) (d : Details) : option DetailVal :=
  match d with
  | [] => None
  | (k', v) :: d' => if String.eqb k' k then Some v else dict_get k d'
  end.

(** Dict equality: same size, and every key of the first maps to an equal
    value in the second. *)
Definition details_eqb (d1 d2 : Details) : bool :=
  (length d1 =? length d2)%nat
  && forallb (λ kv, match dict_get kv.1 d2 with
                    | Some v' => detail_eqb kv.2 v'
                    | None => false
                    end) d1.

Definition escalation_time_eqb (x y : EscalationTime) : bool :=
  match x, y with
  | Deadline a, Deadline b => Qeq_bool a b
  | EscalatedAt a, EscalatedAt b => Qeq_bool a b
  | _, _ => false
  end.

Definition alert_eqb (a b : Alert) : bool :=
  String.eqb (a_id a) (a_id b)
  && option_eqb String.eqb (a_threat_id a) (a_threat_id b)
  && Qeq_bool (a_timestamp a) (a_timestamp b)
  && String.eqb (a_type a) (a_type b)
  && String.eqb (a_severity a) (a_severity b)
  && String.eqb (a_description a) (a_description b)
  && String.eqb (a_source a) (a_source b)
  && String.eqb (a_status a) (a_status b)
  && details_eqb (a_details a) (a_details b)
  && Z.eqb (a_priority a) (a_priority b)
  && String.eqb (a_color a) (a_color b)
  && String.eqb (a_icon a) (a_icon b)
  && escalation_time_eqb (a_escalation_time a) (a_escalation_time b)
  && Bool.eqb (a_auto_resolve a) (a_auto_resolve b)
  && list_eqb String.eqb (a_notification_channels a)
       (a_notification_channels b)
  && Bool.eqb (a_acknowledged a) (a_acknowledged b)
  && option_eqb String.eqb (a_acknowledged_by a) (a_acknowledged_by b)
  && option_eqb Qeq_bool (a_acknowledged_at a) (a_acknowledged_at b)
  && Bool.eqb (a_resolved a) (a_resolved b)
  && option_eqb Qeq_bool (a_resolved_at a) (a_resolved_at b)
  && option_eqb String.eqb (a_resolution_notes a) (a_resolution_notes b).

(** *** The field assignments of the three mutating operations *)

Definition set_acknowledged (user : string) (now : Time) (a : Alert) : Alert :=
  {| a_id := a_id a; a_threat_id := a_threat_id a;
     a_timestamp := a_timestamp a; a_type := a_type a;
     a_severity := a_severity a; a_description := a_description a;
     a_source := a_source a; a_status := a_status a;
     a_details := a_details a; a_priority := a_priority a;
     a_color := a_color a; a_icon := a_icon a;
     a_escalation_time := a_escalation_time a;
     a_auto_resolve := a_auto_resolve a;
     a_notification_channels := a_notification_channels a;
     a_acknowledged := true;
     a_acknowledged_by := Some user;
     a_acknowledged_at := Some now;
     a_resolved := a_resolved a; a_resolved_at := a_resolved_at a;
     a_resolution_notes := a_resolution_notes a |}.

Definition set_resolved (notes : option string) (now : Time) (a : Alert)
    : Alert :=
  {| a_id := a_id a; a_threat_id := a_threat_id a;
     a_timestamp := a_timestamp a; a_type := a_type a;
     a_severity := a_severity a; a_description := a_description a;
     a_source := a_source a;
     a_status := "resolved";
     a_details := a_details a; a_priority := a_priority a;
     a_color := a_color a; a_icon := a_icon a;
     a_escalation_time := a_escalation_time a;
     a_auto_resolve := a_auto_resolve a;
     a_notification_channels := a_notification_channels a;
     a_acknowledged := a_acknowledged a;
     a_acknowledged_by := a_acknowledged_by a;
     a_acknowledged_at := a_acknowledged_at a;
     a_resolved := true;
     a_resolved_at := Some now;
     a_resolution_notes := notes |}.

Definition set_escalated (now : Time) (a : Alert) : Alert :=
  {| a_id := a_id a; a_threat_id := a_threat_id a;
     a_timestamp := a_timestamp a; a_type := a_type a;
     a_severity := a_severity a; a_description := a_description a;
     a_source := a_source a;
     a_status := "escalated";
     a_details := a_details a; a_priority := a_priority a;
     a_color := a_color a; a_icon := a_icon a;
     a_escalation_time := EscalatedAt now;
     a_auto_resolve := a_auto_resolve a;
     a_notification_channels := a_notification_channels a;
     a_acknowledged := a_acknowledged a;
     a_acknowledged_by := a_acknowledged_by a;
     a_acknowledged_at := a_acknowledged_at a;
     a_resolved := a_resolved a; a_resolved_at := a_resolved_at a;
     a_resolution_notes := a_resolution_notes a |}.

(** *** The manager and the objects it shares with its callers *)

(** A reference is an index into the heap. *)
Abbreviation Ref := nat.

(** The lines the manager prints. *)
Inductive LogLine :=
| NewAlertCreated (description severity : string)
| AlertAcknowledged (alert_id user : string)
| AlertResolved (alert_id user : string)
| AlertEscalated (alert_id : string)
| AutoResolved (resolved_count : nat)
| CleanedUp (removed_count : nat)
| ErrorPrinted (doing : string).

(** [heap] holds every alert dict ever allocated; [alerts] and
    [alert_history] are the two lists of [self], holding references. *)
Record AlertManager := {
  heap : list Alert;
  alerts : list Ref;
  alert_history : list Ref;
  stdout : list LogLine
}.

Definition AlertManager_init : AlertManager :=
  {| heap := []; alerts := []; alert_history := []; stdout := [] |}.

(** ** alert_manager.py: operations

    Every operation takes the manager and returns the manager after the
    call together with the value returned. *)

(** [create_alert]; [rnd] is the draw of [random.randint(1000, 9999)].
    The alert appended to [self.alerts] and the [alert.copy()] appended to
    the history are two objects; the reference of the first is returned. *)
Definition create_alert (threat : Threat) (now : Time) (rnd : Z)
    (m : AlertManager) : AlertManager * Ref :=
  let alert_id := "alert_" +:+ pretty (int_of now) +:+ "_" +:+ pretty rnd in
  let ty := default "unknown" (t_type threat) in
  let sev := default "medium" (t_severity threat) in
  let alert :=
    {| a_id := alert_id;
       a_threat_id := t_id threat;
       a_timestamp := now;
       a_type := ty;
       a_severity := sev;
       a_description := default "Unknown threat detected" (t_description threat);
       a_source := default "unknown" (t_source threat);
       a_status := "active";
       a_details := default [] (t_details threat);
       a_priority := default 1 (priority <$> severity_levels !! sev);
       a_color := default "#6c757d" (color <$> severity_levels !! sev);
       a_icon := default "question-circle" (icon <$> severity_levels !! sev);
       a_escalation_time :=
         Deadline
           (now + default 300%Q (escalation_time <$> alert_rules !! ty))%Q;
       a_auto_resolve := default false (auto_resolve <$> alert_rules !! ty);
       a_notification_channels :=
         default ["dashboard"] (notification_channels <$> alert_rules !! ty);
       a_acknowledged := false;
       a_acknowledged_by := None;
       a_acknowledged_at := None;
       a_resolved := false;
       a_resolved_at := None;
       a_resolution_notes := None |} in
  let r := length (heap m) in
  let history := alert_history m ++ [S r] in
  let history :=
    if (1000 <? length history)%nat then last_n 1000 history else history in
  ({| heap := heap m ++ [alert; alert];
      alerts := alerts m ++ [r];
      alert_history := history;
      stdout := stdout m ++ [NewAlertCreated (a_description alert) sev] |},
   r).

(** [_find_alert]: the first alert of [self.alerts] carrying the id. *)
Fixpoint find_in (h : list Alert) (alert_id : string) (l : list Ref)
    : option (Ref * Alert) :=
  match l with
  | [] => None
  | r :: l' =>
      match h !! r with
      | Some alert =>
          if String.eqb (a_id alert) alert_id then Some (r, alert)
          else find_in h alert_id l'
      | None => find_in h alert_id l'
      end
  end.

Definition _find_alert (alert_id : string) (m : AlertManager)
    : option (Ref * Alert) :=
  find_in (heap m) alert_id (alerts m).

Definition acknowledge_alert (alert_id user : string) (now : Time)
    (m : AlertManager) : AlertManager * bool :=
  match _find_alert alert_id m with
  | Some (r, alert) =>
      ({| heap := <[r := set_acknowledged user now alert]> (heap m);
          alerts := alerts m;
          alert_history := alert_history m;
          stdout := stdout m ++ [AlertAcknowledged alert_id user] |}, true)
  | None => (m, false)
  end.

(** [l.remove(x)] on a list of alert objects: drops the first item that
    is [x] itself or compares equal to it; [None] stands for ValueError. *)
Definition same_value (h : list Alert) (r1 r2 : Ref) : bool :=
  match h !! r1, h !! r2 with
  | Some a, Some b => alert_eqb a b
  | _, _ => false
  end.

Fixpoint list_remove (h : list Alert) (r : Ref) (l : list Ref)
    : option (list Ref) :=
  match l with
  | [] => None
  | r' :: l' =>
      if (r' =? r)%nat || same_value h r' r then Some l'
      else cons r' <$> list_remove h r l'
  end.

Definition resolve_alert (alert_id user : string) (notes : option string)
    (now : Time) (m : AlertManager) : AlertManager * bool :=
  match _find_alert alert_id m with
  | Some (r, alert) =>
      let h := <[r := set_resolved notes now alert]> (heap m) in
      match list_remove h r (alerts m) with
      | Some l =>
          ({| heap := h; alerts := l; alert_history := alert_history m;
              stdout := stdout m ++ [AlertResolved alert_id user] |}, true)
      | None =>
          ({| heap := h; alerts := alerts m;
              alert_history := alert_history m;
              stdout := stdout m ++ [ErrorPrinted "resolving alert"] |},
           false)
      end
  | None => (m, false)
  end.

Definition escalate_alert (alert_id : string) (now : Time)
    (m : AlertManager) : AlertManager * bool :=
  match _find_alert alert_id m with
  | Some (r, alert) =>
      if String.eqb (a_status alert) "active" then
        ({| heap := <[r := set_escalated now alert]> (heap m);
            alerts := alerts m;
            alert_history := alert_history m;
            stdout := stdout m ++ [AlertEscalated alert_id] |}, true)
      else (m, false)
  | None => (m, false)
  end.

Definition _check_resource_resolution (alert : Alert)
    (current_metrics : SecurityData) : bool :=
  match last (system_metrics current_metrics) with
  | None => false
  | Some latest_metrics =>
      match alert_rules !! "resource_abuse" ≫= resolve_threshold with
      | None => false
      | Some threshold =>
          if startswith (a_description alert) "High CPU usage" then
            Qltb (default 0%Q (cpu_usage_percent latest_metrics)) threshold
          else if startswith (a_description alert) "High memory usage" then
            Qltb (default 0%Q (memory_usage_percent latest_metrics)) threshold
          else if startswith (a_description alert) "High disk usage" then
            Qltb (default 0%Q (disk_usage_percent latest_metrics)) threshold
          else false
      end
  end.

Definition _check_network_resolution (alert : Alert)
    (current_metrics : SecurityData) : bool :=
  match last (network_traffic current_metrics) with
  | None => false
  | Some latest_network =>
      if startswith (a_description alert) "Excessive network connections" then
        default 0 (connections_total latest_network) <? 1000
      else if startswith (a_description alert)
                "High number of listening ports" then
        default 0 (connections_listening latest_network) <? 30
      else false
  end.

(** One turn of the loop of [auto_resolve_alerts] on the alert [r] of the
    copied list; the return value of [resolve_alert] is not looked at. *)
Definition auto_resolve_step (current_metrics : SecurityData) (now : Time)
    (acc : AlertManager * nat) (r : Ref) : AlertManager * nat :=
  let '(m, resolved_count) := acc in
  match heap m !! r with
  | None => acc
  | Some alert =>
      if negb (a_auto_resolve alert) then acc
      else if String.eqb (a_type alert) "resource_abuse" then
        if _check_resource_resolution alert current_metrics then
          ((resolve_alert (a_id alert) "system_auto_resolve"
              (Some "Resource usage normalized") now m).1,
           S resolved_count)
        else acc
      else if String.eqb (a_type alert) "network_anomaly" then
        if _check_network_resolution alert current_metrics then
          ((resolve_alert (a_id alert) "system_auto_resolve"
              (Some "Network activity normalized") now m).1,
           S resolved_count)
        else acc
      else acc
  end.

Definition auto_resolve_loop (current_metrics : SecurityData) (now : Time)
    (m : AlertManager) : AlertManager * nat :=
  foldl (auto_resolve_step current_metrics now) (m, 0%nat) (alerts m).

(** [auto_resolve_alerts] has no [return] statement: the value of the
    call is Python's [None], here the [None] of [option Z]. *)
Definition auto_resolve_alerts (current_metrics : SecurityData) (now : Time)
    (m : AlertManager) : AlertManager * option Z :=
  let '(m', resolved_count) := auto_resolve_loop current_metrics now m in
  (if (0 <? resolved_count)%nat then
     {| heap := heap m'; alerts := alerts m';
        alert_history := alert_history m';
        stdout := stdout m' ++ [AutoResolved resolved_count] |}
   else m',
   None).

Definition status_is (h : list Alert) (status : string) (r : Ref) : bool :=
  match h !! r with
  | Some alert => String.eqb (a_status alert) status
  | None => false
  end.

Definition get_active_alerts (m : AlertManager) : list Ref :=
  List.filter (status_is (heap m) "active") (alerts m).

Record AlertStatistics := {
  total_alerts : nat;
  active_alerts : nat;
  escalated_alerts : nat;
  by_severity : gmap string nat;
  by_type : gmap string nat;
  by_status : gmap string nat;
  total_history : nat
}.

Definition count_by (key : Alert → string) (h : list Alert) (l : list Ref)
    : gmap string nat :=
  foldl (λ counts r,
           match h !! r with
           | Some alert =>
               <[key alert := (default 0 (counts !! key alert) + 1)%nat]> counts
           | None => counts
           end) ∅ l.

Definition get_alert_statistics (m : AlertManager) : AlertStatistics :=
  {| total_alerts := length (alerts m);
     active_alerts :=
       length (List.filter (status_is (heap m) "active") (alerts m));
     escalated_alerts :=
       length (List.filter (status_is (heap m) "escalated") (alerts m));
     by_severity := count_by a_severity (heap m) (alerts m);
     by_type := count_by a_type (heap m) (alerts m);
     by_status := count_by a_status (heap m) (alerts m);
     total_history := length (alert_history m) |}.

(** What [datetime] and [timedelta] can hold. Instants are seconds from
    the start of 1970 on the wall clock: [datetime] reaches from
    0001-01-01 up to, not including, 10000-01-01, and [timedelta] holds
    at most 999999999 days either way. Beyond that the arithmetic raises
    OverflowError. *)
Definition datetime_min : Q := (-62135596800)%Q.
Definition datetime_end : Q := 253402300800%Q.
Definition timedelta_max_days : Z := 999999999.

(** Whether [datetime.now() - timedelta(days=days)] has a value. *)
Definition cutoff_in_range (days : Z) (now : Time) : bool :=
  (Z.abs days <=? timedelta_max_days)
  && Qle_bool datetime_min (now - inject_Z days * 86400)
  && Qltb (now - inject_Z days * 86400) datetime_end.

(** [cleanup_old_alerts]: a day is 86400 seconds of the clock. When the
    cutoff date overflows, the [except] branch prints the error and the
    history stays as it is. *)
Definition cleanup_old_alerts (days : Z) (now : Time) (m : AlertManager)
    : AlertManager :=
  if cutoff_in_range days now then
    let cutoff_date := (now - inject_Z days * 86400)%Q in
    let kept :=
      List.filter (λ r, match heap m !! r with
                        | Some alert => Qgtb (a_timestamp alert) cutoff_date
                        | None => false
                        end) (alert_history m) in
    {| heap := heap m; alerts := alerts m; alert_history := kept;
       stdout :=
         if (length kept <? length (alert_history m))%nat then
           stdout m ++ [CleanedUp (length (alert_history m) - length kept)]
         else stdout m |}
  else
    {| heap := heap m; alerts := alerts m; alert_history := alert_history m;
       stdout := stdout m ++ [ErrorPrinted "cleaning up old alerts"] |}.

(** [str.lower] on the letters A to Z; no other character lowers to a
    letter of "json" or "csv". *)
Definition lower_ascii (c : Ascii.ascii) : Ascii.ascii :=
  let n := Ascii.nat_of_ascii c in
  if (65 <=? n)%nat && (n <=? 90)%nat then Ascii.ascii_of_nat (n + 32) else c.

Fixpoint lower (s : string) : string :=
  match s with
  | EmptyString => EmptyString
  | String c s' => String (lower_ascii c) (lower s')
  end.

Definition csv_headers : list string :=
  ["id"; "threat_id"; "timestamp"; "type"; "severity"; "description";
   "source"; "status"; "details"; "priority"; "color"; "icon";
   "escalation_time"; "auto_resolve"; "notification_channels";
   "acknowledged"; "acknowledged_by"; "acknowledged_at"; "resolved";
   "resolved_at"; "resolution_notes"].

Definition join (sep : string) (l : list string) : string :=
  match l with
  | [] => ""
  | x :: l' => foldl (λ acc y, acc +:+ sep +:+ y) x l'
  end.

Section ExportAlerts.

(** [json.dumps(alerts, indent=2, default=str)] and [str(alert.get(h, ''))]
    are left open. *)
Variable json_dumps : list Alert → string.
Variable str_field : Alert → string → string.

Definition export_alerts (format : string) (m : AlertManager)
    : AlertManager * string :=
  let objects := omap (λ r, heap m !! r) (alerts m) in
  if String.eqb (lower format) "json" then (m, json_dumps objects)
  else if String.eqb (lower format) "csv" then
    match objects with
    | [] => (m, "No alerts to export")
    | _ =>
        let csv_lines :=
          join "," csv_headers ::
          map (λ alert, join "," (map (str_field alert) csv_headers)) objects in
        (m, join "
" csv_lines)
    end
  else (m, "Unsupported format. Use 'json' or 'csv'").

End ExportAlerts.

(** ** Runs of the manager *)

Inductive Op :=
| Create (threat : Threat) (now : Time) (rnd : Z)
| Acknowledge (alert_id user : string) (now : Time)
| Resolve (alert_id user : string) (notes : option string) (now : Time)
| Escalate (alert_id : string) (now : Time)
| AutoResolve (current_metrics : SecurityData) (now : Time)
| Cleanup (days : Z) (now : Time).

Definition step (m : AlertManager) (op : Op) : AlertManager :=
  match op with
  | Create threat now rnd => (create_alert threat now rnd m).1
  | Acknowledge alert_id user now => (acknowledge_alert alert_id user now m).1
  | Resolve alert_id user notes now =>
      (resolve_alert alert_id user notes now m).1
  | Escalate alert_id now => (escalate_alert alert_id now m).1
  | AutoResolve current_metrics now =>
      (auto_resolve_alerts current_metrics now m).1
  | Cleanup days now => cleanup_old_alerts days now m
  end.

(** The manager after the operations [ops], issued in order on a fresh
    [AlertManager()]. A run consists of calls to the manager only: what a
    caller writes itself into an alert dict it was handed is no part
    of it. *)
Definition run (ops : list Op) : AlertManager :=
  foldl step AlertManager_init ops.

(** What every run maintains: the listed alerts are distinct, live and
    unresolved; a history entry is an object of its own, as created; and
    on every alert object the status and the flag agree. *)
Record wf (m : AlertManager) : Prop := {
  wf_nodup : NoDup (alerts m);
  wf_alerts : ∀ r, r ∈ alerts m →
    ∃ a, heap m !! r = Some a ∧ a_resolved a = false
         ∧ (a_status a = "active" ∨ a_status a = "escalated");
  wf_history : ∀ r, r ∈ alert_history m →
    (r ∉ alerts m)
    ∧ ∃ a, heap m !! r = Some a ∧ a_resolved a = false
           ∧ a_status a = "active";
  wf_heap : ∀ r a, heap m !! r = Some a →
    (a_status a = "resolved" ↔ a_resolved a = true)
}.

(** ** Observations on the threats of a pass *)

Definition has_type (ty : string) (t : Threat) : bool :=
  match t_type t with Some s => String.eqb s ty | None => false end.

Definition has_source (src : string) (t : Threat) : bool :=
  match t_source t with Some s => String.eqb s src | None => false end.

Definition count_type (ty : string) (threats : list Threat) : nat :=
  length (List.filter (has_type ty) threats).

Definition count_source (src : string) (threats : list Threat) : nat :=
  length (List.filter (has_source src) threats).

(** The kind labels that open the threat ids of [analyze_data]. *)
Definition threat_kinds : list string :=
  ["cpu_abuse"; "memory_abuse"; "disk_abuse"; "process_anomaly";
   "network_anomaly"; "port_scan"; "network_errors";
   "high_severity_events"; "brute_force";
   "rapid_cpu_increase"; "network_spike"; "pattern_analysis_error"].

(** ** Concrete inputs *)

Definition cpu_snapshot (c : Q) : SystemSnapshot :=
  {| cpu_usage_percent := Some c; memory_usage_percent := None;
     disk_usage_percent := None; processes_total_count := None |}.


Definition system_history (l : list SystemSnapshot) : SecurityData :=
  {| system_metrics := l; network_traffic := []; security_events := [] |}.

(** A float that holds a whole number, printed without its fraction. *)
Definition str_whole (x : Q) : string := pretty (int_of x).

Definition high_cpu_threat : Threat :=
  mk_threat "cpu_abuse_1700000000" 1700000000 "resource_abuse" "medium"
    "High CPU usage detected: 96%" "system_monitor"
    (Some [("cpu_usage", DNum 96); ("threshold", DNum 95)]).

(** One alert, created from [high_cpu_threat] with the draw 4242. *)
Definition one_alert : list Op := [Create high_cpu_threat 1700000000 4242].

(** The same alert, then resolved by its id a minute later. *)
Definition one_alert_resolved : list Op :=
  one_alert ++ [Resolve "alert_1700000000_4242" "alice" None 1700000060].

(** A threat of a type that is not auto-resolve eligible. *)
Definition failed_login_threat : Threat :=
  mk_threat "brute_force_1700000000" 1700000000 "brute_force" "high"
    "Potential brute force attack detected: 5 failed login attempts"
    "security_monitor"
    (Some [("failed_attempts", DNum 5); ("threshold", DNum 5)]).

(** Two alerts created within one second with the same draw: they carry
    the same id. *)
Definition colliding_alerts : list Op :=
  [Create failed_login_threat 1700000000 4242;
   Create high_cpu_threat 1700000000 4242].

(** The CPU threat that a pass at [now] emits for the usage [c]. *)
Definition cpu_threat_at (c : Q) (now : Time) : Threat :=
  mk_threat (stamp_id "cpu_abuse" now) now "resource_abuse"
    resource_abuse_severity
    ("High CPU usage detected: " +:+ str_whole c +:+ "%") "system_monitor"
    (Some [("cpu_usage", DNum c); ("threshold", DNum cpu_threshold)]).

(** ** alert_manager.py: the remaining queries *)

Definition get_alerts_by_severity (severity : string) (m : AlertManager)
    : list Ref :=
  List.filter (λ r, match heap m !! r with
                    | Some alert => String.eqb (a_severity alert) severity
                    | None => false
                    end) (alerts m).

Definition get_alerts_by_type (alert_type : string) (m : AlertManager)
    : list Ref :=
  List.filter (λ r, match heap m !! r with
                    | Some alert => String.eqb (a_type alert) alert_type
                    | None => false
                    end) (alerts m).

(** The only rule of [alert_rules] with [auto_resolve] set is that of
    [resource_abuse]; a manager keeps this on every alert object. *)
Definition eligible_is_resource (m : AlertManager) : Prop :=
  ∀ r a, heap m !! r = Some a → a_auto_resolve a = true →
         a_type a = "resource_abuse".

(** ** The threats a pass can return

    The type and the severity of the threats built in
    [threat_detector.py], outside the [except] branches. *)
Definition detected_shapes : list (option string * option string) :=
  [(Some "resource_abuse", Some "medium");
   (Some "suspicious_process", Some "medium");
   (Some "network_anomaly", Some "high");
   (Some "network_anomaly", Some "medium");
   (Some "security_event", Some "high");
   (Some "brute_force", Some "high")].

(** ** What an alert keeps for life

    The keys of an alert dict that no method of the manager assigns
    after [create_alert]. *)
Definition origin (a : Alert) :=
  (a_id a, a_threat_id a, a_timestamp a, a_type a, a_severity a,
   a_description a, a_source a, a_details a, a_priority a, a_color a,
   a_icon a, a_auto_resolve a, a_notification_channels a).

(** [a'] is a later state of the alert object [a]. *)
Definition later (a a' : Alert) : Prop :=
  origin a' = origin a
  ∧ (a_resolved a = true → a' = a)
  ∧ (a_acknowledged a = true → a_acknowledged a' = true)
  ∧ (a_status a ≠ "active" → a_status a' ≠ "active").

Definition heap_later (h h' : list Alert) : Prop :=
  ∀ r a, h !! r = Some a → ∃ a', h' !! r = Some a' ∧ later a a'.

(** ** security_monitor.py

    The readings of [psutil] and the clock are arguments. *)

Record AlertThresholds := {
  th_cpu_usage : Q;
  th_memory_usage : Q;
  th_disk_usage : Q;
  th_network_connections : Z;
  th_failed_login_attempts : Z
}.

(** [self.alert_thresholds] *)
Definition alert_thresholds : AlertThresholds :=
  {| th_cpu_usage := 80; th_memory_usage := 85; th_disk_usage := 90;
     th_network_connections := 1000; th_failed_login_attempts := 5 |}.

Record SystemHealth := {
  h_timestamp : Time;
  h_health_score : Z;
  h_cpu_usage : Q;
  h_memory_usage : Q;
  h_disk_usage : Q;
  h_status : string
}.

(** [get_system_health], on the three percentages read. *)
Definition get_system_health (cpu_percent memory_percent disk_percent : Q)
    (now : Time) : SystemHealth :=
  let health_score := 100 in
  let health_score :=
    if Qgtb cpu_percent (th_cpu_usage alert_thresholds)
    then health_score - 20 else health_score in
  let health_score :=
    if Qgtb memory_percent (th_memory_usage alert_thresholds)
    then health_score - 20 else health_score in
  let health_score :=
    if Qgtb disk_percent (th_disk_usage alert_thresholds)
    then health_score - 20 else health_score in
  {| h_timestamp := now;
     h_health_score := Z.max health_score 0;
     h_cpu_usage := cpu_percent;
     h_memory_usage := memory_percent;
     h_disk_usage := disk_percent;
     h_status :=
       if 70 <? health_score then "healthy"
       else if 40 <? health_score then "warning" else "critical" |}.

Definition _format_uptime (seconds : Q) : string :=
  let days := int_of (float_floordiv seconds 86400) in
  let hours := int_of (float_floordiv (float_mod seconds 86400) 3600) in
  let minutes := int_of (float_floordiv (float_mod seconds 3600) 60) in
  if 0 <? days then
    pretty days +:+ "d " +:+ pretty hours +:+ "h " +:+ pretty minutes +:+ "m"
  else if 0 <? hours then
    pretty hours +:+ "h " +:+ pretty minutes +:+ "m"
  else pretty minutes +:+ "m".

(** ** threat_detector.py: the statistics

    [self.detected_threats] is set to the empty list by [__init__]; no
    method assigns it or appends to it. The detector object is the
    state above together with this list. *)
Record DetectorObject := {
  detected_threats : list Threat;
  detector : ThreatDetector
}.

Definition DetectorObject_init : DetectorObject :=
  {| detected_threats := []; detector := ThreatDetector_init |}.

(** One call of [analyze_data] on the object. *)
Record Pass := {
  p_security_data : SecurityData;
  p_now : Time;
  p_duration : Z
}.

Definition analyze_pass (str_float : Q → string) (o : DetectorObject)
    (p : Pass) : DetectorObject :=
  {| detected_threats := detected_threats o;
     detector :=
       (analyze_data str_float (p_security_data p) (p_now p) (p_duration p)
          (detector o)).1 |}.

Record ThreatStatistics := {
  ts_total_threats : nat;
  ts_by_type : gmap string nat;
  ts_by_severity : gmap string nat;
  ts_by_source : gmap string nat;
  (** the key ['last_analysis'], absent from the first dict returned *)
  ts_last_analysis : option (option AnalysisRecord)
}.

Definition count_threats (key : Threat → option string)
    (threats : list Threat) : gmap string nat :=
  foldl (λ counts threat,
           let k := default "unknown" (key threat) in
           <[k := (default 0 (counts !! k) + 1)%nat]> counts) ∅ threats.

Definition get_threat_statistics (o : DetectorObject) : ThreatStatistics :=
  match detected_threats o with
  | [] =>
      {| ts_total_threats := 0; ts_by_type := ∅; ts_by_severity := ∅;
         ts_by_source := ∅; ts_last_analysis := None |}
  | _ :: _ =>
      {| ts_total_threats := length (detected_threats o);
         ts_by_type := count_threats t_type (detected_threats o);
         ts_by_severity := count_threats t_severity (detected_threats o);
         ts_by_source := count_threats t_source (detected_threats o);
         ts_last_analysis := Some (last (analysis_history (detector o))) |}
  end.

(** ** security_monitor.py: the vulnerability check

    The connections and the processes [psutil] lists are arguments. The
    order in which Python iterates over the set of open ports is not
    fixed by the language; here it is the order of [elements]. *)
Record Connection := {
  c_status : string;
  c_laddr_port : Z
}.

Record ProcInfo := {
  pi_pid : Z;
  pi_name : option string;
  pi_username : option string
}.

Record Vulnerability := {
  v_type : string;
  v_severity : string;
  v_description : string;
  v_port : option Z;
  v_process : option ProcInfo
}.

Definition suspicious_ports : gset Z :=
  list_to_set [22; 23; 3389; 5900; 8080; 8443].

(** [str] of a process name inside an f-string. *)
Definition str_name (name : option string) : string := default "None" name.

Definition is_high_privilege (proc : ProcInfo) : bool :=
  bool_decide (pi_username proc = Some "root")
  || bool_decide (pi_username proc = Some "SYSTEM").

Definition check_security_vulnerabilities (connections : list Connection)
    (processes : list ProcInfo) : list Vulnerability :=
  let open_ports : gset Z :=
    list_to_set
      (c_laddr_port <$>
         List.filter (λ conn, String.eqb (c_status conn) "LISTEN")
           connections) in
  let vulnerabilities :=
    (λ port,
       {| v_type := "open_port"; v_severity := "medium";
          v_description :=
            "Port " +:+ pretty port +:+ " is open and listening";
          v_port := Some port; v_process := None |})
    <$> List.filter (λ port, bool_decide (port ∈ suspicious_ports))
          (elements open_ports) in
  vulnerabilities ++
  ((λ proc,
      {| v_type := "high_privilege_process"; v_severity := "low";
         v_description :=
           "Process " +:+ str_name (pi_name proc)
             +:+ " running with high privileges";
         v_port := None; v_process := Some proc |})
   <$> List.filter is_high_privilege processes).

(** ** Further concrete inputs *)

Definition usage_snapshot (cpu memory disk : Q) : SystemSnapshot :=
  {| cpu_usage_percent := Some cpu; memory_usage_percent := Some memory;
     disk_usage_percent := Some disk; processes_total_count := Some 120 |}.

Definition net_snapshot (total listening : Z) : NetworkSnapshot :=
  {| connections_total := Some total; connections_listening := Some listening;
     traffic_errors_in := Some 0; traffic_errors_out := Some 3 |}.

Definition high_memory_threat : Threat :=
  mk_threat "memory_abuse_1700000000" 1700000000 "resource_abuse" "medium"
    "High memory usage detected: 99%" "system_monitor"
    (Some [("memory_usage", DNum 99); ("threshold", DNum 98)]).

Definition high_disk_threat : Threat :=
  mk_threat "disk_abuse_1700000000" 1700000000 "resource_abuse" "medium"
    "High disk usage detected: 97%" "system_monitor"
    (Some [("disk_usage", DNum 97); ("threshold", DNum 95)]).

Definition cpu_trend_threat : Threat :=
  mk_threat "rapid_cpu_increase_1700000000" 1700000000 "resource_abuse"
    "medium" "Rapid CPU usage increase detected" "pattern_analyzer"
    (Some [("cpu_trend", DNums [40; 50; 75]%Q); ("increase", DNum 35)]).

(** Three alerts of type [resource_abuse], created in one second with
    different draws. *)
Definition resource_alerts : list Op :=
  [Create high_memory_threat 1700000000 5151;
   Create high_disk_threat 1700000000 6262;
   Create cpu_trend_threat 1700000000 7373].

(** What a caller may try on an alert after it was resolved. *)
Definition late_calls : list Op :=
  [Acknowledge "alert_1700000000_4242" "bob" 1700000070;
   Escalate "alert_1700000000_4242" 1700000080;
   Create failed_login_threat 1700000090 4242;
   AutoResolve (system_history [cpu_snapshot 10]) 1700000100].

(** * Proofs *)

(** ** Binary64 rounding *)

Lemma float_round_comp x y : (x == y)%Q → float_round x = float_round y.
Proof. intros H. unfold float_round. by rewrite (Qred_complete _ _ H). Qed.

Lemma round_half_even_Z x n : (x == inject_Z n)%Q → round_half_even x = n.
Proof.
  intros H. unfold round_half_even.
  assert (Qfloor x = n) as -> by (rewrite H; apply Qfloor_Z).
  assert ((x - inject_Z n ?= 1 # 2)%Q = Lt) as ->; [|done].
  assert (x - inject_Z n == 0)%Q as H0 by (rewrite H; ring).
  apply Qlt_alt. by rewrite H0.
Qed.

Lemma float_round_Z x n :
  (x == inject_Z n)%Q → 0 ≤ n < 2 ^ 53 → (float_round x == inject_Z n)%Q.
Proof.
  intros H Hn. rewrite (float_round_comp _ _ H). unfold float_round.
  rewrite (Qcanon.Qred_identity (inject_Z n)) by apply Z.gcd_1_r.
  destruct (Qeq_bool (inject_Z n) 0) eqn:E0.
  - apply Qeq_bool_iff in E0. by rewrite E0.
  - assert (0 < n) as Hpos.
    { destruct (decide (n = 0)) as [->|]; [done|lia]. }
    assert (Qabs (inject_Z n) = inject_Z n) as ->.
    { unfold Qabs, inject_Z. by rewrite Z.abs_eq by lia. }
    assert (floor_log2 (inject_Z n) = Z.log2 n) as ->.
    { unfold floor_log2. cbn [Qnum Qden inject_Z].
      change (Z.log2 1) with 0. rewrite Z.sub_0_r.
      assert (Qle_bool (2 ^ Z.log2 n) (inject_Z n) = true) as ->; [|done].
      apply Qle_bool_iff.
      rewrite <- (Zpower_Qpower 2 (Z.log2 n)) by apply Z.log2_nonneg.
      rewrite <- Zle_Qle. by apply Z.log2_spec. }
    pose proof (Z.log2_nonneg n) as Hlog.
    assert (Z.log2 n < 53) as Hlog' by (apply Z.log2_lt_pow2; lia).
    rewrite Z.max_l by lia.
    set (j := 52 - Z.log2 n).
    replace (Z.log2 n - 52) with (- j) by lia.
    assert (2 ^ (- j) == / inject_Z (2 ^ j))%Q as Hpow.
    { rewrite Qpower_opp. by rewrite (Zpower_Qpower 2 j) by lia. }
    assert (0 < inject_Z (2 ^ j))%Q as Hj.
    { change 0%Q with (inject_Z 0). rewrite <- Zlt_Qlt.
      apply Z.pow_pos_nonneg; lia. }
    rewrite (round_half_even_Z _ (n * 2 ^ j)).
    + rewrite Hpow, inject_Z_mult. field. lra.
    + rewrite Hpow, inject_Z_mult. field. lra.
Qed.


(** ** Lookup by id and removal *)

Lemma find_in_Some h alert_id l r a :
  find_in h alert_id l = Some (r, a) →
  ∃ l1 l2, l = l1 ++ r :: l2 ∧ h !! r = Some a ∧ a_id a = alert_id
    ∧ ∀ r' a', r' ∈ l1 → h !! r' = Some a' → a_id a' ≠ alert_id.
Proof.
  induction l as [|x l IH]; simpl; [done|].
  destruct (h !! x) as [b|] eqn:Hx.
  - destruct (String.eqb_spec (a_id b) alert_id) as [Heq|Hne].
    + intros [= -> ->]. exists [], l. split_and!; [done..|].
      intros r' a' Hin. by apply elem_of_nil in Hin.
    + intros (l1 & l2 & -> & Hr & Hid & Hfirst)%IH.
      exists (x :: l1), l2. split_and!; [done..|].
      intros r' a' [->|Hin]%elem_of_cons Hr'; [congruence|eauto].
  - intros (l1 & l2 & -> & Hr & Hid & Hfirst)%IH.
    exists (x :: l1), l2. split_and!; [done..|].
    intros r' a' [->|Hin]%elem_of_cons Hr'; [congruence|eauto].
Qed.


(** An alert that is listed is found by its own id, at or before its
    place in the list. *)
Lemma find_in_at h l1 r l2 a :
  h !! r = Some a →
  ∃ r' a' k1 k2, find_in h (a_id a) (l1 ++ r :: l2) = Some (r', a')
    ∧ l1 ++ [r] = k1 ++ r' :: k2.
Proof.
  intros Hr. induction l1 as [|x l1 IH]; simpl.
  - rewrite Hr, String.eqb_refl. by exists r, a, [], [].
  - destruct IH as (r' & a' & k1 & k2 & Hf & Hk).
    destruct (h !! x) as [b|].
    + destruct (String.eqb (a_id b) (a_id a)).
      * by exists x, b, [], (l1 ++ [r]).
      * exists r', a', (x :: k1), k2. by rewrite Hf, Hk.
    + exists r', a', (x :: k1), k2. by rewrite Hf, Hk.
Qed.

Lemma alert_eqb_resolved a b :
  alert_eqb a b = true → a_resolved a = a_resolved b.
Proof.
  unfold alert_eqb. rewrite !andb_true_iff.
  intros [[[_ H] _] _]. by apply Bool.eqb_prop.
Qed.

Lemma same_value_resolved h r1 r2 a b :
  h !! r1 = Some a → h !! r2 = Some b →
  a_resolved a ≠ a_resolved b → same_value h r1 r2 = false.
Proof.
  intros H1 H2 Hne. unfold same_value. rewrite H1, H2.
  destruct (alert_eqb a b) eqn:E; [|done].
  by apply alert_eqb_resolved in E.
Qed.

Lemma list_remove_at h r l1 l2 :
  (∀ r', r' ∈ l1 → r' ≠ r ∧ same_value h r' r = false) →
  list_remove h r (l1 ++ r :: l2) = Some (l1 ++ l2).
Proof.
  induction l1 as [|x l1 IH]; simpl; intros Hl1.
  - by rewrite Nat.eqb_refl.
  - destruct (Hl1 x) as [Hne Hsv]; [by left|].
    apply Nat.eqb_neq in Hne. rewrite Hne, Hsv. simpl.
    rewrite IH; [done|]. intros r' ?. apply Hl1. by right.
Qed.

(** ** [resolve_alert] on a well-formed manager *)

Lemma resolve_alert_split m alert_id user notes now r a l1 l2 :
  wf m → _find_alert alert_id m = Some (r, a) →
  alerts m = l1 ++ r :: l2 →
  resolve_alert alert_id user notes now m =
    ({| heap := <[r := set_resolved notes now a]> (heap m);
        alerts := l1 ++ l2;
        alert_history := alert_history m;
        stdout := stdout m ++ [AlertResolved alert_id user] |}, true).
Proof.
  intros Hwf Hfind Hl. unfold resolve_alert. rewrite Hfind.
  apply find_in_Some in Hfind as (_ & _ & _ & Hr & _).
  rewrite Hl, list_remove_at; [done|].
  intros r' Hin.
  pose proof (wf_nodup m Hwf) as Hnd. rewrite Hl in Hnd.
  apply NoDup_app in Hnd as (_ & Hdisj & _).
  assert (r' ≠ r) as Hne.
  { intros ->. apply (Hdisj r Hin). by left. }
  split; [done|].
  destruct (wf_alerts m Hwf r') as (a' & Hr' & Hres & _).
  { rewrite Hl. apply elem_of_app. by left. }
  eapply same_value_resolved.
  - rewrite list_lookup_insert_ne; [exact Hr'|done].
  - apply list_lookup_insert_eq. by eapply lookup_lt_Some.
  - simpl. by rewrite Hres.
Qed.

Lemma resolve_alert_found m alert_id user notes now r a :
  wf m → _find_alert alert_id m = Some (r, a) →
  ∃ l1 l2, alerts m = l1 ++ r :: l2
    ∧ heap m !! r = Some a ∧ a_id a = alert_id
    ∧ resolve_alert alert_id user notes now m =
        ({| heap := <[r := set_resolved notes now a]> (heap m);
            alerts := l1 ++ l2;
            alert_history := alert_history m;
            stdout := stdout m ++ [AlertResolved alert_id user] |}, true).
Proof.
  intros Hwf Hfind.
  destruct (find_in_Some _ _ _ _ _ Hfind) as (l1 & l2 & Hl & Hr & Hid & _).
  exists l1, l2. split_and!; [done..|]. by apply resolve_alert_split.
Qed.

Lemma resolve_alert_not_found m alert_id user notes now :
  _find_alert alert_id m = None →
  resolve_alert alert_id user notes now m = (m, false).
Proof. intros Hfind. unfold resolve_alert. by rewrite Hfind. Qed.

(** ** Every operation keeps the manager well-formed *)

Lemma wf_init : wf AlertManager_init.
Proof.
  split; simpl.
  - constructor.
  - intros r Hin. by apply elem_of_nil in Hin.
  - intros r Hin. by apply elem_of_nil in Hin.
  - intros r a Hr. by rewrite lookup_nil in Hr.
Qed.

Lemma wf_alerts_lt m r : wf m → r ∈ alerts m → (r < length (heap m))%nat.
Proof.
  intros Hwf Hin. destruct (wf_alerts m Hwf r Hin) as (a & Hr & _).
  by eapply lookup_lt_Some.
Qed.


Lemma elem_of_last_n {A} (n : nat) (l : list A) x : x ∈ last_n n l → x ∈ l.
Proof. unfold last_n. apply subseteq_drop. Qed.

Lemma wf_create threat now rnd m : wf m → wf (create_alert threat now rnd m).1.
Proof.
  intros Hwf. unfold create_alert.
  set (alert := Build_Alert _ _ _ _ _ _ _ _ _ _ _ _ _ _ _ _ _ _ _ _ _).
  set (hist := if (1000 <? _)%nat then _ else _).
  assert (∀ r, r ∈ hist → r ∈ alert_history m ∨ r = S (length (heap m)))
    as Hhist.
  { intros r Hin.
    assert (r ∈ alert_history m ++ [S (length (heap m))]) as Hin'.
    { unfold hist in Hin. case_match; [by apply elem_of_last_n in Hin|done]. }
    apply elem_of_app in Hin' as [?| ->%list_elem_of_singleton]; eauto. }
  split; simpl.
  - apply NoDup_app. split_and!; [by apply wf_nodup| |apply NoDup_singleton].
    intros r Hin ->%list_elem_of_singleton.
    apply wf_alerts_lt in Hin; [lia|done].
  - intros r [Hin| ->%list_elem_of_singleton]%elem_of_app.
    + destruct (wf_alerts m Hwf r Hin) as (a & Hr & Ha).
      exists a. split; [|done]. by apply lookup_app_l_Some.
    + exists alert. split_and!; [|done|by left].
      rewrite lookup_app_r; [|lia]. by rewrite Nat.sub_diag.
  - intros r [Hin| ->]%Hhist.
    + destruct (wf_history m Hwf r Hin) as (Hnot & a & Hr & Ha).
      split.
      * intros [?| ->%list_elem_of_singleton]%elem_of_app; [done|].
        apply lookup_lt_Some in Hr. lia.
      * exists a. split; [|done]. by apply lookup_app_l_Some.
    + split.
      * intros [Hin| Heq%list_elem_of_singleton]%elem_of_app; [|lia].
        apply wf_alerts_lt in Hin; [lia|done].
      * exists alert. split_and!; [|done..].
        rewrite lookup_app_r; [|lia].
        by replace (S (length (heap m)) - length (heap m))%nat with 1%nat
          by lia.
  - intros r a [Hr|[_ Hr]]%lookup_app_Some.
    + by apply (wf_heap m Hwf r).
    + assert (a ∈ [alert; alert]) as Hin.
      { apply list_elem_of_lookup. eauto. }
      assert (a = alert) as ->; [|done].
      apply elem_of_cons in Hin as [?|Hin]; [done|].
      by apply list_elem_of_singleton in Hin.
Qed.

Lemma wf_ext m m' :
  heap m' = heap m → alerts m' = alerts m →
  alert_history m' = alert_history m → wf m → wf m'.
Proof.
  intros Hh Ha Hhist [H1 H2 H3 H4].
  split; rewrite ?Hh, ?Ha, ?Hhist; done.
Qed.

(** Assigning fields of a listed alert, keeping it unresolved. *)
Lemma wf_update m r a a' out :
  wf m → r ∈ alerts m → heap m !! r = Some a →
  a_resolved a' = false →
  a_status a' = "active" ∨ a_status a' = "escalated" →
  wf {| heap := <[r := a']> (heap m); alerts := alerts m;
        alert_history := alert_history m; stdout := out |}.
Proof.
  intros Hwf Hin Hr Hres Hst. split; simpl.
  - by apply wf_nodup.
  - intros r' Hin'. destruct (decide (r' = r)) as [->|Hne].
    + exists a'. split_and!; [|done..].
      apply list_lookup_insert_eq. by eapply lookup_lt_Some.
    + rewrite list_lookup_insert_ne; [|done]. by apply wf_alerts.
  - intros r' Hin'.
    destruct (wf_history m Hwf r' Hin') as (Hnot & Hobj).
    split; [done|].
    rewrite list_lookup_insert_ne; [done|]. by intros ->.
  - intros r' b. destruct (decide (r' = r)) as [->|Hne].
    + rewrite list_lookup_insert_eq; [|by eapply lookup_lt_Some].
      intros [= <-]. rewrite Hres. by destruct Hst as [-> | ->].
    + rewrite list_lookup_insert_ne; [|done]. by apply wf_heap.
Qed.

Lemma wf_resolved m r a l1 l2 notes now out :
  wf m → alerts m = l1 ++ r :: l2 → heap m !! r = Some a →
  wf {| heap := <[r := set_resolved notes now a]> (heap m);
        alerts := l1 ++ l2;
        alert_history := alert_history m; stdout := out |}.
Proof.
  intros Hwf Hl Hr.
  pose proof (wf_nodup m Hwf) as Hnd. rewrite Hl in Hnd.
  assert (∀ r', r' ∈ l1 ++ l2 → r' ≠ r ∧ r' ∈ alerts m) as Hrest.
  { intros r' Hin. rewrite Hl.
    apply NoDup_app in Hnd as (_ & Hdisj & [Hnot _]%NoDup_cons).
    apply elem_of_app in Hin as [Hin|Hin].
    - split; [|apply elem_of_app; by left].
      intros ->. apply (Hdisj r Hin). by left.
    - split; [by intros ->|]. apply elem_of_app. right. by right. }
  split; simpl.
  - apply NoDup_app in Hnd as (Hn1 & Hdisj & [_ Hn2]%NoDup_cons).
    apply NoDup_app. split_and!; [done| |done].
    intros x Hx1 Hx2. apply (Hdisj x Hx1). by right.
  - intros r' [Hne Hin]%Hrest.
    rewrite list_lookup_insert_ne; [|done]. by apply wf_alerts.
  - intros r' Hin.
    destruct (wf_history m Hwf r' Hin) as (Hnot & Hobj).
    split.
    + intros [_ ?]%Hrest. done.
    + rewrite list_lookup_insert_ne; [done|].
      intros ->. apply Hnot. rewrite Hl. apply elem_of_app. right. by left.
  - intros r' b. destruct (decide (r' = r)) as [->|Hne].
    + rewrite list_lookup_insert_eq; [|by eapply lookup_lt_Some].
      by intros [= <-].
    + rewrite list_lookup_insert_ne; [|done]. by apply wf_heap.
Qed.

Lemma _find_alert_Some m alert_id r a :
  _find_alert alert_id m = Some (r, a) →
  r ∈ alerts m ∧ heap m !! r = Some a ∧ a_id a = alert_id.
Proof.
  intros (l1 & l2 & Hl & Hr & Hid & _)%find_in_Some.
  split_and!; [|done..]. rewrite Hl. apply elem_of_app. right. by left.
Qed.

Lemma wf_acknowledge alert_id user now m :
  wf m → wf (acknowledge_alert alert_id user now m).1.
Proof.
  intros Hwf. unfold acknowledge_alert.
  destruct (_find_alert alert_id m) as [[r a]|] eqn:Hfind; [|done].
  apply _find_alert_Some in Hfind as (Hin & Hr & _).
  destruct (wf_alerts m Hwf r Hin) as (a0 & Hr0 & Hres & Hst).
  assert (a0 = a) as -> by congruence.
  by eapply wf_update.
Qed.

Lemma wf_resolve alert_id user notes now m :
  wf m → wf (resolve_alert alert_id user notes now m).1.
Proof.
  intros Hwf.
  destruct (_find_alert alert_id m) as [[r a]|] eqn:Hfind.
  - destruct (resolve_alert_found m alert_id user notes now r a Hwf Hfind)
      as (l1 & l2 & Hl & Hr & _ & ->).
    by eapply wf_resolved.
  - by rewrite resolve_alert_not_found.
Qed.

Lemma wf_escalate alert_id now m :
  wf m → wf (escalate_alert alert_id now m).1.
Proof.
  intros Hwf. unfold escalate_alert.
  destruct (_find_alert alert_id m) as [[r a]|] eqn:Hfind; [|done].
  destruct (String.eqb (a_status a) "active"); [|done].
  apply _find_alert_Some in Hfind as (Hin & Hr & _).
  destruct (wf_alerts m Hwf r Hin) as (a0 & Hr0 & Hres & Hst).
  assert (a0 = a) as -> by congruence.
  eapply wf_update; [done..|by right].
Qed.

Lemma wf_auto_resolve_step current_metrics now m n r :
  wf m → wf (auto_resolve_step current_metrics now (m, n) r).1.
Proof.
  intros Hwf. unfold auto_resolve_step.
  repeat case_match; simpl; try done; by apply wf_resolve.
Qed.

Lemma wf_foldl_auto_resolve current_metrics now l m n :
  wf m → wf (foldl (auto_resolve_step current_metrics now) (m, n) l).1.
Proof.
  revert m n. induction l as [|r l IH]; intros m n Hwf; [done|].
  cbn [foldl].
  destruct (auto_resolve_step current_metrics now (m, n) r) as [m' n'] eqn:E.
  apply IH. change m' with (m', n').1. rewrite <- E.
  by apply wf_auto_resolve_step.
Qed.

Lemma wf_auto_resolve current_metrics now m :
  wf m → wf (auto_resolve_alerts current_metrics now m).1.
Proof.
  intros Hwf. unfold auto_resolve_alerts, auto_resolve_loop.
  pose proof (wf_foldl_auto_resolve current_metrics now (alerts m) m 0%nat Hwf)
    as Hloop.
  destruct (foldl _ _ _) as [m' n']. simpl in *.
  case_match; [|done]. by eapply wf_ext; [..|exact Hloop].
Qed.

Lemma cleanup_old_alerts_frame days now m :
  heap (cleanup_old_alerts days now m) = heap m
  ∧ alerts (cleanup_old_alerts days now m) = alerts m
  ∧ alert_history (cleanup_old_alerts days now m)
    = if cutoff_in_range days now then
        List.filter
          (λ r, match heap m !! r with
                | Some alert =>
                    Qgtb (a_timestamp alert) (now - inject_Z days * 86400)
                | None => false
                end) (alert_history m)
      else alert_history m.
Proof. unfold cleanup_old_alerts. by destruct (cutoff_in_range days now). Qed.

Lemma wf_cleanup days now m : wf m → wf (cleanup_old_alerts days now m).
Proof.
  intros Hwf.
  destruct (cleanup_old_alerts_frame days now m) as (Hh & Hl & Hhist).
  split; rewrite ?Hh, ?Hl.
  - by apply wf_nodup.
  - by apply wf_alerts.
  - intros r Hin. apply (wf_history m Hwf).
    rewrite Hhist in Hin. destruct (cutoff_in_range days now); [|done].
    apply list_elem_of_In, List.filter_In in Hin as [Hin _].
    by apply list_elem_of_In.
  - by apply wf_heap.
Qed.

Lemma wf_step m op : wf m → wf (step m op).
Proof.
  intros Hwf. destruct op; simpl.
  - by apply wf_create.
  - by apply wf_acknowledge.
  - by apply wf_resolve.
  - by apply wf_escalate.
  - by apply wf_auto_resolve.
  - by apply wf_cleanup.
Qed.

Lemma wf_foldl_step ops m : wf m → wf (foldl step m ops).
Proof.
  revert m. induction ops as [|op ops IH]; intros m Hwf; [done|].
  simpl. by apply IH, wf_step.
Qed.

Lemma wf_run ops : wf (run ops).
Proof. apply wf_foldl_step, wf_init. Qed.

(** ** The status and the resolved flag *)

(** C6. On every alert object that a run of create, acknowledge, resolve,
    escalate, auto-resolve (and history clean-up) operations leaves behind,
    be it listed in [alerts], held in [alert_history], or any other alert
    dict handed out earlier, the status is ['resolved'] if and only if the
    [resolved] flag is true. *)
Theorem status_resolved_iff_flag (ops : list Op) (r : Ref) :
  r ∈ alerts (run ops) ∨ r ∈ alert_history (run ops)
    ∨ is_Some (heap (run ops) !! r) →
  ∃ a, heap (run ops) !! r = Some a
       ∧ (a_status a = "resolved" ↔ a_resolved a = true).
Proof.
  pose proof (wf_run ops) as Hwf.
  intros [Hin|[Hin|[a Hr]]].
  - destruct (wf_alerts _ Hwf r Hin) as (a & Hr & _).
    exists a. split; [done|]. by apply (wf_heap _ Hwf r).
  - destruct (wf_history _ Hwf r Hin) as (_ & a & Hr & _).
    exists a. split; [done|]. by apply (wf_heap _ Hwf r).
  - exists a. split; [done|]. by apply (wf_heap _ Hwf r).
Qed.

(** ** Statuses of the listed alerts and the statistics *)

Lemma status_is_true h s r :
  status_is h s r = true ↔ ∃ a, h !! r = Some a ∧ a_status a = s.
Proof.
  unfold status_is. destruct (h !! r) as [a|].
  - rewrite String.eqb_eq. split.
    + intros Hst. by exists a.
    + by intros (a' & [= <-] & Hst).
  - split; [done|]. by intros (a' & [=] & _).
Qed.

Lemma length_active_escalated h l :
  (∀ r, r ∈ l → ∃ a, h !! r = Some a
                     ∧ (a_status a = "active" ∨ a_status a = "escalated")) →
  length l =
    (length (List.filter (status_is h "active") l)
     + length (List.filter (status_is h "escalated") l))%nat.
Proof.
  induction l as [|x l IH]; intros Hl; [done|].
  assert (IH' := IH (λ r Hin, Hl r (proj2 (elem_of_cons l r x) (or_intror Hin)))).
  destruct (Hl x) as (a & Hx & Hst); [by left|].
  assert (status_is h "active" x = true ∧ status_is h "escalated" x = false
          ∨ status_is h "active" x = false ∧ status_is h "escalated" x = true)
    as [[Ha He]|[Ha He]].
  { unfold status_is. rewrite Hx. destruct Hst as [-> | ->]; [by left|by right]. }
  all: cbn [List.filter]; rewrite Ha, He; simpl; lia.
Qed.

(** C9. After any run, every alert of the alert list has status ['active']
    or ['escalated'], and the statistics report satisfies
    [total_alerts = active_alerts + escalated_alerts]. *)
Theorem listed_alerts_active_or_escalated (ops : list Op) :
  (∀ r, r ∈ alerts (run ops) →
     ∃ a, heap (run ops) !! r = Some a
          ∧ (a_status a = "active" ∨ a_status a = "escalated")
          ∧ a_status a ≠ "resolved")
  ∧ total_alerts (get_alert_statistics (run ops)) =
      (active_alerts (get_alert_statistics (run ops))
       + escalated_alerts (get_alert_statistics (run ops)))%nat.
Proof.
  pose proof (wf_run ops) as Hwf. split.
  - intros r Hin. destruct (wf_alerts _ Hwf r Hin) as (a & Hr & _ & Hst).
    exists a. split_and!; [done..|]. by destruct Hst as [-> | ->].
  - simpl. apply length_active_escalated.
    intros r Hin. destruct (wf_alerts _ Hwf r Hin) as (a & Hr & _ & Hst).
    by exists a.
Qed.

(** ** Export *)

(** C8. For a format that lowers neither to ['json'] nor to ['csv'],
    [export_alerts] returns the fixed unsupported-format message and the
    manager is as before the call. *)
Theorem export_unsupported_format (json_dumps : list Alert → string)
    (str_field : Alert → string → string) (format : string)
    (m : AlertManager) :
  lower format ≠ "json" → lower format ≠ "csv" →
  export_alerts json_dumps str_field format m =
    (m, "Unsupported format. Use 'json' or 'csv'").
Proof.
  intros Hjson Hcsv. unfold export_alerts.
  apply String.eqb_neq in Hjson, Hcsv. by rewrite Hjson, Hcsv.
Qed.

(** ** Escalation *)

Lemma find_in_insert h alert_id l r a a' :
  find_in h alert_id l = Some (r, a) → a_id a' = a_id a →
  find_in (<[r := a']> h) alert_id l = Some (r, a').
Proof.
  intros Hfind Hid.
  destruct (find_in_Some _ _ _ _ _ Hfind) as (_ & _ & _ & Hr & Ha & _).
  revert Hfind. induction l as [|x l IH]; cbn [find_in]; [done|].
  destruct (decide (x = r)) as [->|Hne].
  - rewrite list_lookup_insert_eq; [|by eapply lookup_lt_Some].
    by rewrite Hid, Ha, String.eqb_refl.
  - rewrite list_lookup_insert_ne; [|done].
    destruct (h !! x) as [b|]; [|by apply IH].
    destruct (String.eqb (a_id b) alert_id); [congruence|by apply IH].
Qed.

Lemma elem_of_get_active_alerts m r :
  r ∈ get_active_alerts m ↔
  r ∈ alerts m ∧ ∃ a, heap m !! r = Some a ∧ a_status a = "active".
Proof.
  unfold get_active_alerts.
  rewrite list_elem_of_In, List.filter_In, <- list_elem_of_In.
  by rewrite status_is_true.
Qed.

Lemma _find_alert_update m alert_id r a a' out :
  _find_alert alert_id m = Some (r, a) → a_id a' = a_id a →
  _find_alert alert_id
    {| heap := <[r := a']> (heap m); alerts := alerts m;
       alert_history := alert_history m; stdout := out |} = Some (r, a').
Proof. unfold _find_alert. simpl. apply find_in_insert. Qed.


Lemma escalate_alert_true m alert_id now m' :
  escalate_alert alert_id now m = (m', true) →
  ∃ r a, _find_alert alert_id m = Some (r, a) ∧ a_status a = "active"
    ∧ m' = {| heap := <[r := set_escalated now a]> (heap m);
              alerts := alerts m; alert_history := alert_history m;
              stdout := stdout m ++ [AlertEscalated alert_id] |}.
Proof.
  unfold escalate_alert.
  destruct (_find_alert alert_id m) as [[r a]|]; [|done].
  destruct (String.eqb_spec (a_status a) "active"); [|done].
  intros [= <-]. by exists r, a.
Qed.


(** ** The loop of [auto_resolve_alerts] *)

Lemma auto_resolve_step_cases current_metrics now m n x :
  auto_resolve_step current_metrics now (m, n) x = (m, n)
  ∨ ∃ b notes, heap m !! x = Some b
      ∧ auto_resolve_step current_metrics now (m, n) x =
          ((resolve_alert (a_id b) "system_auto_resolve" (Some notes) now m).1,
           S n).
Proof.
  unfold auto_resolve_step.
  destruct (heap m !! x) as [b|]; [|by left].
  destruct (negb (a_auto_resolve b)); [by left|].
  destruct (String.eqb (a_type b) "resource_abuse").
  - destruct (_check_resource_resolution b current_metrics); [|by left].
    right. by exists b, "Resource usage normalized".
  - destruct (String.eqb (a_type b) "network_anomaly"); [|by left].
    destruct (_check_network_resolution b current_metrics); [|by left].
    right. by exists b, "Network activity normalized".
Qed.

(** What [resolve_alert] leaves alone. *)
Lemma resolve_alert_frame m alert_id user notes now :
  wf m →
  (∀ x b', heap (resolve_alert alert_id user notes now m).1 !! x = Some b' →
     ∃ b, heap m !! x = Some b ∧ a_id b = a_id b')
  ∧ (∀ x, x ∈ alerts (resolve_alert alert_id user notes now m).1 →
       x ∈ alerts m)
  ∧ (∀ x, x ∉ alerts m →
       heap (resolve_alert alert_id user notes now m).1 !! x = heap m !! x)
  ∧ (∀ line, line ∈ stdout m →
       line ∈ stdout (resolve_alert alert_id user notes now m).1).
Proof.
  intros Hwf.
  destruct (_find_alert alert_id m) as [[r a]|] eqn:Hfind.
  - destruct (resolve_alert_found m alert_id user notes now r a Hwf Hfind)
      as (l1 & l2 & Hl & Hr & _ & ->).
    cbn [fst heap alerts stdout]. split_and!.
    + intros x b'. destruct (decide (x = r)) as [->|Hne].
      * rewrite list_lookup_insert_eq; [|by eapply lookup_lt_Some].
        intros [= <-]. by exists a.
      * rewrite list_lookup_insert_ne; [|done]. intros Hx. by exists b'.
    + intros x Hin. rewrite Hl.
      apply elem_of_app in Hin as [?|?]; apply elem_of_app;
        [by left|right; by right].
    + intros x Hnot. rewrite list_lookup_insert_ne; [done|].
      intros ->. apply Hnot. rewrite Hl. apply elem_of_app. right. by left.
    + intros line Hin. apply elem_of_app. by left.
  - rewrite resolve_alert_not_found; [|done].
    split_and!; [|done..]. intros x b' Hx. by exists b'.
Qed.

(** Resolving by another id leaves a listed alert listed and unchanged. *)
Lemma resolve_alert_other m alert_id user notes now r a :
  wf m → r ∈ alerts m → heap m !! r = Some a → alert_id ≠ a_id a →
  r ∈ alerts (resolve_alert alert_id user notes now m).1
  ∧ heap (resolve_alert alert_id user notes now m).1 !! r = Some a.
Proof.
  intros Hwf Hin Hr Hne.
  destruct (_find_alert alert_id m) as [[r' a']|] eqn:Hfind.
  - destruct (resolve_alert_found m alert_id user notes now r' a' Hwf Hfind)
      as (l1 & l2 & Hl & Hr' & Hid & ->).
    assert (r ≠ r') as Hrr by (intros ->; congruence).
    cbn [fst heap alerts]. split.
    + rewrite Hl in Hin.
      apply elem_of_app in Hin as [?|[?|?]%elem_of_cons]; [|done|];
        apply elem_of_app; [by left|by right].
    + by rewrite list_lookup_insert_ne.
  - by rewrite resolve_alert_not_found.
Qed.

(** The loop never touches an alert whose id no other alert shares,
    as long as its own turn does nothing. *)
Lemma loop_keeps current_metrics now r a L :
  ∀ m n,
  wf m → r ∈ alerts m → heap m !! r = Some a →
  (∀ r' a', r' ∈ alerts m ∨ r' ∈ L → r' ≠ r → heap m !! r' = Some a' →
     a_id a' ≠ a_id a) →
  (r ∈ L → ∀ m n, heap m !! r = Some a →
     auto_resolve_step current_metrics now (m, n) r = (m, n)) →
  wf (foldl (auto_resolve_step current_metrics now) (m, n) L).1
  ∧ r ∈ alerts (foldl (auto_resolve_step current_metrics now) (m, n) L).1
  ∧ heap (foldl (auto_resolve_step current_metrics now) (m, n) L).1 !! r
    = Some a
  ∧ (∀ r' a',
       r' ∈ alerts (foldl (auto_resolve_step current_metrics now) (m, n) L).1 →
       r' ≠ r →
       heap (foldl (auto_resolve_step current_metrics now) (m, n) L).1 !! r'
       = Some a' →
       a_id a' ≠ a_id a).
Proof.
  induction L as [|x L IH]; intros m n Hwf Hin Hr Huniq Hown.
  { cbn [foldl fst]. split_and!; [done..|]. intros r' a' ?. apply Huniq. by left. }
  cbn [foldl].
  assert (∀ r' a', r' ∈ alerts m ∨ r' ∈ L → r' ≠ r → heap m !! r' = Some a' →
            a_id a' ≠ a_id a) as Huniq'.
  { intros r' a' [?|?]; apply Huniq; [by left|right; by right]. }
  assert (r ∈ L → ∀ m n, heap m !! r = Some a →
            auto_resolve_step current_metrics now (m, n) r = (m, n)) as Hown'.
  { intros ?. apply Hown. by right. }
  destruct (decide (x = r)) as [->|Hne].
  { rewrite Hown; [by apply IH|by left|done]. }
  destruct (auto_resolve_step_cases current_metrics now m n x)
    as [->|(b & notes & Hx & ->)]; [by apply IH|].
  assert (a_id b ≠ a_id a) as Hid.
  { apply (Huniq x b); [right; by left|done..]. }
  pose proof (wf_resolve (a_id b) "system_auto_resolve" (Some notes) now m Hwf)
    as Hwf1.
  destruct (resolve_alert_other m (a_id b) "system_auto_resolve" (Some notes)
              now r a Hwf Hin Hr Hid) as [Hin1 Hr1].
  destruct (resolve_alert_frame m (a_id b) "system_auto_resolve" (Some notes)
              now Hwf) as (Hids & Hsub & _ & _).
  apply IH; [done..| |done].
  intros r' a' Hr'in Hne' Ha'.
  destruct (Hids r' a' Ha') as (a0 & Ha0 & <-).
  apply (Huniq' r' a0); [|done..].
  destruct Hr'in as [?|?]; [left; by apply Hsub|by right].
Qed.

(** Once an alert is off the list, the loop leaves its object alone. *)
Lemma loop_done current_metrics now r L :
  ∀ m n,
  wf m → r ∉ alerts m →
  (r ∉ alerts (foldl (auto_resolve_step current_metrics now) (m, n) L).1)
  ∧ heap (foldl (auto_resolve_step current_metrics now) (m, n) L).1 !! r
    = heap m !! r
  ∧ (∀ line, line ∈ stdout m →
       line ∈ stdout (foldl (auto_resolve_step current_metrics now) (m, n) L).1).
Proof.
  induction L as [|x L IH]; intros m n Hwf Hnot; [done|].
  cbn [foldl].
  destruct (auto_resolve_step_cases current_metrics now m n x)
    as [->|(b & notes & Hx & ->)]; [by apply IH|].
  pose proof (wf_resolve (a_id b) "system_auto_resolve" (Some notes) now m Hwf)
    as Hwf1.
  destruct (resolve_alert_frame m (a_id b) "system_auto_resolve" (Some notes)
              now Hwf) as (_ & Hsub & Hsame & Hout).
  destruct (IH _ (S n) Hwf1) as (H1 & H2 & H3).
  { intros Hin. by apply Hnot, Hsub. }
  split_and!; [done| |].
  - rewrite H2. by apply Hsame.
  - intros line Hin. by apply H3, Hout.
Qed.

(** Each counted turn takes exactly one alert off the list. *)
Lemma loop_count current_metrics now L :
  ∀ m n K,
  wf m → alerts m = K ++ L →
  (length (alerts (foldl (auto_resolve_step current_metrics now) (m, n) L).1)
   + (foldl (auto_resolve_step current_metrics now) (m, n) L).2
   = length (alerts m) + n)%nat.
Proof.
  induction L as [|x L IH]; intros m n K Hwf HK; [done|].
  cbn [foldl].
  destruct (auto_resolve_step_cases current_metrics now m n x)
    as [->|(b & notes & Hx & ->)].
  { apply (IH m n (K ++ [x])); [done|]. by rewrite <- app_assoc. }
  destruct (find_in_at (heap m) K x L b Hx)
    as (r' & a' & k1 & k2 & Hfind & Hk).
  rewrite <- HK in Hfind.
  assert (alerts m = k1 ++ r' :: (k2 ++ L)) as Hl.
  { rewrite HK. change (x :: L) with ([x] ++ L).
    by rewrite app_assoc, Hk, <- app_assoc. }
  pose proof (wf_resolve (a_id b) "system_auto_resolve" (Some notes) now m Hwf)
    as Hwf1.
  rewrite (resolve_alert_split m _ "system_auto_resolve" (Some notes) now
             r' a' k1 (k2 ++ L) Hwf Hfind Hl) in *.
  cbn [fst] in *.
  rewrite (IH _ (S n) (k1 ++ k2) Hwf1); cbn [alerts].
  - rewrite Hl, !length_app. cbn [length]. rewrite !length_app. lia.
  - by rewrite app_assoc.
Qed.

Lemma resolve_threshold_is_70 :
  alert_rules !! "resource_abuse" ≫= resolve_threshold = Some 70%Q.
Proof. vm_compute. reflexivity. Qed.

(** The turn of an eligible high-CPU alert. *)
Lemma auto_resolve_step_cpu current_metrics latest now m n r a :
  heap m !! r = Some a → a_auto_resolve a = true →
  a_type a = "resource_abuse" →
  startswith (a_description a) "High CPU usage" = true →
  last (system_metrics current_metrics) = Some latest →
  auto_resolve_step current_metrics now (m, n) r =
    if Qltb (default 0%Q (cpu_usage_percent latest)) 70
    then ((resolve_alert (a_id a) "system_auto_resolve"
             (Some "Resource usage normalized") now m).1, S n)
    else (m, n).
Proof.
  intros Hr Hauto Hty Hdesc Hlast. unfold auto_resolve_step.
  rewrite Hr, Hauto, Hty. cbn [negb].
  change (String.eqb "resource_abuse" "resource_abuse") with true.
  cbn match. unfold _check_resource_resolution.
  by rewrite Hlast, resolve_threshold_is_70, Hdesc.
Qed.

Lemma Qltb_true x y : Qltb x y = true ↔ (x < y)%Q.
Proof.
  unfold Qltb. rewrite negb_true_iff, <- not_true_iff_false, Qle_bool_iff.
  split; [apply Qnot_le_lt|apply Qlt_not_le].
Qed.

Lemma Qltb_false x y : Qltb x y = false ↔ (y <= x)%Q.
Proof. unfold Qltb. by rewrite negb_false_iff, Qle_bool_iff. Qed.

Lemma auto_resolve_alerts_loop current_metrics now m :
  heap (auto_resolve_alerts current_metrics now m).1
  = heap (auto_resolve_loop current_metrics now m).1
  ∧ alerts (auto_resolve_alerts current_metrics now m).1
    = alerts (auto_resolve_loop current_metrics now m).1
  ∧ (∀ line, line ∈ stdout (auto_resolve_loop current_metrics now m).1 →
       line ∈ stdout (auto_resolve_alerts current_metrics now m).1)
  ∧ (auto_resolve_alerts current_metrics now m).2 = None.
Proof.
  unfold auto_resolve_alerts.
  destruct (auto_resolve_loop current_metrics now m) as [m' n'].
  cbn [fst snd]. destruct (0 <? n')%nat; cbn [heap alerts stdout];
    split_and!; try done.
  intros line Hin. apply elem_of_app. by left.
Qed.

(** X30. Take an active alert of a run that is auto-resolve eligible, of
    type [resource_abuse], with a description starting 'High CPU usage',
    and whose id no other listed alert carries. When the latest system
    snapshot reports a CPU usage below 70, [auto_resolve_alerts] resolves
    it, through [resolve_alert] called for 'system_auto_resolve': it
    leaves the alert list and its object is marked resolved. When the
    CPU usage is 70 or more, in particular 75, the alert stays active and
    unchanged. *)
Theorem auto_resolve_high_cpu (ops : list Op) (r : Ref) (a : Alert)
    (current_metrics : SecurityData) (latest : SystemSnapshot) (now : Time) :
  r ∈ get_active_alerts (run ops) →
  heap (run ops) !! r = Some a →
  a_auto_resolve a = true →
  a_type a = "resource_abuse" →
  startswith (a_description a) "High CPU usage" = true →
  (∀ r' a', r' ∈ alerts (run ops) → r' ≠ r →
     heap (run ops) !! r' = Some a' → a_id a' ≠ a_id a) →
  last (system_metrics current_metrics) = Some latest →
  ((default 0 (cpu_usage_percent latest) < 70)%Q →
     (r ∉ alerts (auto_resolve_alerts current_metrics now (run ops)).1)
     ∧ (r ∉ get_active_alerts
              (auto_resolve_alerts current_metrics now (run ops)).1)
     ∧ heap (auto_resolve_alerts current_metrics now (run ops)).1 !! r
       = Some (set_resolved (Some "Resource usage normalized") now a)
     ∧ AlertResolved (a_id a) "system_auto_resolve"
         ∈ stdout (auto_resolve_alerts current_metrics now (run ops)).1)
  ∧ ((70 <= default 0 (cpu_usage_percent latest))%Q →
     r ∈ get_active_alerts
           (auto_resolve_alerts current_metrics now (run ops)).1
     ∧ heap (auto_resolve_alerts current_metrics now (run ops)).1 !! r
       = Some a).
Proof.
  intros Hactive Hr Hauto Hty Hdesc Huniq Hlast.
  pose proof (wf_run ops) as Hwf.
  apply elem_of_get_active_alerts in Hactive as (Hin & a0 & Hr0 & Hst).
  assert (a0 = a) as -> by congruence.
  destruct (auto_resolve_alerts_loop current_metrics now (run ops))
    as (Hheap & Halerts & Hout & _).
  pose proof (λ m n Hm, auto_resolve_step_cpu current_metrics latest now m n
                          r a Hm Hauto Hty Hdesc Hlast) as Hturn.
  split.
  - (* CPU below the threshold *)
    intros Hlow%Qltb_true. rewrite Hlow in Hturn.
    destruct (list_elem_of_split _ _ Hin) as (l1 & l2 & Hl).
    pose proof (wf_nodup _ Hwf) as Hnd. rewrite Hl in Hnd.
    apply NoDup_app in Hnd as (_ & Hdisj & _).
    assert (r ∉ l1) as Hnot1.
    { intros Hin1. apply (Hdisj r Hin1). by left. }
    destruct (loop_keeps current_metrics now r a l1 (run ops) 0%nat Hwf Hin Hr)
      as (Hwf1 & Hin1 & Hr1 & Huniq1); [|done|].
    { intros r' a' [?|?] ?; [by apply Huniq|].
      apply Huniq; [|done]. rewrite Hl. apply elem_of_app. by left. }
    unfold auto_resolve_loop in *. rewrite Hl in Hheap, Halerts, Hout.
    rewrite foldl_app in Hheap, Halerts, Hout. cbn [foldl] in *.
    destruct (foldl (auto_resolve_step current_metrics now)
                (run ops, 0%nat) l1) as [m1 n1].
    cbn [fst] in *. rewrite (Hturn m1 n1 Hr1) in *.
    destruct (list_elem_of_split _ _ Hin1) as (k1 & k2 & Hk).
    destruct (find_in_at (heap m1) k1 r k2 a Hr1)
      as (r' & a' & j1 & j2 & Hfind & Hj).
    rewrite <- Hk in Hfind.
    destruct (_find_alert_Some m1 (a_id a) r' a' Hfind) as (Hin' & Hr' & Hid').
    assert (r' = r) as ->.
    { destruct (decide (r' = r)) as [|Hne]; [done|].
      by destruct (Huniq1 r' a' Hin' Hne Hr'). }
    assert (a' = a) as -> by congruence.
    pose proof (wf_resolve (a_id a) "system_auto_resolve"
                  (Some "Resource usage normalized") now m1 Hwf1) as Hwf2.
    rewrite (resolve_alert_split m1 _ "system_auto_resolve"
               (Some "Resource usage normalized") now r a k1 k2
               Hwf1 Hfind Hk) in *.
    cbn [fst] in *.
    pose proof (wf_nodup _ Hwf1) as Hnd1. rewrite Hk in Hnd1.
    apply NoDup_app in Hnd1 as (_ & Hdisj1 & [Hnot2 _]%NoDup_cons).
    match type of Hwf2 with wf ?m2 =>
      destruct (loop_done current_metrics now r l2 m2 (S n1) Hwf2)
        as (Hgone & Hobj & Hlines)
    end.
    { cbn [alerts]. intros [Hk1|Hk2]%elem_of_app; [|done].
      apply (Hdisj1 r Hk1). by left. }
    cbn [heap stdout] in Hobj, Hlines.
    assert (r ∉ alerts (auto_resolve_alerts current_metrics now (run ops)).1)
      as Hgone' by (by rewrite Halerts).
    split_and!; [done| | |].
    + by intros [? _]%elem_of_get_active_alerts.
    + rewrite Hheap, Hobj. apply list_lookup_insert_eq.
      by eapply lookup_lt_Some.
    + apply Hout, Hlines, elem_of_app. right. by left.
  - (* CPU at or above the threshold *)
    intros Hhigh%Qltb_false. rewrite Hhigh in Hturn.
    destruct (loop_keeps current_metrics now r a (alerts (run ops)) (run ops)
                0%nat Hwf Hin Hr) as (_ & Hin1 & Hr1 & _).
    { intros r' a' [?|?] ?; by apply Huniq. }
    { intros _ m n Hm. by apply Hturn. }
    unfold auto_resolve_loop in *.
    assert (heap (auto_resolve_alerts current_metrics now (run ops)).1 !! r
            = Some a) as Hr' by (by rewrite Hheap).
    split; [|done].
    apply elem_of_get_active_alerts. split; [by rewrite Halerts|by exists a].
Qed.

(** C7. The code where ids repeat: the loop of [auto_resolve_alerts]
    checks one alert and then hands its id, not the alert, to
    [resolve_alert], which looks the id up again. With a brute-force
    alert and a high-CPU alert under one id and a CPU usage of 65, the
    call resolves the brute-force alert, which is not eligible for
    auto-resolution, and leaves the high-CPU alert, eligible and listed
    second, active. *)
Lemma auto_resolve_resolves_namesake :
  2%nat ∈ get_active_alerts (run colliding_alerts)
  ∧ (λ a, (a_auto_resolve a, a_type a,
           startswith (a_description a) "High CPU usage"))
      <$> heap (run colliding_alerts) !! 2%nat
    = Some (true, "resource_abuse", true)
  ∧ get_active_alerts
      (auto_resolve_alerts (system_history [cpu_snapshot 65]) 1700000100
         (run colliding_alerts)).1 = [2%nat]
  ∧ (λ a, (a_type a, a_status a, a_resolved a))
      <$> heap (auto_resolve_alerts (system_history [cpu_snapshot 65])
                  1700000100 (run colliding_alerts)).1 !! 2%nat
    = Some ("resource_abuse", "active", false)
  ∧ (λ a, (a_type a, a_status a, a_resolved a))
      <$> heap (auto_resolve_alerts (system_history [cpu_snapshot 65])
                  1700000100 (run colliding_alerts)).1 !! 0%nat
    = Some ("brute_force", "resolved", true).
Proof. vm_compute. split_and!; [right; left|reflexivity..]. Qed.

(** ** The value and the count of [auto_resolve_alerts] *)

(** C2, as the code has it. [auto_resolve_alerts] returns no value, on
    every input; the number it counts in [resolved_count] is the number of
    alerts it took off the alert list, and it is only printed, when
    positive. *)
Theorem auto_resolve_returns_none (ops : list Op)
    (current_metrics : SecurityData) (now : Time) :
  (auto_resolve_alerts current_metrics now (run ops)).2 = None
  ∧ (length (alerts (auto_resolve_alerts current_metrics now (run ops)).1)
     + (auto_resolve_loop current_metrics now (run ops)).2
     = length (alerts (run ops)))%nat
  ∧ ((0 < (auto_resolve_loop current_metrics now (run ops)).2)%nat →
     last (stdout (auto_resolve_alerts current_metrics now (run ops)).1)
     = Some (AutoResolved (auto_resolve_loop current_metrics now (run ops)).2)).
Proof.
  destruct (auto_resolve_alerts_loop current_metrics now (run ops))
    as (_ & Halerts & _ & Hret).
  split_and!; [done| |].
  - rewrite Halerts. unfold auto_resolve_loop.
    rewrite (loop_count current_metrics now (alerts (run ops)) (run ops)
               0%nat [] (wf_run ops) eq_refl).
    lia.
  - unfold auto_resolve_alerts.
    destruct (auto_resolve_loop current_metrics now (run ops)) as [m' n'].
    cbn [fst snd]. intros Hpos%Nat.ltb_lt. rewrite Hpos. cbn [stdout].
    by rewrite last_snoc.
Qed.

(** C2, as stated, fails: with one alert resolved by the call, the value
    returned is not the integer 1 but [None]. *)
Lemma auto_resolve_returns_no_count :
  alerts (run one_alert) = [0%nat]
  ∧ alerts (auto_resolve_alerts (system_history [cpu_snapshot 65])
              1700000100 (run one_alert)).1 = []
  ∧ (auto_resolve_loop (system_history [cpu_snapshot 65])
       1700000100 (run one_alert)).2 = 1%nat
  ∧ (auto_resolve_alerts (system_history [cpu_snapshot 65])
       1700000100 (run one_alert)).2 ≠ Some 1.
Proof. vm_compute. split_and!; done. Qed.

(** ** History after a resolution *)

(** Every history entry of every run is an unresolved, active copy. *)
Lemma history_entries_unresolved (ops : list Op) (r : Ref) :
  r ∈ alert_history (run ops) →
  ∃ a, heap (run ops) !! r = Some a ∧ a_resolved a = false
       ∧ a_status a = "active".
Proof. intros Hin. by destruct (wf_history _ (wf_run ops) r Hin) as [_ ?]. Qed.

Lemma find_in_fresh h alert_id l :
  (∀ r a, r ∈ l → h !! r = Some a → a_id a ≠ alert_id) →
  find_in h alert_id l = None.
Proof.
  induction l as [|x l IH]; intros Hfresh; [done|].
  cbn [find_in]. destruct (h !! x) as [b|] eqn:Hx.
  - destruct (String.eqb_spec (a_id b) alert_id) as [Heq|_].
    + destruct (Hfresh x b); [by left|done..].
    + apply IH. intros r a ?. apply Hfresh. by right.
  - apply IH. intros r a ?. apply Hfresh. by right.
Qed.

Lemma find_in_app h alert_id l1 l2 :
  find_in h alert_id l1 = None →
  find_in h alert_id (l1 ++ l2) = find_in h alert_id l2.
Proof.
  induction l1 as [|x l1 IH]; [done|]. cbn [find_in app].
  destruct (h !! x) as [b|]; [|done].
  by destruct (String.eqb (a_id b) alert_id).
Qed.

Lemma last_n_snoc {A} (n : nat) (l : list A) x :
  (0 < n)%nat → x ∈ last_n n (l ++ [x]).
Proof.
  intros Hn. unfold last_n. rewrite drop_app_le.
  - apply elem_of_app. right. by left.
  - rewrite length_app. simpl. lia.
Qed.

(** The round trip in general. An alert is created under an id that no
    listed alert carries yet, and resolved by that id right away. The
    call succeeds; the alert is gone from the alert list and from the
    active alerts, and its object is marked resolved. The history holds
    the copy made at creation, an object of its own with [resolved] false
    and status ['active']; and no history entry at all is marked
    resolved. *)
Theorem create_resolve_round_trip (ops : list Op) (threat : Threat)
    (now now' : Time) (rnd : Z) (user : string) (notes : option string)
    (m1 : AlertManager) (r : Ref) :
  create_alert threat now rnd (run ops) = (m1, r) →
  (∀ r' a', r' ∈ alerts (run ops) → heap (run ops) !! r' = Some a' →
     a_id a' ≠ "alert_" +:+ pretty (int_of now) +:+ "_" +:+ pretty rnd) →
  ∃ created m2,
    heap m1 !! r = Some created
    ∧ resolve_alert (a_id created) user notes now' m1 = (m2, true)
    ∧ (r ∉ alerts m2)
    ∧ (r ∉ get_active_alerts m2)
    ∧ heap m2 !! r = Some (set_resolved notes now' created)
    ∧ S r ∈ alert_history m2
    ∧ heap m2 !! S r = Some created
    ∧ a_resolved created = false
    ∧ a_status created = "active"
    ∧ (∀ h, h ∈ alert_history m2 →
         ∃ a, heap m2 !! h = Some a ∧ a_resolved a = false
              ∧ a_status a = "active").
Proof.
  intros Hcreate Hfresh.
  replace m1 with (create_alert threat now rnd (run ops)).1
    by (by rewrite Hcreate).
  replace r with (create_alert threat now rnd (run ops)).2
    by (by rewrite Hcreate).
  clear m1 r Hcreate.
  pose proof (wf_run ops) as Hwf.
  pose proof (wf_create threat now rnd _ Hwf) as Hwf1.
  unfold create_alert in *.
  set (alert := Build_Alert _ _ _ _ _ _ _ _ _ _ _ _ _ _ _ _ _ _ _ _ _) in *.
  set (hist := if (1000 <? _)%nat then _ else _) in *.
  cbn [fst snd] in *.
  set (r := length (heap (run ops))) in *.
  set (m1 := Build_AlertManager _ _ _ _) in *.
  assert (heap m1 !! r = Some alert) as Hr.
  { unfold m1. cbn [heap]. rewrite lookup_app_r; [|done].
    by rewrite Nat.sub_diag. }
  assert (heap m1 !! S r = Some alert) as HSr.
  { unfold m1. cbn [heap]. rewrite lookup_app_r; [|unfold r; lia].
    by replace (S r - length (heap (run ops)))%nat with 1%nat by (unfold r; lia). }
  assert (_find_alert (a_id alert) m1 = Some (r, alert)) as Hfind.
  { unfold _find_alert, m1. cbn [heap alerts].
    rewrite find_in_app.
    - cbn [find_in]. unfold m1 in Hr. cbn [heap] in Hr.
      by rewrite Hr, String.eqb_refl.
    - apply find_in_fresh. intros x b Hin Hx.
      apply (Hfresh x b Hin).
      destruct (wf_alerts _ Hwf x Hin) as (b' & Hb' & _).
      rewrite (lookup_app_l_Some _ _ _ _ Hb') in Hx. congruence. }
  assert (alerts m1 = alerts (run ops) ++ r :: []) as Hl by done.
  pose proof (wf_resolve (a_id alert) user notes now' m1 Hwf1) as Hwf2.
  rewrite (resolve_alert_split m1 _ user notes now' r alert _ []
             Hwf1 Hfind Hl) in Hwf2.
  cbn [fst] in Hwf2.
  exists alert. eexists. split; [exact Hr|].
  split; [by apply resolve_alert_split|].
  assert (r ∉ alerts (run ops) ++ []) as Hgone.
  { rewrite app_nil_r. intros Hin. apply wf_alerts_lt in Hin; [|done].
    unfold r in Hin. lia. }
  split_and!; cbn [heap alerts alert_history]; try done.
  - intros Hin. apply elem_of_get_active_alerts in Hin as [Hin _].
    by apply Hgone.
  - apply list_lookup_insert_eq. by eapply lookup_lt_Some.
  - unfold m1, hist. cbn [alert_history]. case_match.
    + apply last_n_snoc. lia.
    + apply elem_of_app. right. by left.
  - by rewrite list_lookup_insert_ne.
  - intros x Hx. by destruct (wf_history _ Hwf2 x Hx) as [_ ?].
Qed.

(** C1. The code on one alert, created and then resolved by its id. The
    call succeeds and the alert is gone from the active alerts, but
    [resolve_alert] does not write to the history, whatever its comment
    'Move to history and remove from active alerts' says: the only
    history entry for the id is the copy made at creation, with
    [resolved] false and status ['active']. *)
Lemma resolve_leaves_history_unresolved :
  (resolve_alert "alert_1700000000_4242" "alice" None 1700000060
     (run one_alert)).2 = true
  ∧ get_active_alerts
      (resolve_alert "alert_1700000000_4242" "alice" None 1700000060
         (run one_alert)).1 = []
  ∧ omap (λ r, (λ a, (a_id a, a_status a, a_resolved a)) <$>
               heap (resolve_alert "alert_1700000000_4242" "alice" None
                       1700000060 (run one_alert)).1 !! r)
      (alert_history
         (resolve_alert "alert_1700000000_4242" "alice" None 1700000060
            (run one_alert)).1)
    = [("alert_1700000000_4242", "active", false)].
Proof. vm_compute. split_and!; reflexivity. Qed.

(** ** The cooldown of the process check *)

Lemma count_type_app ty l1 l2 :
  count_type ty (l1 ++ l2) = (count_type ty l1 + count_type ty l2)%nat.
Proof. unfold count_type. by rewrite List.filter_app, length_app. Qed.



Section DetectorFacts.

Variable str_float : Q → string.







End DetectorFacts.


(** ** The three-snapshot scenario *)

Lemma Qgtb_true x y : Qgtb x y = true ↔ (y < x)%Q.
Proof. apply Qltb_true. Qed.

Lemma Qgtb_false x y : Qgtb x y = false ↔ (x <= y)%Q.
Proof. apply Qltb_false. Qed.

(** C3, as the code has it. A history of exactly three system snapshots
    with CPU usage 40, 50 and 75, the latest without a memory, disk or
    process breach, and no network or event data, yields exactly one
    threat: the rapid-increase trend threat, whose type is
    [resource_abuse]. So no threat comes from the threshold checks of the
    system monitor, one threat has type [resource_abuse], and none has
    type [brute_force]. *)
Theorem three_snapshots_trend_only (str_float : Q → string)
    (s1 s2 s3 : SystemSnapshot) (now : Time) (duration : Z)
    (d : ThreatDetector) :
  (default 0 (cpu_usage_percent s1) == 40)%Q →
  (default 0 (cpu_usage_percent s2) == 50)%Q →
  (default 0 (cpu_usage_percent s3) == 75)%Q →
  (default 0 (memory_usage_percent s3) <= 98)%Q →
  (default 0 (disk_usage_percent s3) <= 95)%Q →
  default 0 (processes_total_count s3) ≤ 500 →
  ∃ t, (analyze_data str_float (system_history [s1; s2; s3]) now duration d).2
       = [t]
    ∧ t_id t = Some (stamp_id "rapid_cpu_increase" now)
    ∧ t_type t = Some "resource_abuse"
    ∧ t_source t = Some "pattern_analyzer"
    ∧ count_source "system_monitor"
        (analyze_data str_float (system_history [s1; s2; s3])
           now duration d).2 = 0%nat
    ∧ count_type "resource_abuse"
        (analyze_data str_float (system_history [s1; s2; s3])
           now duration d).2 = 1%nat
    ∧ count_type "brute_force"
        (analyze_data str_float (system_history [s1; s2; s3])
           now duration d).2 = 0%nat.
Proof.
  intros H1 H2 H3 Hmem Hdisk Hproc.
  assert (Qgtb (default 0%Q (cpu_usage_percent s3)) cpu_threshold = false)
    as Ec.
  { apply Qgtb_false. unfold cpu_threshold. lra. }
  assert (Qgtb (default 0%Q (memory_usage_percent s3)) memory_threshold
          = false) as Em by (by apply Qgtb_false).
  assert (Qgtb (default 0%Q (disk_usage_percent s3)) disk_threshold = false)
    as Ed by (by apply Qgtb_false).
  apply Z.ltb_ge in Hproc.
  assert (Qgtb (float_sub (default 0%Q (cpu_usage_percent s3))
                  (default 0%Q (cpu_usage_percent s1))) 30 = true) as Et.
  { unfold float_sub. rewrite (float_round_comp _ 35) by lra.
    vm_compute. reflexivity. }
  unfold analyze_data, system_history.
  cbn [system_metrics network_traffic security_events last].
  unfold _analyze_system_metrics. rewrite Ec, Em, Ed, Hproc.
  unfold _analyze_patterns.
  cbn [system_metrics network_traffic length Nat.leb last_n Nat.sub drop map
       head last].
  rewrite Et. cbn [snd app].
  eexists. split; [reflexivity|]. by split_and!.
Qed.

(** C3, as stated, fails: on the snapshots 40, 50, 75 the pass does emit
    a threat of type [resource_abuse], the trend threat itself. *)
Lemma three_snapshots_one_resource_abuse :
  count_type "resource_abuse"
    (analyze_data str_whole
       (system_history [cpu_snapshot 40; cpu_snapshot 50; cpu_snapshot 75])
       1700000000 120 ThreatDetector_init).2 ≠ 0%nat
  ∧ List.filter (has_type "resource_abuse")
      (analyze_data str_whole
         (system_history [cpu_snapshot 40; cpu_snapshot 50; cpu_snapshot 75])
         1700000000 120 ThreatDetector_init).2
    = List.filter (has_source "pattern_analyzer")
        (analyze_data str_whole
           (system_history [cpu_snapshot 40; cpu_snapshot 50; cpu_snapshot 75])
           1700000000 120 ThreatDetector_init).2.
Proof. vm_compute. split; [discriminate|reflexivity]. Qed.

(** ** Threat identifiers *)

Lemma stamp_id_same kind t1 t2 :
  stamp_id kind t1 = stamp_id kind t2 ↔ int_of t1 = int_of t2.
Proof.
  unfold stamp_id. split; [|by intros ->].
  intros H. apply (inj (String.app kind)) in H.
  apply (inj (String.app "_")) in H. by apply (inj pretty) in H.
Qed.

Lemma stamp_id_inj k1 k2 t1 t2 :
  k1 ∈ threat_kinds → k2 ∈ threat_kinds →
  stamp_id k1 t1 = stamp_id k2 t2 → k1 = k2 ∧ int_of t1 = int_of t2.
Proof.
  unfold threat_kinds. intros Hk1 Hk2.
  repeat (apply elem_of_cons in Hk1 as [->|Hk1]);
    try (by apply elem_of_nil in Hk1);
    repeat (apply elem_of_cons in Hk2 as [->|Hk2]);
    try (by apply elem_of_nil in Hk2);
    intros H;
    first [ split; [reflexivity|by apply stamp_id_same in H]
          | exfalso; unfold stamp_id in H; cbn [String.app] in H;
            discriminate H ].
Qed.

Ltac threat_cases H :=
  repeat match type of H with
  | _ ∈ _ ++ _ => apply elem_of_app in H as [H|H]
  | _ ∈ [] => by apply elem_of_nil in H
  | _ ∈ _ :: _ => apply elem_of_cons in H as [->|H]
  | _ ∈ match ?c with _ => _ end => destruct c
  end.

Ltac kind_found :=
  eexists; split; [|reflexivity];
  apply list_elem_of_In; cbn; repeat (first [left; reflexivity|right]).

Section DetectorIds.

Variable str_float : Q → string.

Lemma system_ids s now d t :
  t ∈ (_analyze_system_metrics str_float s now d).2 →
  ∃ k, k ∈ threat_kinds ∧ t_id t = Some (stamp_id k now).
Proof.
  unfold _analyze_system_metrics.
  destruct (500 <? _); [destruct (_should_send_alert _ _ _) as [d' []]|];
    cbn [snd]; intros H; threat_cases H; kind_found.
Qed.

Lemma network_ids nd now t :
  t ∈ _analyze_network_traffic nd now →
  ∃ k, k ∈ threat_kinds ∧ t_id t = Some (stamp_id k now).
Proof.
  unfold _analyze_network_traffic. intros H. threat_cases H; kind_found.
Qed.

Lemma events_ids events now t :
  t ∈ _analyze_security_events events now →
  ∃ k, k ∈ threat_kinds ∧ t_id t = Some (stamp_id k now).
Proof.
  unfold _analyze_security_events. intros H. threat_cases H; kind_found.
Qed.

Lemma patterns_ids sd now t :
  t ∈ _analyze_patterns sd now →
  ∃ k, k ∈ threat_kinds ∧ t_id t = Some (stamp_id k now).
Proof.
  unfold _analyze_patterns. intros H.
  repeat case_match; simplify_eq; threat_cases H; kind_found.
Qed.

Lemma analyze_ids sd now duration d t :
  t ∈ (analyze_data str_float sd now duration d).2 →
  ∃ k, k ∈ threat_kinds ∧ t_id t = Some (stamp_id k now).
Proof.
  unfold analyze_data.
  destruct (last (system_metrics sd)) as [latest|].
  - pose proof (system_ids latest now d t) as Hsys.
    destruct (_analyze_system_metrics str_float latest now d) as [d1 ts].
    cbn [snd] in *. intros [H|[H|[H|H]%elem_of_app]%elem_of_app]%elem_of_app.
    + by apply Hsys.
    + destruct (last (network_traffic sd)); [by eapply network_ids|].
      by apply elem_of_nil in H.
    + destruct (security_events sd); [by apply elem_of_nil in H|].
      by eapply events_ids.
    + by eapply patterns_ids.
  - cbn [snd]. intros [H|[H|[H|H]%elem_of_app]%elem_of_app]%elem_of_app.
    + by apply elem_of_nil in H.
    + destruct (last (network_traffic sd)); [by eapply network_ids|].
      by apply elem_of_nil in H.
    + destruct (security_events sd); [by apply elem_of_nil in H|].
      by eapply events_ids.
    + by eapply patterns_ids.
Qed.

End DetectorIds.

(** C4, as the code has it. The id of every threat of a pass is one of
    the kind labels followed by the whole second of the clock reading;
    no random part enters it. Two threats, of one pass or of two, have
    the same id exactly when they have the same kind label and were
    emitted in the same whole second. *)
Theorem threat_ids_by_kind_and_second (str_float : Q → string)
    (sd1 sd2 : SecurityData) (now1 now2 : Time) (duration1 duration2 : Z)
    (d1 d2 : ThreatDetector) (t1 t2 : Threat) :
  t1 ∈ (analyze_data str_float sd1 now1 duration1 d1).2 →
  t2 ∈ (analyze_data str_float sd2 now2 duration2 d2).2 →
  ∃ k1 k2, k1 ∈ threat_kinds ∧ k2 ∈ threat_kinds
    ∧ t_id t1 = Some (k1 +:+ "_" +:+ pretty (int_of now1))
    ∧ t_id t2 = Some (k2 +:+ "_" +:+ pretty (int_of now2))
    ∧ (t_id t1 = t_id t2 ↔ k1 = k2 ∧ int_of now1 = int_of now2).
Proof.
  intros (k1 & Hk1 & Hid1)%analyze_ids (k2 & Hk2 & Hid2)%analyze_ids.
  exists k1, k2. split_and!; [done..|].
  rewrite Hid1, Hid2. split.
  - intros [= H]. by apply stamp_id_inj.
  - by intros [-> ->%(stamp_id_same k2)].
Qed.

(** C4, as stated, fails: two passes within one second, each with a CPU
    breach, emit two different threats under one and the same id. *)
Lemma same_second_same_id :
  t_id <$> (analyze_data str_whole (system_history [cpu_snapshot 96])
              (17000000002 # 10) 120 ThreatDetector_init).2
  = [Some "cpu_abuse_1700000000"]
  ∧ t_id <$> (analyze_data str_whole (system_history [cpu_snapshot 97])
                (17000000007 # 10) 130
                (analyze_data str_whole (system_history [cpu_snapshot 96])
                   (17000000002 # 10) 120 ThreatDetector_init).1).2
    = [Some "cpu_abuse_1700000000"]
  ∧ t_timestamp <$>
      (analyze_data str_whole (system_history [cpu_snapshot 96])
         (17000000002 # 10) 120 ThreatDetector_init).2
    ≠ t_timestamp <$>
        (analyze_data str_whole (system_history [cpu_snapshot 97])
           (17000000007 # 10) 130
           (analyze_data str_whole (system_history [cpu_snapshot 96])
              (17000000002 # 10) 120 ThreatDetector_init).1).2.
Proof. vm_compute. split_and!; [reflexivity..|discriminate]. Qed.

(** * The statements at concrete inputs *)

Lemma status_resolved_iff_flag_witness :
  is_Some (heap (run one_alert_resolved) !! 0%nat)
  ∧ ∃ a, heap (run one_alert_resolved) !! 0%nat = Some a
         ∧ a_resolved a = true
         ∧ (a_status a = "resolved" ↔ a_resolved a = true).
Proof.
  assert (is_Some (heap (run one_alert_resolved) !! 0%nat)) as Hobj.
  { vm_compute. eexists. reflexivity. }
  split; [exact Hobj|].
  destruct (status_resolved_iff_flag one_alert_resolved 0%nat
              (or_intror (or_intror Hobj))) as (a & Ha & Hiff).
  exists a. split_and!; [exact Ha| |exact Hiff].
  vm_compute in Ha. injection Ha as <-. reflexivity.
Defined.

Lemma export_unsupported_format_witness :
  lower "XML" ≠ "json" ∧ lower "XML" ≠ "csv"
  ∧ export_alerts (λ _, "[]") (λ _ _, "") "XML" (run one_alert)
    = (run one_alert, "Unsupported format. Use 'json' or 'csv'").
Proof.
  assert (lower "XML" ≠ "json") as H1 by (vm_compute; discriminate).
  assert (lower "XML" ≠ "csv") as H2 by (vm_compute; discriminate).
  split_and!; [exact H1|exact H2|].
  exact (export_unsupported_format (λ _, "[]") (λ _ _, "") "XML"
           (run one_alert) H1 H2).
Defined.


Lemma auto_resolve_high_cpu_witness :
  0%nat ∈ get_active_alerts (run one_alert)
  ∧ (0%nat ∉ alerts (auto_resolve_alerts (system_history [cpu_snapshot 65])
                       1700000100 (run one_alert)).1)
  ∧ AlertResolved "alert_1700000000_4242" "system_auto_resolve"
      ∈ stdout (auto_resolve_alerts (system_history [cpu_snapshot 65])
                  1700000100 (run one_alert)).1
  ∧ 0%nat ∈ get_active_alerts
              (auto_resolve_alerts (system_history [cpu_snapshot 75])
                 1700000100 (run one_alert)).1.
Proof.
  assert (0%nat ∈ get_active_alerts (run one_alert)) as Hactive.
  { vm_compute. left. }
  assert (∃ a, heap (run one_alert) !! 0%nat = Some a
               ∧ a_id a = "alert_1700000000_4242"
               ∧ a_auto_resolve a = true ∧ a_type a = "resource_abuse"
               ∧ startswith (a_description a) "High CPU usage" = true)
    as (a & Ha & Hid & Hauto & Hty & Hdesc).
  { vm_compute. eexists. split_and!; reflexivity. }
  assert (∀ r' a', r' ∈ alerts (run one_alert) → r' ≠ 0%nat →
            heap (run one_alert) !! r' = Some a' → a_id a' ≠ a_id a) as Huniq.
  { intros r' a' Hin Hne. vm_compute in Hin.
    apply list_elem_of_singleton in Hin. contradiction. }
  split; [exact Hactive|].
  destruct (auto_resolve_high_cpu one_alert 0%nat a
              (system_history [cpu_snapshot 65]) (cpu_snapshot 65) 1700000100
              Hactive Ha Hauto Hty Hdesc Huniq eq_refl) as [Hlow _].
  destruct (auto_resolve_high_cpu one_alert 0%nat a
              (system_history [cpu_snapshot 75]) (cpu_snapshot 75) 1700000100
              Hactive Ha Hauto Hty Hdesc Huniq eq_refl) as [_ Hhigh].
  destruct Hlow as (Hgone & _ & _ & Hline); [vm_compute; reflexivity|].
  destruct Hhigh as (Hkept & _); [vm_compute; discriminate|].
  rewrite Hid in Hline. split_and!; assumption.
Defined.


Lemma three_snapshots_trend_only_witness :
  ∃ t, (analyze_data str_whole
          (system_history [cpu_snapshot 40; cpu_snapshot 50; cpu_snapshot 75])
          1700000000 120 ThreatDetector_init).2 = [t]
    ∧ t_id t = Some (stamp_id "rapid_cpu_increase" 1700000000)
    ∧ t_type t = Some "resource_abuse"
    ∧ t_source t = Some "pattern_analyzer".
Proof.
  destruct (three_snapshots_trend_only str_whole
              (cpu_snapshot 40) (cpu_snapshot 50) (cpu_snapshot 75)
              1700000000 120 ThreatDetector_init)
    as (t & Ht & Hid & Hty & Hsrc & _);
    [reflexivity|reflexivity|reflexivity
    |vm_compute; discriminate|vm_compute; discriminate
    |vm_compute; discriminate|].
  exists t. split_and!; assumption.
Defined.

Lemma threat_ids_by_kind_and_second_witness :
  cpu_threat_at 96 (17000000002 # 10)
    ∈ (analyze_data str_whole (system_history [cpu_snapshot 96])
         (17000000002 # 10) 120 ThreatDetector_init).2
  ∧ cpu_threat_at 97 1700000005
      ∈ (analyze_data str_whole (system_history [cpu_snapshot 97])
           1700000005 130 ThreatDetector_init).2
  ∧ ∃ k1 k2,
      t_id (cpu_threat_at 96 (17000000002 # 10))
      = Some (k1 +:+ "_" +:+ pretty (int_of (17000000002 # 10)))
      ∧ t_id (cpu_threat_at 97 1700000005)
        = Some (k2 +:+ "_" +:+ pretty (int_of 1700000005))
      ∧ (t_id (cpu_threat_at 96 (17000000002 # 10))
         = t_id (cpu_threat_at 97 1700000005)
         ↔ k1 = k2 ∧ int_of (17000000002 # 10) = int_of 1700000005).
Proof.
  assert (cpu_threat_at 96 (17000000002 # 10)
            ∈ (analyze_data str_whole (system_history [cpu_snapshot 96])
                 (17000000002 # 10) 120 ThreatDetector_init).2) as H1.
  { vm_compute. left. }
  assert (cpu_threat_at 97 1700000005
            ∈ (analyze_data str_whole (system_history [cpu_snapshot 97])
                 1700000005 130 ThreatDetector_init).2) as H2.
  { vm_compute. left. }
  split_and!; [exact H1|exact H2|].
  destruct (threat_ids_by_kind_and_second str_whole _ _ _ _ _ _ _ _ _ _ H1 H2)
    as (k1 & k2 & _ & _ & Hid1 & Hid2 & Hiff).
  exists k1, k2. split_and!; assumption.
Defined.

Lemma create_resolve_round_trip_witness :
  ∃ created m2,
    resolve_alert (a_id created) "alice" None 1700000060
      (create_alert failed_login_threat 1700000007 7313 (run one_alert)).1
    = (m2, true)
    ∧ ((create_alert failed_login_threat 1700000007 7313 (run one_alert)).2
         ∉ get_active_alerts m2)
    ∧ S (create_alert failed_login_threat 1700000007 7313 (run one_alert)).2
        ∈ alert_history m2
    ∧ heap m2
        !! S (create_alert failed_login_threat 1700000007 7313
                (run one_alert)).2
      = Some created
    ∧ a_resolved created = false.
Proof.
  destruct (create_resolve_round_trip one_alert failed_login_threat
              1700000007 1700000060 7313 "alice" None _ _
              (surjective_pairing _))
    as (created & m2 & _ & Hres & _ & Hgone & _ & Hhist & Hcopy & Hflag & _).
  { intros r' a' Hin Ha. vm_compute in Hin.
    apply list_elem_of_singleton in Hin. subst r'.
    vm_compute in Ha. injection Ha as <-. vm_compute. discriminate. }
  exists created, m2. split_and!; assumption.
Defined.


(** * Further properties of the alert manager *)

(** ** The history and its bound *)

Lemma resolve_alert_history alert_id user notes now m :
  alert_history (resolve_alert alert_id user notes now m).1 = alert_history m.
Proof. unfold resolve_alert. by repeat case_match. Qed.

Lemma auto_resolve_step_history current_metrics now m n r :
  alert_history (auto_resolve_step current_metrics now (m, n) r).1
  = alert_history m.
Proof.
  destruct (auto_resolve_step_cases current_metrics now m n r)
    as [->|(b & notes & _ & ->)]; [done|apply resolve_alert_history].
Qed.

Lemma auto_resolve_loop_history current_metrics now l :
  ∀ m n,
  alert_history (foldl (auto_resolve_step current_metrics now) (m, n) l).1
  = alert_history m.
Proof.
  induction l as [|x l IH]; intros m n; [done|]. cbn [foldl].
  destruct (auto_resolve_step current_metrics now (m, n) x) as [m' n'] eqn:E.
  rewrite IH. change m' with (m', n').1. rewrite <- E.
  apply auto_resolve_step_history.
Qed.

Lemma auto_resolve_alerts_history current_metrics now m :
  alert_history (auto_resolve_alerts current_metrics now m).1
  = alert_history m.
Proof.
  unfold auto_resolve_alerts, auto_resolve_loop.
  pose proof (auto_resolve_loop_history current_metrics now (alerts m) m 0%nat)
    as Hloop.
  destruct (foldl _ _ _) as [m' n']. cbn [fst] in *.
  by destruct (0 <? n')%nat.
Qed.

Lemma length_last_n {A} (n : nat) (l : list A) :
  (n ≤ length l)%nat → length (last_n n l) = n.
Proof. intros Hn. unfold last_n. rewrite length_drop. lia. Qed.

Lemma create_alert_history_length threat now rnd m :
  (length (alert_history (create_alert threat now rnd m).1) ≤ 1000)%nat.
Proof.
  unfold create_alert. cbn [fst alert_history].
  destruct (1000 <? _)%nat eqn:E.
  - apply Nat.ltb_lt in E. rewrite length_last_n; lia.
  - by apply Nat.ltb_ge in E.
Qed.

Lemma step_history_bound m op :
  (length (alert_history m) ≤ 1000)%nat →
  (length (alert_history (step m op)) ≤ 1000)%nat.
Proof.
  intros Hm. destruct op; cbn [step].
  - apply create_alert_history_length.
  - unfold acknowledge_alert. by repeat case_match.
  - by rewrite resolve_alert_history.
  - unfold escalate_alert. by repeat case_match.
  - by rewrite auto_resolve_alerts_history.
  - destruct (cleanup_old_alerts_frame days now m) as (_ & _ & ->).
    destruct (cutoff_in_range days now); [|done].
    etransitivity; [apply List.filter_length_le|done].
Qed.

Lemma history_bound_foldl ops :
  ∀ m, (length (alert_history m) ≤ 1000)%nat →
       (length (alert_history (foldl step m ops)) ≤ 1000)%nat.
Proof.
  induction ops as [|op ops IH]; intros m Hm; [done|].
  cbn [foldl]. by apply IH, step_history_bound.
Qed.

Lemma history_bound_run ops : (length (alert_history (run ops)) ≤ 1000)%nat.
Proof. apply history_bound_foldl. cbn. lia. Qed.

(** X1. Whatever operations are issued, the alert history never holds
    more than 1000 entries. *)
Theorem history_never_exceeds_1000 (ops : list Op) :
  (length (alert_history (run ops)) ≤ 1000)%nat
  ∧ (total_history (get_alert_statistics (run ops)) ≤ 1000)%nat.
Proof. split; apply history_bound_run. Qed.

(** X2. [create_alert] puts the copy of the new alert at the end of the
    history. While the history holds fewer than 1000 entries nothing is
    dropped; once it holds 1000, each creation drops exactly the oldest
    entry and keeps the others in order. *)
Theorem create_alert_history_fifo (ops : list Op) (threat : Threat)
    (now : Time) (rnd : Z) :
  alert_history (create_alert threat now rnd (run ops)).1
  = (if (length (alert_history (run ops)) =? 1000)%nat
     then drop 1 (alert_history (run ops))
     else alert_history (run ops))
    ++ [S (create_alert threat now rnd (run ops)).2]
  ∧ heap (create_alert threat now rnd (run ops)).1
      !! S (create_alert threat now rnd (run ops)).2
    = heap (create_alert threat now rnd (run ops)).1
        !! (create_alert threat now rnd (run ops)).2.
Proof.
  pose proof (history_bound_run ops) as Hbound.
  unfold create_alert. cbn [fst snd alert_history heap]. split.
  - rewrite length_app. cbn [length].
    destruct (length (alert_history (run ops)) =? 1000)%nat eqn:E.
    + apply Nat.eqb_eq in E. rewrite E. cbn [Nat.add Nat.ltb Nat.leb].
      replace (1000 <? 1000 + 1)%nat with true by (symmetry; by apply Nat.ltb_lt; lia).
      unfold last_n. rewrite length_app, E. cbn [length].
      replace (1000 + 1 - 1000)%nat with 1%nat by lia.
      rewrite drop_app_le; [done|lia].
    + apply Nat.eqb_neq in E.
      replace (1000 <? _)%nat with false; [done|].
      symmetry. apply Nat.ltb_ge. lia.
  - rewrite !lookup_app_r by lia.
    by replace (S (length (heap (run ops))) - length (heap (run ops)))%nat
      with 1%nat by lia; rewrite Nat.sub_diag.
Qed.

(** ** Ids that are no longer listed *)

Lemma not_found_noop m alert_id user notes now :
  _find_alert alert_id m = None →
  acknowledge_alert alert_id user now m = (m, false)
  ∧ resolve_alert alert_id user notes now m = (m, false)
  ∧ escalate_alert alert_id now m = (m, false).
Proof.
  intros Hfind. unfold acknowledge_alert, resolve_alert, escalate_alert.
  by rewrite Hfind.
Qed.

(** X3. Once the only alert carrying an id has been resolved, the id is
    unknown to the manager: acknowledging, resolving or escalating it
    again returns false and changes nothing. *)
Theorem resolved_id_is_unknown (ops : list Op) (alert_id user : string)
    (notes : option string) (now : Time) (m' : AlertManager)
    (user' : string) (notes' : option string) (now' : Time) :
  (∀ r1 r2 a1 a2, r1 ∈ alerts (run ops) → r2 ∈ alerts (run ops) →
     heap (run ops) !! r1 = Some a1 → heap (run ops) !! r2 = Some a2 →
     a_id a1 = alert_id → a_id a2 = alert_id → r1 = r2) →
  resolve_alert alert_id user notes now (run ops) = (m', true) →
  acknowledge_alert alert_id user' now' m' = (m', false)
  ∧ resolve_alert alert_id user' notes' now' m' = (m', false)
  ∧ escalate_alert alert_id now' m' = (m', false).
Proof.
  intros Huniq Hres. pose proof (wf_run ops) as Hwf.
  destruct (_find_alert alert_id (run ops)) as [[r a]|] eqn:Hfind.
  2: { by rewrite resolve_alert_not_found in Hres. }
  destruct (resolve_alert_found _ alert_id user notes now r a Hwf Hfind)
    as (l1 & l2 & Hl & Hr & Hid & Heq).
  rewrite Heq in Hres. injection Hres as <-.
  apply not_found_noop. unfold _find_alert. cbn [heap alerts].
  apply find_in_fresh. intros x b Hin Hx Hidx.
  assert (x ∈ alerts (run ops)) as Hin'.
  { rewrite Hl. apply elem_of_app in Hin as [?|?]; apply elem_of_app;
      [by left|right; by right]. }
  assert (x ≠ r) as Hne.
  { pose proof (wf_nodup _ Hwf) as Hnd. rewrite Hl in Hnd.
    apply NoDup_app in Hnd as (_ & Hdisj & [Hnot _]%NoDup_cons).
    intros ->. apply elem_of_app in Hin as [Hin|Hin]; [|done].
    apply (Hdisj r Hin). by left. }
  rewrite list_lookup_insert_ne in Hx; [|done].
  apply Hne. apply (Huniq x r b a Hin'); try done.
  rewrite Hl. apply elem_of_app. right. by left.
Qed.

(** X4. Escalation is only possible from ['active']: after a successful
    [escalate_alert], escalating the same id again returns false and
    changes nothing. *)
Theorem escalate_twice_fails (ops : list Op) (alert_id : string)
    (now now' : Time) (m' : AlertManager) :
  escalate_alert alert_id now (run ops) = (m', true) →
  escalate_alert alert_id now' m' = (m', false).
Proof.
  intros (r & a & Hfind & _ & ->)%escalate_alert_true.
  unfold escalate_alert.
  by rewrite (_find_alert_update _ _ _ _ (set_escalated now a) _ Hfind eq_refl).
Qed.

(** ** Acknowledgement *)

Lemma filter_ext_elem {A} (f g : A → bool) (l : list A) :
  (∀ x, x ∈ l → f x = g x) → List.filter f l = List.filter g l.
Proof.
  induction l as [|x l IH]; intros Hfg; [done|]. cbn [List.filter].
  rewrite (Hfg x) by (by left). rewrite IH; [done|].
  intros y ?. apply Hfg. by right.
Qed.





(** ** The statistics along the life of an alert *)

Lemma status_is_insert_ne h r a' s x :
  x ≠ r → status_is (<[r := a']> h) s x = status_is h s x.
Proof. intros Hne. unfold status_is. by rewrite list_lookup_insert_ne. Qed.

Lemma filter_status_insert_other h r a' s l :
  r ∉ l →
  List.filter (status_is (<[r := a']> h) s) l = List.filter (status_is h s) l.
Proof.
  intros Hnot. apply filter_ext_elem. intros x Hin.
  apply status_is_insert_ne. by intros ->.
Qed.

Lemma status_is_at h r a s :
  h !! r = Some a → status_is h s r = String.eqb (a_status a) s.
Proof. intros Hr. unfold status_is. by rewrite Hr. Qed.

Lemma nodup_split_not_in (l1 l2 : list nat) r :
  NoDup (l1 ++ r :: l2) → (r ∉ l1) ∧ (r ∉ l2).
Proof.
  intros (_ & Hdisj & [Hnot _]%NoDup_cons)%NoDup_app. split; [|done].
  intros Hin. apply (Hdisj r Hin). by left.
Qed.

(** X6. Every [create_alert] adds one alert to the list, and the report
    counts it as one more active alert; the escalated count stays. *)
Theorem create_alert_counts (ops : list Op) (threat : Threat) (now : Time)
    (rnd : Z) :
  total_alerts (get_alert_statistics (create_alert threat now rnd (run ops)).1)
  = S (total_alerts (get_alert_statistics (run ops)))
  ∧ active_alerts
      (get_alert_statistics (create_alert threat now rnd (run ops)).1)
    = S (active_alerts (get_alert_statistics (run ops)))
  ∧ escalated_alerts
      (get_alert_statistics (create_alert threat now rnd (run ops)).1)
    = escalated_alerts (get_alert_statistics (run ops))
  ∧ get_active_alerts (create_alert threat now rnd (run ops)).1
    = get_active_alerts (run ops) ++ [(create_alert threat now rnd (run ops)).2].
Proof.
  pose proof (wf_run ops) as Hwf.
  unfold create_alert, get_alert_statistics, get_active_alerts.
  cbn [fst snd heap alerts total_alerts active_alerts escalated_alerts].
  set (alert := Build_Alert _ _ _ _ _ _ _ _ _ _ _ _ _ _ _ _ _ _ _ _ _).
  assert (∀ s, List.filter (status_is (heap (run ops) ++ [alert; alert]) s)
                 (alerts (run ops))
               = List.filter (status_is (heap (run ops)) s) (alerts (run ops)))
    as Hold.
  { intros s. apply filter_ext_elem. intros x Hin.
    destruct (wf_alerts _ Hwf x Hin) as (b & Hb & _).
    unfold status_is. by rewrite (lookup_app_l_Some _ _ _ _ Hb), Hb. }
  assert ((heap (run ops) ++ [alert; alert]) !! length (heap (run ops))
          = Some alert) as Hnew.
  { rewrite lookup_app_r by lia. by rewrite Nat.sub_diag. }
  rewrite !List.filter_app, !Hold, !length_app. cbn [List.filter].
  rewrite !(status_is_at _ _ _ _ Hnew). cbn. split_and!; [lia..|done].
Qed.

(** X7. A successful [escalate_alert] moves exactly one alert from the
    active count to the escalated count; the total stays. *)
Theorem escalate_alert_counts (ops : list Op) (alert_id : string)
    (now : Time) (m' : AlertManager) :
  escalate_alert alert_id now (run ops) = (m', true) →
  total_alerts (get_alert_statistics m')
  = total_alerts (get_alert_statistics (run ops))
  ∧ S (active_alerts (get_alert_statistics m'))
    = active_alerts (get_alert_statistics (run ops))
  ∧ escalated_alerts (get_alert_statistics m')
    = S (escalated_alerts (get_alert_statistics (run ops))).
Proof.
  intros (r & a & Hfind & Hactive & ->)%escalate_alert_true.
  pose proof (wf_run ops) as Hwf.
  destruct (find_in_Some _ _ _ _ _ Hfind) as (l1 & l2 & Hl & Hr & _).
  pose proof (wf_nodup _ Hwf) as Hnd. rewrite Hl in Hnd.
  destruct (nodup_split_not_in _ _ _ Hnd) as [Hn1 Hn2].
  assert (<[r := set_escalated now a]> (heap (run ops)) !! r
          = Some (set_escalated now a)) as Hr'.
  { apply list_lookup_insert_eq. by eapply lookup_lt_Some. }
  unfold get_alert_statistics.
  cbn [heap alerts total_alerts active_alerts escalated_alerts].
  rewrite Hl, !List.filter_app. cbn [List.filter].
  rewrite !filter_status_insert_other by done.
  rewrite !(status_is_at _ _ _ _ Hr'), !(status_is_at _ _ _ _ Hr), Hactive.
  cbn. rewrite !length_app. cbn [length]. split_and!; lia.
Qed.

(** X8. A successful [resolve_alert] takes exactly one alert off the
    list, and the report loses it from the count of its status: from the
    active count if it was active, from the escalated count if it was
    escalated. *)
Theorem resolve_alert_counts (ops : list Op) (alert_id user : string)
    (notes : option string) (now : Time) (m' : AlertManager) :
  resolve_alert alert_id user notes now (run ops) = (m', true) →
  ∃ r a, _find_alert alert_id (run ops) = Some (r, a)
    ∧ S (total_alerts (get_alert_statistics m'))
      = total_alerts (get_alert_statistics (run ops))
    ∧ (a_status a = "active" →
       S (active_alerts (get_alert_statistics m'))
       = active_alerts (get_alert_statistics (run ops))
       ∧ escalated_alerts (get_alert_statistics m')
         = escalated_alerts (get_alert_statistics (run ops)))
    ∧ (a_status a = "escalated" →
       active_alerts (get_alert_statistics m')
       = active_alerts (get_alert_statistics (run ops))
       ∧ S (escalated_alerts (get_alert_statistics m'))
         = escalated_alerts (get_alert_statistics (run ops)))
    ∧ (a_status a = "active" ∨ a_status a = "escalated").
Proof.
  intros Hres. pose proof (wf_run ops) as Hwf.
  destruct (_find_alert alert_id (run ops)) as [[r a]|] eqn:Hfind.
  2: { by rewrite resolve_alert_not_found in Hres. }
  destruct (resolve_alert_found _ alert_id user notes now r a Hwf Hfind)
    as (l1 & l2 & Hl & Hr & _ & Heq).
  rewrite Heq in Hres. injection Hres as <-. exists r, a.
  pose proof (wf_nodup _ Hwf) as Hnd. rewrite Hl in Hnd.
  destruct (nodup_split_not_in _ _ _ Hnd) as [Hn1 Hn2].
  destruct (wf_alerts _ Hwf r) as (a0 & Hr0 & _ & Hst).
  { rewrite Hl. apply elem_of_app. right. by left. }
  assert (a0 = a) as -> by congruence.
  unfold get_alert_statistics.
  cbn [heap alerts total_alerts active_alerts escalated_alerts].
  rewrite Hl, !List.filter_app. cbn [List.filter].
  rewrite !filter_status_insert_other by done.
  rewrite !(status_is_at _ _ _ _ Hr), !length_app. cbn [length].
  split_and!; [done|lia| | |done].
  - intros ->. rewrite String.eqb_refl.
    change (String.eqb "active" "escalated") with false.
    cbn [length]. lia.
  - intros ->. rewrite String.eqb_refl.
    change (String.eqb "escalated" "active") with false.
    cbn [length]. lia.
Qed.

(** ** The breakdowns of the report *)

Lemma count_fold_lookup key (h : list Alert) k l :
  ∀ acc : gmap string nat,
  default 0%nat
    (foldl (λ counts r,
              match h !! r with
              | Some alert =>
                  <[key alert := (default 0 (counts !! key alert) + 1)%nat]>
                    counts
              | None => counts
              end) acc l !! k)
  = (default 0%nat (acc !! k)
     + length (List.filter (λ r, match h !! r with
                                 | Some alert => String.eqb (key alert) k
                                 | None => false
                                 end) l))%nat.
Proof.
  induction l as [|x l IH]; intros acc; [cbn; lia|].
  cbn [foldl List.filter]. rewrite IH.
  destruct (h !! x) as [b|]; [|done].
  destruct (String.eqb_spec (key b) k) as [->|Hne].
  - rewrite lookup_insert_eq. cbn. lia.
  - by rewrite lookup_insert_ne.
Qed.

Lemma count_by_lookup key h l k :
  default 0%nat (count_by key h l !! k)
  = length (List.filter (λ r, match h !! r with
                              | Some alert => String.eqb (key alert) k
                              | None => false
                              end) l).
Proof. unfold count_by. by rewrite count_fold_lookup, lookup_empty. Qed.

(** X9. The breakdowns of the statistics report agree with the filter
    queries: the count under a severity is the number of alerts that
    [get_alerts_by_severity] returns, the count under a type the number
    [get_alerts_by_type] returns, and the counts under the statuses
    ['active'] and ['escalated'] are the two headline counts; no alert is
    ever counted under ['resolved']. *)
Theorem statistics_agree_with_queries (ops : list Op)
    (severity alert_type : string) :
  default 0%nat (by_severity (get_alert_statistics (run ops)) !! severity)
  = length (get_alerts_by_severity severity (run ops))
  ∧ default 0%nat (by_type (get_alert_statistics (run ops)) !! alert_type)
    = length (get_alerts_by_type alert_type (run ops))
  ∧ default 0%nat (by_status (get_alert_statistics (run ops)) !! "active")
    = active_alerts (get_alert_statistics (run ops))
  ∧ default 0%nat (by_status (get_alert_statistics (run ops)) !! "escalated")
    = escalated_alerts (get_alert_statistics (run ops))
  ∧ default 0%nat (by_status (get_alert_statistics (run ops)) !! "resolved")
    = 0%nat.
Proof.
  unfold get_alert_statistics, get_alerts_by_severity, get_alerts_by_type.
  cbn [by_severity by_type by_status active_alerts escalated_alerts].
  rewrite !count_by_lookup. split_and!; try done.
  pose proof (wf_run ops) as Hwf.
  rewrite (filter_ext_elem _ (λ _, false)); [by rewrite List.filter_false|].
  intros x Hin. destruct (wf_alerts _ Hwf x Hin) as (a & -> & _ & Hst).
  by destruct Hst as [-> | ->].
Qed.

(** ** Cleaning the history *)

Lemma filter_filter {A} (f : A → bool) (l : list A) :
  List.filter f (List.filter f l) = List.filter f l.
Proof.
  induction l as [|x l IH]; [done|]. cbn [List.filter].
  destruct (f x) eqn:E; [|done]. cbn [List.filter]. by rewrite E, IH.
Qed.

Lemma filter_sublist {A} (f : A → bool) (l : list A) :
  List.filter f l `sublist_of` l.
Proof.
  induction l as [|x l IH]; [done|]. cbn [List.filter].
  destruct (f x); [by apply sublist_skip|by apply sublist_cons].
Qed.

Lemma filter_filter_weaker {A} (f g : A → bool) (l : list A) :
  (∀ x, x ∈ l → g x = true → f x = true) →
  List.filter g (List.filter f l) = List.filter g l.
Proof.
  induction l as [|x l IH]; intros Hfg; [done|]. cbn [List.filter].
  assert (∀ y, y ∈ l → g y = true → f y = true) as Hl.
  { intros y Hy. apply Hfg. by right. }
  destruct (f x) eqn:Ef; cbn [List.filter].
  - destruct (g x); by rewrite IH.
  - destruct (g x) eqn:Eg; [|by apply IH].
    rewrite (Hfg x) in Ef; [done|by left|done].
Qed.

(** X10. [cleanup_old_alerts] never touches the alert list or the alert
    objects, and what it leaves of the history is in the order it had.
    When the cutoff date [now - days] is one that [datetime] can hold,
    it keeps exactly the history entries stamped after the cutoff, and a
    second clean-up at a later clock reading leaves what a single
    clean-up at that later reading leaves; the number of entries dropped
    is printed when it is positive. When the cutoff overflows, as it
    does for a [days] of large magnitude, the history stays as it is and
    the error is printed. *)
Theorem cleanup_keeps_recent (ops : list Op) (days : Z) (now now' : Time) :
  alerts (cleanup_old_alerts days now (run ops)) = alerts (run ops)
  ∧ heap (cleanup_old_alerts days now (run ops)) = heap (run ops)
  ∧ alert_history (cleanup_old_alerts days now (run ops))
      `sublist_of` alert_history (run ops)
  ∧ (cutoff_in_range days now = true →
     ∀ r, r ∈ alert_history (cleanup_old_alerts days now (run ops)) ↔
          r ∈ alert_history (run ops)
          ∧ ∃ a, heap (run ops) !! r = Some a
                 ∧ (now - inject_Z days * 86400 < a_timestamp a)%Q)
  ∧ (cutoff_in_range days now = true → cutoff_in_range days now' = true →
     (now <= now')%Q →
     alert_history
       (cleanup_old_alerts days now' (cleanup_old_alerts days now (run ops)))
     = alert_history (cleanup_old_alerts days now' (run ops)))
  ∧ (cutoff_in_range days now = true →
     stdout (cleanup_old_alerts days now (run ops))
     = if (length (alert_history (cleanup_old_alerts days now (run ops)))
           <? length (alert_history (run ops)))%nat
       then stdout (run ops)
            ++ [CleanedUp
                  (length (alert_history (run ops))
                   - length (alert_history
                               (cleanup_old_alerts days now (run ops))))]
       else stdout (run ops))
  ∧ (cutoff_in_range days now = false →
     alert_history (cleanup_old_alerts days now (run ops))
     = alert_history (run ops)
     ∧ stdout (cleanup_old_alerts days now (run ops))
       = stdout (run ops) ++ [ErrorPrinted "cleaning up old alerts"]).
Proof.
  destruct (cleanup_old_alerts_frame days now (run ops)) as (Hh & Hl & Hhist).
  split_and!; [done|done| | | | |].
  - rewrite Hhist. destruct (cutoff_in_range days now); [|done].
    apply filter_sublist.
  - intros Hin r. rewrite Hhist, Hin.
    rewrite list_elem_of_In, List.filter_In, <- list_elem_of_In.
    split.
    + intros [Hr Hnew]. split; [done|].
      destruct (heap (run ops) !! r) as [a|]; [|done].
      exists a. split; [done|]. by apply Qgtb_true.
    + intros [Hr (a & -> & Hnew)]. split; [done|]. by apply Qgtb_true.
  - intros Hin Hin' Hle.
    destruct (cleanup_old_alerts_frame days now'
                (cleanup_old_alerts days now (run ops))) as (_ & _ & ->).
    destruct (cleanup_old_alerts_frame days now' (run ops)) as (_ & _ & ->).
    rewrite Hin', Hh, Hhist, Hin.
    apply filter_filter_weaker. intros r _.
    destruct (heap (run ops) !! r) as [a|]; [|done].
    rewrite !Qgtb_true. lra.
  - intros Hin. unfold cleanup_old_alerts. by rewrite Hin.
  - intros Hout. unfold cleanup_old_alerts. by rewrite Hout.
Qed.

(** The overflow at work: asked to keep the last -4000000 days, the
    cutoff would lie beyond the year 9999 and the history stays; with 0
    days the entry made 100 seconds earlier goes. *)
Lemma cleanup_overflow_keeps_history :
  cutoff_in_range (-4000000) 1700000100 = false
  ∧ alert_history (cleanup_old_alerts (-4000000) 1700000100 (run one_alert))
    = alert_history (run one_alert)
  ∧ alert_history (run one_alert) = [1%nat]
  ∧ alert_history (cleanup_old_alerts 0 1700000100 (run one_alert)) = [].
Proof. vm_compute. by split_and!. Qed.

(** * Further properties of auto-resolution *)

Lemma alert_rules_eligible ty rule :
  alert_rules !! ty = Some rule → auto_resolve rule = true →
  ty = "resource_abuse".
Proof.
  unfold alert_rules. cbn [list_to_map foldr uncurry fst snd].
  rewrite !lookup_insert_Some, lookup_empty.
  intros [[<- <-]|[_ [[<- <-]|[_ [[<- <-]|[_ [[<- <-]|[_ ?]]]]]]]]; done.
Qed.

Lemma eligible_insert m r a a' out l hist :
  eligible_is_resource m → heap m !! r = Some a →
  a_auto_resolve a' = a_auto_resolve a → a_type a' = a_type a →
  eligible_is_resource
    {| heap := <[r := a']> (heap m); alerts := l; alert_history := hist;
       stdout := out |}.
Proof.
  intros Hel Hr Hauto Hty x b. cbn [heap].
  destruct (decide (x = r)) as [->|Hne].
  - rewrite list_lookup_insert_eq by (by eapply lookup_lt_Some).
    intros [= <-]. rewrite Hauto, Hty. exact (Hel r a Hr).
  - rewrite list_lookup_insert_ne by done. exact (Hel x b).
Qed.

Lemma eligible_create threat now rnd m :
  eligible_is_resource m →
  eligible_is_resource (create_alert threat now rnd m).1.
Proof.
  intros Hel x b. unfold create_alert. cbn [fst heap].
  intros [Hx|[_ Hx]]%lookup_app_Some; [exact (Hel x b Hx)|].
  assert (b ∈ [b; b]) as _ by (by left).
  apply list_elem_of_lookup_2 in Hx.
  assert (a_auto_resolve b
          = default false
              (auto_resolve <$> alert_rules !! default "unknown" (t_type threat))
          ∧ a_type b = default "unknown" (t_type threat)) as [-> ->].
  { apply elem_of_cons in Hx as [->|Hx]; [done|].
    by apply list_elem_of_singleton in Hx as ->. }
  destruct (alert_rules !! default "unknown" (t_type threat)) as [rule|] eqn:E;
    [|done].
  cbn. by apply alert_rules_eligible.
Qed.

Lemma eligible_resolve alert_id user notes now m :
  eligible_is_resource m →
  eligible_is_resource (resolve_alert alert_id user notes now m).1.
Proof.
  intros Hel. unfold resolve_alert.
  destruct (_find_alert alert_id m) as [[r a]|] eqn:Hfind; [|done].
  destruct (_find_alert_Some _ _ _ _ Hfind) as (_ & Hr & _).
  destruct (list_remove _ _ _); by eapply eligible_insert.
Qed.

Lemma eligible_auto_resolve_step current_metrics now m n x :
  eligible_is_resource m →
  eligible_is_resource (auto_resolve_step current_metrics now (m, n) x).1.
Proof.
  intros Hel.
  destruct (auto_resolve_step_cases current_metrics now m n x)
    as [->|(b & notes & _ & ->)]; [done|by apply eligible_resolve].
Qed.

Lemma eligible_step m op : eligible_is_resource m → eligible_is_resource (step m op).
Proof.
  intros Hel. destruct op; cbn [step].
  - by apply eligible_create.
  - unfold acknowledge_alert.
    destruct (_find_alert alert_id m) as [[r a]|] eqn:Hfind; [|done].
    destruct (_find_alert_Some _ _ _ _ Hfind) as (_ & Hr & _).
    by eapply eligible_insert.
  - by apply eligible_resolve.
  - unfold escalate_alert.
    destruct (_find_alert alert_id m) as [[r a]|] eqn:Hfind; [|done].
    destruct (_find_alert_Some _ _ _ _ Hfind) as (_ & Hr & _).
    destruct (String.eqb _ _); [|done]. by eapply eligible_insert.
  - unfold auto_resolve_alerts, auto_resolve_loop.
    assert (∀ l m n, eligible_is_resource m →
              eligible_is_resource
                (foldl (auto_resolve_step current_metrics now) (m, n) l).1)
      as Hloop.
    { induction l as [|x l IH]; intros m0 n0 Hm0; [done|]. cbn [foldl].
      destruct (auto_resolve_step current_metrics now (m0, n0) x)
        as [m1 n1] eqn:E.
      apply IH. change m1 with (m1, n1).1. rewrite <- E.
      by apply eligible_auto_resolve_step. }
    specialize (Hloop (alerts m) m 0%nat Hel).
    destruct (foldl _ _ _) as [m' n']. cbn [fst] in *.
    by destruct (0 <? n')%nat.
  - unfold eligible_is_resource.
    by destruct (cleanup_old_alerts_frame days now m) as (-> & _).
Qed.

Lemma eligible_run ops : eligible_is_resource (run ops).
Proof.
  unfold run. assert (eligible_is_resource AlertManager_init) as Hinit.
  { intros r a Hr. cbn [AlertManager_init heap] in Hr.
    by rewrite lookup_nil in Hr. }
  revert Hinit. generalize AlertManager_init.
  induction ops as [|op ops IH]; intros m Hm; [done|].
  cbn [foldl]. by apply IH, eligible_step.
Qed.

(** The turn of an alert on a manager of a run: only the resource check
    can fire. *)
Lemma auto_resolve_step_resource current_metrics now m n x :
  eligible_is_resource m →
  auto_resolve_step current_metrics now (m, n) x =
    match heap m !! x with
    | Some alert =>
        if a_auto_resolve alert
           && _check_resource_resolution alert current_metrics
        then ((resolve_alert (a_id alert) "system_auto_resolve"
                 (Some "Resource usage normalized") now m).1, S n)
        else (m, n)
    | None => (m, n)
    end.
Proof.
  intros Hel. unfold auto_resolve_step.
  destruct (heap m !! x) as [b|] eqn:Hx; [|done].
  destruct (a_auto_resolve b) eqn:Hauto; [|done].
  rewrite (Hel x b Hx Hauto). cbn [negb andb].
  change (String.eqb "resource_abuse" "resource_abuse") with true.
  done.
Qed.

Lemma check_resource_system current_metrics current_metrics' alert :
  system_metrics current_metrics = system_metrics current_metrics' →
  _check_resource_resolution alert current_metrics
  = _check_resource_resolution alert current_metrics'.
Proof. intros H. unfold _check_resource_resolution. by rewrite H. Qed.

Lemma auto_resolve_loop_system current_metrics current_metrics' now l :
  system_metrics current_metrics = system_metrics current_metrics' →
  ∀ m n, eligible_is_resource m →
  foldl (auto_resolve_step current_metrics now) (m, n) l
  = foldl (auto_resolve_step current_metrics' now) (m, n) l.
Proof.
  intros Hsys. induction l as [|x l IH]; intros m n Hel; [done|].
  cbn [foldl].
  pose proof (eligible_auto_resolve_step current_metrics now m n x Hel) as Hel'.
  rewrite (auto_resolve_step_resource current_metrics' now m n x Hel).
  rewrite (auto_resolve_step_resource current_metrics now m n x Hel) in *.
  destruct (heap m !! x) as [b|]; [|by apply IH].
  rewrite <- (check_resource_system _ _ b Hsys).
  destruct (a_auto_resolve b && _); by apply IH.
Qed.

(** X11. [auto_resolve_alerts] looks at the system snapshots only: no
    rule makes a [network_anomaly] alert eligible, so the network branch
    of the loop never fires and the network part of the metrics has no
    influence on the outcome. *)
Theorem auto_resolve_ignores_network (ops : list Op)
    (current_metrics current_metrics' : SecurityData) (now : Time) :
  system_metrics current_metrics = system_metrics current_metrics' →
  auto_resolve_alerts current_metrics now (run ops)
  = auto_resolve_alerts current_metrics' now (run ops).
Proof.
  intros Hsys. unfold auto_resolve_alerts, auto_resolve_loop.
  by rewrite (auto_resolve_loop_system _ _ now _ Hsys _ _ (eligible_run ops)).
Qed.

Lemma auto_resolve_loop_idle current_metrics now l :
  system_metrics current_metrics = [] →
  ∀ m n, eligible_is_resource m →
  foldl (auto_resolve_step current_metrics now) (m, n) l = (m, n).
Proof.
  intros Hsys. induction l as [|x l IH]; intros m n Hel; [done|].
  cbn [foldl]. rewrite (auto_resolve_step_resource _ now m n x Hel).
  destruct (heap m !! x) as [b|]; [|by apply IH].
  unfold _check_resource_resolution. rewrite Hsys. cbn [last].
  rewrite andb_false_r. by apply IH.
Qed.

(** X12. Without a system snapshot in the metrics, [auto_resolve_alerts]
    resolves nothing, prints nothing and leaves the manager as it is. *)
Theorem auto_resolve_without_snapshot (ops : list Op)
    (current_metrics : SecurityData) (now : Time) :
  system_metrics current_metrics = [] →
  auto_resolve_alerts current_metrics now (run ops) = (run ops, None).
Proof.
  intros Hsys. unfold auto_resolve_alerts, auto_resolve_loop.
  by rewrite (auto_resolve_loop_idle _ now _ Hsys _ _ (eligible_run ops)).
Qed.

Lemma auto_resolve_step_eligible current_metrics now m n r a :
  heap m !! r = Some a → a_auto_resolve a = true →
  a_type a = "resource_abuse" →
  auto_resolve_step current_metrics now (m, n) r =
    if _check_resource_resolution a current_metrics
    then ((resolve_alert (a_id a) "system_auto_resolve"
             (Some "Resource usage normalized") now m).1, S n)
    else (m, n).
Proof.
  intros Hr Hauto Hty. unfold auto_resolve_step.
  rewrite Hr, Hauto, Hty. cbn [negb].
  by change (String.eqb "resource_abuse" "resource_abuse") with true.
Qed.

(** What [auto_resolve_alerts] does to an eligible resource alert whose
    id no other listed alert carries: the resource check alone decides. *)
Lemma auto_resolve_unique_outcome (ops : list Op) (r : Ref) (a : Alert)
    (current_metrics : SecurityData) (now : Time) :
  r ∈ alerts (run ops) →
  heap (run ops) !! r = Some a →
  a_auto_resolve a = true →
  a_type a = "resource_abuse" →
  (∀ r' a', r' ∈ alerts (run ops) → r' ≠ r →
     heap (run ops) !! r' = Some a' → a_id a' ≠ a_id a) →
  if _check_resource_resolution a current_metrics
  then (r ∉ alerts (auto_resolve_alerts current_metrics now (run ops)).1)
       ∧ heap (auto_resolve_alerts current_metrics now (run ops)).1 !! r
         = Some (set_resolved (Some "Resource usage normalized") now a)
       ∧ AlertResolved (a_id a) "system_auto_resolve"
           ∈ stdout (auto_resolve_alerts current_metrics now (run ops)).1
  else r ∈ alerts (auto_resolve_alerts current_metrics now (run ops)).1
       ∧ heap (auto_resolve_alerts current_metrics now (run ops)).1 !! r
         = Some a.
Proof.
  intros Hin Hr Hauto Hty Huniq.
  pose proof (wf_run ops) as Hwf.
  destruct (auto_resolve_alerts_loop current_metrics now (run ops))
    as (Hheap & Halerts & Hout & _).
  pose proof (λ m n Hm, auto_resolve_step_eligible current_metrics now m n
                          r a Hm Hauto Hty) as Hturn.
  destruct (_check_resource_resolution a current_metrics).
  - destruct (list_elem_of_split _ _ Hin) as (l1 & l2 & Hl).
    pose proof (wf_nodup _ Hwf) as Hnd. rewrite Hl in Hnd.
    destruct (nodup_split_not_in _ _ _ Hnd) as [Hnot1 _].
    destruct (loop_keeps current_metrics now r a l1 (run ops) 0%nat Hwf Hin Hr)
      as (Hwf1 & Hin1 & Hr1 & Huniq1); [|done|].
    { intros r' a' [?|?] ?; [by apply Huniq|].
      apply Huniq; [|done]. rewrite Hl. apply elem_of_app. by left. }
    unfold auto_resolve_loop in *. rewrite Hl in Hheap, Halerts, Hout.
    rewrite foldl_app in Hheap, Halerts, Hout. cbn [foldl] in *.
    destruct (foldl (auto_resolve_step current_metrics now)
                (run ops, 0%nat) l1) as [m1 n1].
    cbn [fst] in *. rewrite (Hturn m1 n1 Hr1) in *.
    destruct (list_elem_of_split _ _ Hin1) as (k1 & k2 & Hk).
    destruct (find_in_at (heap m1) k1 r k2 a Hr1)
      as (r' & a' & j1 & j2 & Hfind & Hj).
    rewrite <- Hk in Hfind.
    destruct (_find_alert_Some m1 (a_id a) r' a' Hfind) as (Hin' & Hr' & Hid').
    assert (r' = r) as ->.
    { destruct (decide (r' = r)) as [|Hne]; [done|].
      by destruct (Huniq1 r' a' Hin' Hne Hr'). }
    assert (a' = a) as -> by congruence.
    pose proof (wf_resolve (a_id a) "system_auto_resolve"
                  (Some "Resource usage normalized") now m1 Hwf1) as Hwf2.
    rewrite (resolve_alert_split m1 _ "system_auto_resolve"
               (Some "Resource usage normalized") now r a k1 k2
               Hwf1 Hfind Hk) in *.
    cbn [fst] in *.
    pose proof (wf_nodup _ Hwf1) as Hnd1. rewrite Hk in Hnd1.
    destruct (nodup_split_not_in _ _ _ Hnd1) as [Hk1 Hk2].
    match type of Hwf2 with wf ?m2 =>
      destruct (loop_done current_metrics now r l2 m2 (S n1) Hwf2)
        as (Hgone & Hobj & Hlines)
    end.
    { cbn [alerts]. by intros [?|?]%elem_of_app. }
    cbn [heap stdout] in Hobj, Hlines.
    split_and!.
    + by rewrite Halerts.
    + rewrite Hheap, Hobj. apply list_lookup_insert_eq.
      by eapply lookup_lt_Some.
    + apply Hout, Hlines, elem_of_app. right. by left.
  - destruct (loop_keeps current_metrics now r a (alerts (run ops)) (run ops)
                0%nat Hwf Hin Hr) as (_ & Hin1 & Hr1 & _).
    { intros r' a' [?|?] ?; by apply Huniq. }
    { intros _ m n Hm. by apply Hturn. }
    unfold auto_resolve_loop in *. split; [by rewrite Halerts|by rewrite Hheap].
Qed.

Lemma prefix_split p s : String.prefix p s = true → ∃ t, s = p +:+ t.
Proof.
  revert s. induction p as [|c p IH]; intros s.
  - by exists s.
  - destruct s as [|c' s]; cbn; [done|].
    destruct (Ascii.ascii_dec c c') as [->|]; [|done].
    intros (t & ->)%IH. by exists t.
Qed.

(** X13. An active, eligible [resource_abuse] alert whose description
    starts 'High memory usage' and whose id no other listed alert carries
    is resolved by [auto_resolve_alerts] when the memory usage of the
    latest snapshot is below 70, and stays active and unchanged when it
    is 70 or more; the CPU and disk readings play no part. *)
Theorem auto_resolve_high_memory (ops : list Op) (r : Ref) (a : Alert)
    (current_metrics : SecurityData) (latest : SystemSnapshot) (now : Time) :
  r ∈ get_active_alerts (run ops) →
  heap (run ops) !! r = Some a →
  a_auto_resolve a = true →
  a_type a = "resource_abuse" →
  startswith (a_description a) "High memory usage" = true →
  (∀ r' a', r' ∈ alerts (run ops) → r' ≠ r →
     heap (run ops) !! r' = Some a' → a_id a' ≠ a_id a) →
  last (system_metrics current_metrics) = Some latest →
  ((default 0 (memory_usage_percent latest) < 70)%Q →
     (r ∉ alerts (auto_resolve_alerts current_metrics now (run ops)).1)
     ∧ heap (auto_resolve_alerts current_metrics now (run ops)).1 !! r
       = Some (set_resolved (Some "Resource usage normalized") now a))
  ∧ ((70 <= default 0 (memory_usage_percent latest))%Q →
     r ∈ get_active_alerts
           (auto_resolve_alerts current_metrics now (run ops)).1
     ∧ heap (auto_resolve_alerts current_metrics now (run ops)).1 !! r
       = Some a).
Proof.
  intros Hactive Hr Hauto Hty Hdesc Huniq Hlast.
  apply elem_of_get_active_alerts in Hactive as (Hin & a0 & Hr0 & Hst).
  assert (a0 = a) as -> by congruence.
  pose proof (auto_resolve_unique_outcome ops r a current_metrics now
                Hin Hr Hauto Hty Huniq) as Hout.
  assert (_check_resource_resolution a current_metrics
          = Qltb (default 0%Q (memory_usage_percent latest)) 70) as Hcheck.
  { assert (startswith (a_description a) "High CPU usage" = false) as Hcpu.
    { destruct (prefix_split _ _ Hdesc) as (t & Ht).
      unfold startswith. by rewrite Ht. }
    unfold _check_resource_resolution.
    by rewrite Hlast, resolve_threshold_is_70, Hcpu, Hdesc. }
  rewrite Hcheck in Hout. split.
  - intros Hlow%Qltb_true. rewrite Hlow in Hout. by destruct Hout as (? & ? & _).
  - intros Hhigh%Qltb_false. rewrite Hhigh in Hout. destruct Hout as [Hin' Hr'].
    split; [|done]. apply elem_of_get_active_alerts. split; [done|by exists a].
Qed.

(** X14. An active, eligible [resource_abuse] alert whose description
    starts 'High disk usage' and whose id no other listed alert carries
    is resolved by [auto_resolve_alerts] when the disk usage of the
    latest snapshot is below 70, and stays active and unchanged when it
    is 70 or more; the CPU and memory readings play no part. *)
Theorem auto_resolve_high_disk (ops : list Op) (r : Ref) (a : Alert)
    (current_metrics : SecurityData) (latest : SystemSnapshot) (now : Time) :
  r ∈ get_active_alerts (run ops) →
  heap (run ops) !! r = Some a →
  a_auto_resolve a = true →
  a_type a = "resource_abuse" →
  startswith (a_description a) "High disk usage" = true →
  (∀ r' a', r' ∈ alerts (run ops) → r' ≠ r →
     heap (run ops) !! r' = Some a' → a_id a' ≠ a_id a) →
  last (system_metrics current_metrics) = Some latest →
  ((default 0 (disk_usage_percent latest) < 70)%Q →
     (r ∉ alerts (auto_resolve_alerts current_metrics now (run ops)).1)
     ∧ heap (auto_resolve_alerts current_metrics now (run ops)).1 !! r
       = Some (set_resolved (Some "Resource usage normalized") now a))
  ∧ ((70 <= default 0 (disk_usage_percent latest))%Q →
     r ∈ get_active_alerts
           (auto_resolve_alerts current_metrics now (run ops)).1
     ∧ heap (auto_resolve_alerts current_metrics now (run ops)).1 !! r
       = Some a).
Proof.
  intros Hactive Hr Hauto Hty Hdesc Huniq Hlast.
  apply elem_of_get_active_alerts in Hactive as (Hin & a0 & Hr0 & Hst).
  assert (a0 = a) as -> by congruence.
  pose proof (auto_resolve_unique_outcome ops r a current_metrics now
                Hin Hr Hauto Hty Huniq) as Hout.
  assert (_check_resource_resolution a current_metrics
          = Qltb (default 0%Q (disk_usage_percent latest)) 70) as Hcheck.
  { assert (startswith (a_description a) "High CPU usage" = false
            ∧ startswith (a_description a) "High memory usage" = false)
      as [Hcpu Hmem].
    { destruct (prefix_split _ _ Hdesc) as (t & Ht).
      unfold startswith. by rewrite Ht. }
    unfold _check_resource_resolution.
    by rewrite Hlast, resolve_threshold_is_70, Hcpu, Hmem, Hdesc. }
  rewrite Hcheck in Hout. split.
  - intros Hlow%Qltb_true. rewrite Hlow in Hout. by destruct Hout as (? & ? & _).
  - intros Hhigh%Qltb_false. rewrite Hhigh in Hout. destruct Hout as [Hin' Hr'].
    split; [|done]. apply elem_of_get_active_alerts. split; [done|by exists a].
Qed.

(** X15. An eligible alert whose description starts with none of 'High
    CPU usage', 'High memory usage', 'High disk usage' is never
    auto-resolved, whatever the metrics: with an id of its own it stays
    active and unchanged. The alert made from the rapid-increase trend
    threat is such an alert. *)
Theorem auto_resolve_skips_other_descriptions (ops : list Op) (r : Ref)
    (a : Alert) (current_metrics : SecurityData) (now : Time) :
  r ∈ get_active_alerts (run ops) →
  heap (run ops) !! r = Some a →
  a_type a = "resource_abuse" →
  startswith (a_description a) "High CPU usage" = false →
  startswith (a_description a) "High memory usage" = false →
  startswith (a_description a) "High disk usage" = false →
  (∀ r' a', r' ∈ alerts (run ops) → r' ≠ r →
     heap (run ops) !! r' = Some a' → a_id a' ≠ a_id a) →
  r ∈ get_active_alerts (auto_resolve_alerts current_metrics now (run ops)).1
  ∧ heap (auto_resolve_alerts current_metrics now (run ops)).1 !! r = Some a.
Proof.
  intros Hactive Hr Hty Hcpu Hmem Hdisk Huniq.
  apply elem_of_get_active_alerts in Hactive as (Hin & a0 & Hr0 & Hst).
  assert (a0 = a) as -> by congruence.
  pose proof (wf_run ops) as Hwf.
  destruct (auto_resolve_alerts_loop current_metrics now (run ops))
    as (Hheap & Halerts & _ & _).
  destruct (loop_keeps current_metrics now r a (alerts (run ops)) (run ops)
              0%nat Hwf Hin Hr) as (_ & Hin1 & Hr1 & _).
  { intros r' a' [?|?] ?; by apply Huniq. }
  { intros _ m n Hm. unfold auto_resolve_step. rewrite Hm, Hty.
    change (String.eqb "resource_abuse" "resource_abuse") with true.
    unfold _check_resource_resolution. rewrite Hcpu, Hmem, Hdisk.
    by repeat case_match. }
  unfold auto_resolve_loop in *.
  assert (heap (auto_resolve_alerts current_metrics now (run ops)).1 !! r
          = Some a) as Hr' by (by rewrite Hheap).
  split; [|done].
  apply elem_of_get_active_alerts. split; [by rewrite Halerts|by exists a].
Qed.

(** * Further properties of the threat detector *)

Section DetectorMore.

Variable str_float : Q → string.

Lemma analyze_data_parts sd now duration d :
  (analyze_data str_float sd now duration d).2
  = match last (system_metrics sd) with
    | Some latest_system =>
        (_analyze_system_metrics str_float latest_system now d).2
    | None => []
    end
    ++ match last (network_traffic sd) with
       | Some latest_network => _analyze_network_traffic latest_network now
       | None => []
       end
    ++ match security_events sd with
       | [] => []
       | _ :: _ => _analyze_security_events (security_events sd) now
       end
    ++ _analyze_patterns sd now.
Proof.
  unfold analyze_data. destruct (last (system_metrics sd)) as [s|]; [|done].
  by destruct (_analyze_system_metrics str_float s now d).
Qed.

Lemma last_n_app3 {A} (l : list A) a b c : last_n 3 (l ++ [a; b; c]) = [a; b; c].
Proof.
  unfold last_n. rewrite length_app. cbn [length].
  replace (length l + 3 - 3)%nat with (length l) by lia.
  apply drop_app_length.
Qed.

Lemma leb_3_app3 {A} (l : list A) a b c :
  (3 <=? length (l ++ [a; b; c]))%nat = true.
Proof. apply Nat.leb_le. rewrite length_app. cbn. lia. Qed.

Lemma system_resource_count s now d :
  count_type "resource_abuse" (_analyze_system_metrics str_float s now d).2
  = (Nat.b2n (Qgtb (default 0%Q (cpu_usage_percent s)) 95)
     + Nat.b2n (Qgtb (default 0%Q (memory_usage_percent s)) 98)
     + Nat.b2n (Qgtb (default 0%Q (disk_usage_percent s)) 95))%nat.
Proof.
  unfold _analyze_system_metrics, cpu_threshold, memory_threshold,
    disk_threshold.
  destruct (500 <? _); [destruct (_should_send_alert _ _ _) as [d' []]|];
    cbn [snd]; rewrite !count_type_app; by repeat (destruct (Qgtb _ _)).
Qed.

Lemma network_no_resource nd now :
  count_type "resource_abuse" (_analyze_network_traffic nd now) = 0%nat.
Proof.
  unfold _analyze_network_traffic. rewrite !count_type_app.
  by repeat case_match.
Qed.

Lemma events_no_resource events now :
  count_type "resource_abuse" (_analyze_security_events events now) = 0%nat.
Proof.
  unfold _analyze_security_events. rewrite !count_type_app.
  by repeat case_match.
Qed.

Lemma patterns_resource_count sd now l s1 s2 s3 :
  system_metrics sd = l ++ [s1; s2; s3] →
  count_type "resource_abuse" (_analyze_patterns sd now)
  = Nat.b2n (Qgtb (float_sub (default 0%Q (cpu_usage_percent s3))
                     (default 0%Q (cpu_usage_percent s1))) 30).
Proof.
  intros Hsd. unfold _analyze_patterns.
  rewrite Hsd, leb_3_app3, last_n_app3.
  cbn [map length Nat.leb head last].
  destruct (Qgtb _ 30); repeat case_match; by rewrite ?count_type_app.
Qed.

Lemma last_app3 {A} (l : list A) a b c : last (l ++ [a; b; c]) = Some c.
Proof.
  change (l ++ [a; b; c]) with (l ++ [a; b] ++ [c]).
  by rewrite app_assoc, last_snoc.
Qed.

End DetectorMore.

(** X16. With at least three system snapshots in the history, the number
    of [resource_abuse] threats of a pass is the number of thresholds the
    latest snapshot exceeds (CPU above 95, memory above 98, disk above
    95), plus one when the latest CPU reading minus the third-last one,
    as the float subtraction rounds it, is above 30: the rise from 2.2
    to 32.2 counts, the rise from 0.1 to 30.1 does not. Every comparison
    is strict, and the checks fire independently of each other. *)
Theorem resource_abuse_count (str_float : Q → string) (sd : SecurityData)
    (l : list SystemSnapshot) (s1 s2 s3 : SystemSnapshot) (now : Time)
    (duration : Z) (d : ThreatDetector) :
  system_metrics sd = l ++ [s1; s2; s3] →
  count_type "resource_abuse" (analyze_data str_float sd now duration d).2
  = (Nat.b2n (Qgtb (default 0%Q (cpu_usage_percent s3)) 95)
     + Nat.b2n (Qgtb (default 0%Q (memory_usage_percent s3)) 98)
     + Nat.b2n (Qgtb (default 0%Q (disk_usage_percent s3)) 95)
     + Nat.b2n (Qgtb (float_sub (default 0%Q (cpu_usage_percent s3))
                        (default 0%Q (cpu_usage_percent s1))) 30))%nat.
Proof.
  intros Hsd. rewrite analyze_data_parts, !count_type_app.
  rewrite (patterns_resource_count sd now l s1 s2 s3 Hsd).
  rewrite Hsd, last_app3, system_resource_count.
  assert (count_type "resource_abuse"
            match last (network_traffic sd) with
            | Some latest_network => _analyze_network_traffic latest_network now
            | None => []
            end = 0%nat) as ->.
  { destruct (last (network_traffic sd)); [apply network_no_resource|done]. }
  assert (count_type "resource_abuse"
            match security_events sd with
            | [] => []
            | _ :: _ => _analyze_security_events (security_events sd) now
            end = 0%nat) as ->.
  { destruct (security_events sd); [done|apply events_no_resource]. }
  lia.
Qed.

(** X17. A CPU usage above 95 in the latest snapshot puts into the result
    of the pass the CPU threat: type [resource_abuse], the rule's
    severity, the measured value and the threshold 95 in its details. *)
Theorem cpu_breach_threat (str_float : Q → string) (sd : SecurityData)
    (latest : SystemSnapshot) (now : Time) (duration : Z)
    (d : ThreatDetector) :
  last (system_metrics sd) = Some latest →
  (95 < default 0 (cpu_usage_percent latest))%Q →
  mk_threat (stamp_id "cpu_abuse" now) now "resource_abuse" "medium"
    ("High CPU usage detected: "
       +:+ str_float (default 0%Q (cpu_usage_percent latest)) +:+ "%")
    "system_monitor"
    (Some [("cpu_usage", DNum (default 0%Q (cpu_usage_percent latest)));
           ("threshold", DNum 95)])
  ∈ (analyze_data str_float sd now duration d).2.
Proof.
  intros Hlast Hcpu%Qgtb_true. rewrite analyze_data_parts, Hlast.
  apply elem_of_app. left. unfold _analyze_system_metrics.
  unfold cpu_threshold. rewrite Hcpu.
  destruct (500 <? _); [destruct (_should_send_alert _ _ _) as [d' []]|];
    cbn [snd]; apply elem_of_app; left; by left.
Qed.

Section DetectorCounts.

Variable str_float : Q → string.

(** The CPU part of [_analyze_patterns] never ends in its error branch:
    the pass continues with the network part. *)
Lemma patterns_shape sd now :
  ∃ threats1,
    count_type "network_anomaly" threats1 = 0%nat
    ∧ count_type "brute_force" threats1 = 0%nat
    ∧ count_type "security_event" threats1 = 0%nat
    ∧ _analyze_patterns sd now
      = if (3 <=? length (network_traffic sd))%nat then
          let recent_traffic := last_n 3 (network_traffic sd) in
          let connection_counts :=
            map (λ t, default 0 (connections_total t)) recent_traffic in
          if (2 <=? length connection_counts)%nat then
            match head connection_counts, last connection_counts with
            | Some first, Some latest =>
                if 500 <? latest - first then
                  threats1 ++
                  [mk_threat (stamp_id "network_spike" now) now
                     "network_anomaly" "medium"
                     "Sudden network traffic spike detected" "pattern_analyzer"
                     (Some [("connection_trend",
                             DNums (map inject_Z connection_counts));
                            ("spike", DNum (inject_Z (latest - first)))])]
                else threats1
            | _, _ => threats1 ++ [pattern_analysis_error now]
            end
          else threats1
        else threats1.
Proof.
  unfold _analyze_patterns. cbv zeta.
  destruct (3 <=? length (system_metrics sd))%nat; [|by exists []].
  destruct (last_n 3 (system_metrics sd)) as [|x [|y rest]];
    cbn [map length Nat.leb head]; [by exists []..|].
  destruct (last _) as [z|] eqn:E; [|by apply last_None in E].
  destruct (Qgtb _ 30); eexists; (split_and!; [| | |reflexivity]); done.
Qed.

Lemma patterns_resource_few sd now :
  (length (system_metrics sd) < 3)%nat →
  count_type "resource_abuse" (_analyze_patterns sd now) = 0%nat.
Proof.
  intros Hfew%Nat.leb_gt. unfold _analyze_patterns. rewrite Hfew.
  repeat case_match; by rewrite ?count_type_app.
Qed.

Lemma patterns_network_count sd now l n1 n2 n3 :
  network_traffic sd = l ++ [n1; n2; n3] →
  count_type "network_anomaly" (_analyze_patterns sd now)
  = Nat.b2n (500 <? default 0 (connections_total n3)
                    - default 0 (connections_total n1)).
Proof.
  intros Hnet.
  destruct (patterns_shape sd now) as (threats1 & H1 & _ & _ & ->).
  rewrite Hnet, leb_3_app3, last_n_app3.
  cbn [map length Nat.leb head last].
  destruct (500 <? _); rewrite ?count_type_app, H1; done.
Qed.

Lemma patterns_network_few sd now :
  (length (network_traffic sd) < 3)%nat →
  count_type "network_anomaly" (_analyze_patterns sd now) = 0%nat.
Proof.
  intros Hfew%Nat.leb_gt.
  destruct (patterns_shape sd now) as (threats1 & H1 & _ & _ & ->).
  by rewrite Hfew.
Qed.

Lemma patterns_no_event_types sd now :
  count_type "brute_force" (_analyze_patterns sd now) = 0%nat
  ∧ count_type "security_event" (_analyze_patterns sd now) = 0%nat.
Proof.
  destruct (patterns_shape sd now) as (threats1 & _ & H2 & H3 & ->).
  cbv zeta. repeat case_match; rewrite ?count_type_app, ?H2, ?H3; done.
Qed.

Lemma system_other_types s now d :
  count_type "network_anomaly" (_analyze_system_metrics str_float s now d).2
  = 0%nat
  ∧ count_type "brute_force" (_analyze_system_metrics str_float s now d).2
    = 0%nat
  ∧ count_type "security_event" (_analyze_system_metrics str_float s now d).2
    = 0%nat.
Proof.
  unfold _analyze_system_metrics.
  destruct (500 <? _); [destruct (_should_send_alert _ _ _) as [d' []]|];
    cbn [snd]; rewrite !count_type_app; by repeat (destruct (Qgtb _ _)).
Qed.

Lemma network_count nd now :
  count_type "network_anomaly" (_analyze_network_traffic nd now)
  = (Nat.b2n (1500 <? default 0 (connections_total nd))%Z
     + Nat.b2n (50 <? default 0 (connections_listening nd))%Z
     + Nat.b2n ((100 <? default 0 (traffic_errors_in nd))
                || (100 <? default 0 (traffic_errors_out nd)))%Z)%nat
  ∧ count_type "brute_force" (_analyze_network_traffic nd now) = 0%nat
  ∧ count_type "security_event" (_analyze_network_traffic nd now) = 0%nat.
Proof.
  unfold _analyze_network_traffic, connection_threshold, port_scan_threshold.
  rewrite !count_type_app.
  destruct (1500 <? _), (50 <? _), ((100 <? _) || (100 <? _)); done.
Qed.

Lemma events_counts events now :
  count_type "network_anomaly" (_analyze_security_events events now) = 0%nat
  ∧ count_type "brute_force" (_analyze_security_events events now)
    = Nat.b2n (5 <=? length (List.filter is_failed_login events))%nat
  ∧ count_type "security_event" (_analyze_security_events events now)
    = Nat.b2n (0 <? length (List.filter (severity_is "high") events))%nat.
Proof.
  unfold _analyze_security_events, failed_logins_threshold.
  rewrite !count_type_app.
  destruct (0 <? _)%nat, (5 <=? _)%nat; done.
Qed.

End DetectorCounts.

(** X18. With fewer than three system snapshots the trend check is off:
    the [resource_abuse] threats of the pass are those of the threshold
    checks on the latest snapshot, and none at all without a snapshot. *)
Theorem trend_needs_three_snapshots (str_float : Q → string)
    (sd : SecurityData) (now : Time) (duration : Z) (d : ThreatDetector) :
  (length (system_metrics sd) < 3)%nat →
  count_type "resource_abuse" (analyze_data str_float sd now duration d).2
  = match last (system_metrics sd) with
    | Some s =>
        (Nat.b2n (Qgtb (default 0%Q (cpu_usage_percent s)) 95)
         + Nat.b2n (Qgtb (default 0%Q (memory_usage_percent s)) 98)
         + Nat.b2n (Qgtb (default 0%Q (disk_usage_percent s)) 95))%nat
    | None => 0%nat
    end.
Proof.
  intros Hfew. rewrite analyze_data_parts, !count_type_app.
  rewrite (patterns_resource_few sd now Hfew).
  assert (count_type "resource_abuse"
            match last (network_traffic sd) with
            | Some latest_network => _analyze_network_traffic latest_network now
            | None => []
            end = 0%nat) as ->.
  { destruct (last (network_traffic sd)); [apply network_no_resource|done]. }
  assert (count_type "resource_abuse"
            match security_events sd with
            | [] => []
            | _ :: _ => _analyze_security_events (security_events sd) now
            end = 0%nat) as ->.
  { destruct (security_events sd); [done|apply events_no_resource]. }
  destruct (last (system_metrics sd));
    [rewrite system_resource_count; lia|done].
Qed.

(** X19. With at least three network snapshots in the history, the number
    of [network_anomaly] threats of a pass is the number of conditions
    the latest snapshot meets (more than 1500 connections, more than 50
    listening ports, more than 100 errors in either direction, the last
    counted once), plus one when the connection count rose by more than
    500 from the third-last snapshot to the latest. *)
Theorem network_anomaly_count (str_float : Q → string) (sd : SecurityData)
    (l : list NetworkSnapshot) (n1 n2 n3 : NetworkSnapshot) (now : Time)
    (duration : Z) (d : ThreatDetector) :
  network_traffic sd = l ++ [n1; n2; n3] →
  count_type "network_anomaly" (analyze_data str_float sd now duration d).2
  = (Nat.b2n (1500 <? default 0 (connections_total n3))%Z
     + Nat.b2n (50 <? default 0 (connections_listening n3))%Z
     + Nat.b2n ((100 <? default 0 (traffic_errors_in n3))
                || (100 <? default 0 (traffic_errors_out n3)))%Z
     + Nat.b2n (500 <? default 0 (connections_total n3)
                       - default 0 (connections_total n1))%Z)%nat.
Proof.
  intros Hnet. rewrite analyze_data_parts, !count_type_app.
  rewrite (patterns_network_count sd now l n1 n2 n3 Hnet).
  rewrite Hnet, last_app3.
  destruct (network_count n3 now) as [-> _].
  assert (count_type "network_anomaly"
            match last (system_metrics sd) with
            | Some s => (_analyze_system_metrics str_float s now d).2
            | None => []
            end = 0%nat) as ->.
  { destruct (last (system_metrics sd)); [|done].
    by destruct (system_other_types str_float s now d) as [-> _]. }
  assert (count_type "network_anomaly"
            match security_events sd with
            | [] => []
            | _ :: _ => _analyze_security_events (security_events sd) now
            end = 0%nat) as ->.
  { destruct (security_events sd); [done|].
    by destruct (events_counts (e :: l0) now) as [-> _]. }
  lia.
Qed.

(** X20. A pass emits one [brute_force] threat exactly when at least five
    events carry a message containing 'Failed login attempt', and one
    [security_event] threat exactly when at least one event has severity
    ['high']; never more than one of each, however many events match.
    The brute-force threat reports the number of matching events. *)
Theorem event_threat_counts (str_float : Q → string) (sd : SecurityData)
    (now : Time) (duration : Z) (d : ThreatDetector) :
  count_type "brute_force" (analyze_data str_float sd now duration d).2
  = Nat.b2n (5 <=? length (List.filter is_failed_login (security_events sd)))%nat
  ∧ count_type "security_event" (analyze_data str_float sd now duration d).2
    = Nat.b2n (0 <? length (List.filter (severity_is "high")
                              (security_events sd)))%nat
  ∧ ((5 ≤ length (List.filter is_failed_login (security_events sd)))%nat →
     mk_threat (stamp_id "brute_force" now) now "brute_force" "high"
       ("Potential brute force attack detected: "
          +:+ pretty (length (List.filter is_failed_login (security_events sd)))
          +:+ " failed login attempts")
       "security_monitor"
       (Some [("failed_attempts",
               DNum (inject_Z (Z.of_nat
                 (length (List.filter is_failed_login (security_events sd))))));
              ("threshold", DNum 5)])
     ∈ (analyze_data str_float sd now duration d).2).
Proof.
  assert (∀ ty, count_type ty
            match last (system_metrics sd) with
            | Some s => (_analyze_system_metrics str_float s now d).2
            | None => []
            end
          = match last (system_metrics sd) with
            | Some s =>
                count_type ty (_analyze_system_metrics str_float s now d).2
            | None => 0%nat
            end) as Hsys
    by (intros ty; by destruct (last (system_metrics sd))).
  assert (∀ ty, count_type ty
            match last (network_traffic sd) with
            | Some n => _analyze_network_traffic n now
            | None => []
            end
          = match last (network_traffic sd) with
            | Some n => count_type ty (_analyze_network_traffic n now)
            | None => 0%nat
            end) as Hnet
    by (intros ty; by destruct (last (network_traffic sd))).
  destruct (patterns_no_event_types sd now) as [Hp1 Hp2].
  split_and!.
  - rewrite analyze_data_parts, !count_type_app, Hsys, Hnet, Hp1.
    destruct (last (system_metrics sd)) as [s|];
      [destruct (system_other_types str_float s now d) as (_ & -> & _)|];
      (destruct (last (network_traffic sd)) as [n|];
         [destruct (network_count n now) as (_ & -> & _)|]);
      (destruct (security_events sd) as [|e es] eqn:E;
         [done|destruct (events_counts (e :: es) now) as (_ & -> & _); lia]).
  - rewrite analyze_data_parts, !count_type_app, Hsys, Hnet, Hp2.
    destruct (last (system_metrics sd)) as [s|];
      [destruct (system_other_types str_float s now d) as (_ & _ & ->)|];
      (destruct (last (network_traffic sd)) as [n|];
         [destruct (network_count n now) as (_ & _ & ->)|]);
      (destruct (security_events sd) as [|e es] eqn:E;
         [done|destruct (events_counts (e :: es) now) as (_ & _ & ->); lia]).
  - intros Hfive. rewrite analyze_data_parts.
    apply elem_of_app. right. apply elem_of_app. right.
    apply elem_of_app. left.
    destruct (security_events sd) as [|e es] eqn:E; [cbn in Hfive; lia|].
    unfold _analyze_security_events, failed_logins_threshold,
      brute_force_severity.
    apply Nat.leb_le in Hfive. rewrite Hfive.
    apply elem_of_app. right. by left.
Qed.

(** ** The cooldown rule *)



(** ** Ids within one pass *)

Ltac sublist_ids :=
  cbn [fmap list_fmap app t_id mk_threat pattern_analysis_error];
  repeat first [ apply sublist_nil_l
               | apply sublist_skip
               | apply sublist_cons ].

Section DetectorNoDup.

Variable str_float : Q → string.

Lemma system_ids_sublist s now d :
  t_id <$> (_analyze_system_metrics str_float s now d).2
  `sublist_of`
  (λ k, Some (stamp_id k now)) <$>
    ["cpu_abuse"; "memory_abuse"; "disk_abuse"; "process_anomaly"].
Proof.
  unfold _analyze_system_metrics.
  destruct (500 <? _); [destruct (_should_send_alert _ _ _) as [d' []]|];
    cbn [snd]; repeat (destruct (Qgtb _ _)); sublist_ids.
Qed.

Lemma network_ids_sublist nd now :
  t_id <$> _analyze_network_traffic nd now
  `sublist_of`
  (λ k, Some (stamp_id k now)) <$>
    ["network_anomaly"; "port_scan"; "network_errors"].
Proof.
  unfold _analyze_network_traffic.
  destruct (_ <? _), (_ <? _), (_ || _); sublist_ids.
Qed.

Lemma events_ids_sublist events now :
  t_id <$> _analyze_security_events events now
  `sublist_of`
  (λ k, Some (stamp_id k now)) <$> ["high_severity_events"; "brute_force"].
Proof.
  unfold _analyze_security_events.
  destruct (_ <? _)%nat, (_ <=? _)%nat; sublist_ids.
Qed.

Lemma patterns_ids_sublist sd now :
  t_id <$> _analyze_patterns sd now
  `sublist_of`
  (λ k, Some (stamp_id k now)) <$>
    ["rapid_cpu_increase"; "network_spike"; "pattern_analysis_error"].
Proof.
  unfold _analyze_patterns. repeat case_match; simplify_eq; sublist_ids.
Qed.

Lemma analyze_ids_sublist sd now duration d :
  t_id <$> (analyze_data str_float sd now duration d).2
  `sublist_of` (λ k, Some (stamp_id k now)) <$> threat_kinds.
Proof.
  rewrite analyze_data_parts, !fmap_app.
  change threat_kinds with
    (["cpu_abuse"; "memory_abuse"; "disk_abuse"; "process_anomaly"]
     ++ ["network_anomaly"; "port_scan"; "network_errors"]
     ++ ["high_severity_events"; "brute_force"]
     ++ ["rapid_cpu_increase"; "network_spike"; "pattern_analysis_error"]).
  rewrite !fmap_app.
  repeat apply sublist_app.
  - destruct (last (system_metrics sd));
      [apply system_ids_sublist|apply sublist_nil_l].
  - destruct (last (network_traffic sd));
      [apply network_ids_sublist|apply sublist_nil_l].
  - destruct (security_events sd);
      [apply sublist_nil_l|apply events_ids_sublist].
  - apply patterns_ids_sublist.
Qed.

End DetectorNoDup.

Lemma threat_kinds_NoDup : NoDup threat_kinds.
Proof.
  apply NoDup_ListNoDup. unfold threat_kinds.
  repeat (constructor; [cbn; intuition discriminate|]). constructor.
Qed.

(** X22. Within one pass every threat has an id of its own: no two
    threats of the same result share an identifier (they can coincide
    only across passes). *)
Theorem pass_ids_distinct (str_float : Q → string) (sd : SecurityData)
    (now : Time) (duration : Z) (d : ThreatDetector) :
  NoDup (t_id <$> (analyze_data str_float sd now duration d).2).
Proof.
  eapply sublist_NoDup; [|apply analyze_ids_sublist].
  apply NoDup_fmap_2_strong; [|apply threat_kinds_NoDup].
  intros k1 k2 Hk1 Hk2 [= H]. by apply stamp_id_inj in H as [? _].
Qed.

(** ** The record of analyses *)


(** * From a detected threat to its alert *)

(** The type and the severity a threat can leave the detector with. *)
Ltac shape_found :=
  apply list_elem_of_In; cbn; repeat (first [left; reflexivity|right]).

Section DetectorShapes.

Variable str_float : Q → string.

Lemma system_shapes s now d t :
  t ∈ (_analyze_system_metrics str_float s now d).2 →
  (t_type t, t_severity t) ∈ detected_shapes.
Proof.
  unfold _analyze_system_metrics.
  destruct (500 <? _); [destruct (_should_send_alert _ _ _) as [d' []]|];
    cbn [snd]; intros H; threat_cases H; shape_found.
Qed.

Lemma network_shapes nd now t :
  t ∈ _analyze_network_traffic nd now →
  (t_type t, t_severity t) ∈ detected_shapes.
Proof.
  unfold _analyze_network_traffic. intros H. threat_cases H; shape_found.
Qed.

Lemma events_shapes events now t :
  t ∈ _analyze_security_events events now →
  (t_type t, t_severity t) ∈ detected_shapes.
Proof.
  unfold _analyze_security_events. intros H. threat_cases H; shape_found.
Qed.

Lemma patterns_shapes sd now t :
  t ∈ _analyze_patterns sd now →
  (t_type t, t_severity t) ∈ detected_shapes.
Proof.
  unfold _analyze_patterns. cbv zeta. intros H.
  repeat case_match; simplify_eq;
    try (exfalso;
         match goal with
         | E : head _ = None |- _ => apply head_None in E
         | E : last _ = None |- _ => apply last_None in E
         end;
         match goal with
         | L : (2 <=? length ?l)%nat = true, E : ?l = [] |- _ =>
             rewrite E in L; discriminate L
         end);
    threat_cases H; shape_found.
Qed.

Lemma analyze_shapes sd now duration d t :
  t ∈ (analyze_data str_float sd now duration d).2 →
  (t_type t, t_severity t) ∈ detected_shapes.
Proof.
  rewrite analyze_data_parts.
  intros [H|[H|[H|H]%elem_of_app]%elem_of_app]%elem_of_app.
  - destruct (last (system_metrics sd)); [by eapply system_shapes|].
    by apply elem_of_nil in H.
  - destruct (last (network_traffic sd)); [by eapply network_shapes|].
    by apply elem_of_nil in H.
  - destruct (security_events sd); [by apply elem_of_nil in H|].
    by eapply events_shapes.
  - by eapply patterns_shapes.
Qed.

End DetectorShapes.

Lemma rule_resource_abuse :
  alert_rules !! "resource_abuse"
  = Some {| auto_resolve := true; resolve_threshold := Some 70%Q;
            escalation_time := 300;
            notification_channels := ["dashboard"; "log"] |}.
Proof. reflexivity. Qed.

Lemma rule_network_anomaly :
  alert_rules !! "network_anomaly"
  = Some {| auto_resolve := false; resolve_threshold := None;
            escalation_time := 180;
            notification_channels := ["dashboard"; "log"; "email"] |}.
Proof. reflexivity. Qed.

Lemma rule_security_event :
  alert_rules !! "security_event"
  = Some {| auto_resolve := false; resolve_threshold := None;
            escalation_time := 120;
            notification_channels := ["dashboard"; "log"; "email"] |}.
Proof. reflexivity. Qed.

Lemma rule_brute_force :
  alert_rules !! "brute_force"
  = Some {| auto_resolve := false; resolve_threshold := None;
            escalation_time := 60;
            notification_channels := ["dashboard"; "log"; "email"; "sms"] |}.
Proof. reflexivity. Qed.

Lemma rule_suspicious_process : alert_rules !! "suspicious_process" = None.
Proof. reflexivity. Qed.

Lemma level_medium :
  severity_levels !! "medium"
  = Some {| priority := 2; color := "#ffc107";
            icon := "exclamation-triangle" |}.
Proof. reflexivity. Qed.

Lemma level_high :
  severity_levels !! "high"
  = Some {| priority := 3; color := "#fd7e14";
            icon := "exclamation-circle" |}.
Proof. reflexivity. Qed.

Lemma create_alert_lookup threat now rnd m :
  heap (create_alert threat now rnd m).1 !! (create_alert threat now rnd m).2
  = Some {| a_id := "alert_" +:+ pretty (int_of now) +:+ "_" +:+ pretty rnd;
            a_threat_id := t_id threat;
            a_timestamp := now;
            a_type := default "unknown" (t_type threat);
            a_severity := default "medium" (t_severity threat);
            a_description :=
              default "Unknown threat detected" (t_description threat);
            a_source := default "unknown" (t_source threat);
            a_status := "active";
            a_details := default [] (t_details threat);
            a_priority :=
              default 1 (priority <$> severity_levels
                                        !! default "medium" (t_severity threat));
            a_color :=
              default "#6c757d"
                (color <$> severity_levels
                             !! default "medium" (t_severity threat));
            a_icon :=
              default "question-circle"
                (icon <$> severity_levels
                            !! default "medium" (t_severity threat));
            a_escalation_time :=
              Deadline
                (now + default 300%Q
                         (escalation_time <$> alert_rules
                            !! default "unknown" (t_type threat)))%Q;
            a_auto_resolve :=
              default false
                (auto_resolve <$> alert_rules
                                    !! default "unknown" (t_type threat));
            a_notification_channels :=
              default ["dashboard"]
                (notification_channels <$> alert_rules
                   !! default "unknown" (t_type threat));
            a_acknowledged := false;
            a_acknowledged_by := None;
            a_acknowledged_at := None;
            a_resolved := false;
            a_resolved_at := None;
            a_resolution_notes := None |}.
Proof.
  unfold create_alert. cbn [fst snd heap].
  rewrite lookup_app_r by lia. by rewrite Nat.sub_diag.
Qed.

(** X24. What the alert of a detected threat looks like. A threat of a
    detector pass has one of five types (on typed data never
    [analysis_error]: the length guards keep the trend code from an
    index error) and the severity medium or high. The alert made from it therefore has
    priority 2 or 3, never 1 or 4; it is eligible for auto-resolution
    exactly when its type is [resource_abuse]; and a
    [suspicious_process] threat, for which [alert_rules] has no entry,
    gets the fallback rule: a deadline 300 seconds after creation and
    the dashboard as only channel. *)
Theorem detected_threat_alert (str_float : Q → string) (sd : SecurityData)
    (now : Time) (duration : Z) (d : ThreatDetector) (t : Threat)
    (now' : Time) (rnd : Z) (m : AlertManager) :
  t ∈ (analyze_data str_float sd now duration d).2 →
  ∃ a, heap (create_alert t now' rnd m).1 !! (create_alert t now' rnd m).2
       = Some a
    ∧ a_type a ∈ ["resource_abuse"; "suspicious_process"; "network_anomaly";
                  "security_event"; "brute_force"]
    ∧ (a_severity a = "medium" ∧ a_priority a = 2
       ∨ a_severity a = "high" ∧ a_priority a = 3)
    ∧ (a_auto_resolve a = true ↔ a_type a = "resource_abuse")
    ∧ (a_type a = "suspicious_process" →
       a_escalation_time a = Deadline (now' + 300)%Q
       ∧ a_notification_channels a = ["dashboard"])
    ∧ a_threat_id a = t_id t ∧ a_status a = "active".
Proof.
  intros Ht%analyze_shapes. eexists. split; [apply create_alert_lookup|].
  cbn [a_type a_severity a_priority a_auto_resolve a_escalation_time
       a_notification_channels a_threat_id a_status].
  unfold detected_shapes in Ht.
  destruct (t_type t) as [ty|], (t_severity t) as [sev|];
    repeat (apply elem_of_cons in Ht as [[= -> ->]|Ht]);
    try (by apply elem_of_nil in Ht);
    try (by repeat (apply elem_of_cons in Ht as [[=]|Ht]);
           apply elem_of_nil in Ht);
    cbn [default from_option id];
    rewrite ?rule_resource_abuse, ?rule_suspicious_process,
      ?rule_network_anomaly, ?rule_security_event, ?rule_brute_force,
      ?level_medium, ?level_high;
    cbn [default from_option id fmap option_fmap option_map priority
         auto_resolve escalation_time notification_channels].
  all: split_and!; try reflexivity; try shape_found.
  all: try (left; split; reflexivity); try (right; split; reflexivity).
  all: try (split; [intros [=]|intros [=]]; reflexivity).
  all: try (by intros [=]).
  all: by intros _.
Qed.

(** * The life of an alert object *)

Lemma later_refl a : later a a.
Proof. by split_and!. Qed.

Lemma later_trans a b c : later a b → later b c → later a c.
Proof.
  intros (Ho1 & Hr1 & Ha1 & Hs1) (Ho2 & Hr2 & Ha2 & Hs2). split_and!.
  - by rewrite Ho2.
  - intros Hres. rewrite <- (Hr1 Hres). apply Hr2.
    by rewrite (Hr1 Hres).
  - auto.
  - auto.
Qed.

Lemma heap_later_refl h : heap_later h h.
Proof. intros r a Hr. exists a. split; [done|apply later_refl]. Qed.

Lemma heap_later_trans h1 h2 h3 :
  heap_later h1 h2 → heap_later h2 h3 → heap_later h1 h3.
Proof.
  intros H12 H23 r a Hr.
  destruct (H12 r a Hr) as (b & Hb & Hab).
  destruct (H23 r b Hb) as (c & Hc & Hbc).
  exists c. split; [done|by eapply later_trans].
Qed.

Lemma heap_later_insert h r a a' :
  h !! r = Some a → later a a' → heap_later h (<[r := a']> h).
Proof.
  intros Hr Hlater x b Hx.
  destruct (decide (x = r)) as [->|Hne].
  - exists a'. rewrite list_lookup_insert_eq by (by eapply lookup_lt_Some).
    split; [done|]. by simplify_eq.
  - exists b. rewrite list_lookup_insert_ne by done.
    split; [done|apply later_refl].
Qed.

Lemma later_acknowledged user now a :
  a_resolved a = false → later a (set_acknowledged user now a).
Proof. intros Hres. split_and!; try done. by rewrite Hres. Qed.

Lemma later_resolved notes now a :
  a_resolved a = false → later a (set_resolved notes now a).
Proof. intros Hres. split_and!; try done. by rewrite Hres. Qed.

Lemma later_escalated now a :
  a_resolved a = false → later a (set_escalated now a).
Proof. intros Hres. split_and!; try done. by rewrite Hres. Qed.

Lemma found_unresolved m alert_id r a :
  wf m → _find_alert alert_id m = Some (r, a) →
  heap m !! r = Some a ∧ a_resolved a = false.
Proof.
  intros Hwf Hfind. apply _find_alert_Some in Hfind as (Hin & Hr & _).
  split; [done|].
  destruct (wf_alerts m Hwf r Hin) as (b & Hb & Hres & _). by simplify_eq.
Qed.

Lemma heap_later_resolve alert_id user notes now m :
  wf m → heap_later (heap m) (heap (resolve_alert alert_id user notes now m).1).
Proof.
  intros Hwf. unfold resolve_alert.
  destruct (_find_alert alert_id m) as [[r a]|] eqn:Hfind;
    [|apply heap_later_refl].
  destruct (found_unresolved m alert_id r a Hwf Hfind) as [Hr Hres].
  destruct (list_remove _ _ _); cbn [fst heap];
    by apply (heap_later_insert _ _ a), later_resolved.
Qed.

Lemma heap_later_auto_resolve_loop current_metrics now l m n :
  wf m →
  heap_later (heap m)
    (heap (foldl (auto_resolve_step current_metrics now) (m, n) l).1).
Proof.
  revert m n. induction l as [|x l IH]; intros m n Hwf;
    [apply heap_later_refl|].
  cbn [foldl].
  pose proof (wf_auto_resolve_step current_metrics now m n x Hwf) as Hwf'.
  destruct (auto_resolve_step_cases current_metrics now m n x)
    as [E|(b & notes & _ & E)]; rewrite E in *; cbn [fst] in Hwf'.
  - by apply IH.
  - eapply heap_later_trans; [by apply heap_later_resolve|by apply IH].
Qed.

Lemma heap_later_step m op : wf m → heap_later (heap m) (heap (step m op)).
Proof.
  intros Hwf. destruct op; cbn [step].
  - unfold create_alert. cbn [fst heap]. intros r a Hr. exists a.
    split; [by apply lookup_app_l_Some|apply later_refl].
  - unfold acknowledge_alert.
    destruct (_find_alert alert_id m) as [[r a]|] eqn:Hfind;
      [|apply heap_later_refl].
    destruct (found_unresolved m alert_id r a Hwf Hfind) as [Hr Hres].
    by apply (heap_later_insert _ _ a), later_acknowledged.
  - by apply heap_later_resolve.
  - unfold escalate_alert.
    destruct (_find_alert alert_id m) as [[r a]|] eqn:Hfind;
      [|apply heap_later_refl].
    destruct (found_unresolved m alert_id r a Hwf Hfind) as [Hr Hres].
    destruct (String.eqb _ _); [|apply heap_later_refl].
    by apply (heap_later_insert _ _ a), later_escalated.
  - destruct (auto_resolve_alerts_loop current_metrics now m) as (-> & _).
    by apply heap_later_auto_resolve_loop.
  - destruct (cleanup_old_alerts_frame days now m) as (-> & _).
    apply heap_later_refl.
Qed.

Lemma heap_later_foldl ops m :
  wf m → heap_later (heap m) (heap (foldl step m ops)).
Proof.
  revert m. induction ops as [|op ops IH]; intros m Hwf;
    [apply heap_later_refl|].
  cbn [foldl]. eapply heap_later_trans; [by apply heap_later_step|].
  by apply IH, wf_step.
Qed.

(** X25. Nothing the manager does is undone by it. Whatever operations
    follow, an alert object stays in place and keeps the thirteen keys
    it was created with (id, threat id, timestamp, type, severity,
    description, source, details, priority, colour, icon, auto-resolve
    flag, channels); once resolved it is never written again; once
    acknowledged it stays acknowledged; and a status other than
    ['active'] never goes back to ['active']. *)
Theorem alert_objects_only_advance (ops ops' : list Op) (r : Ref)
    (a : Alert) :
  heap (run ops) !! r = Some a →
  ∃ a', heap (run (ops ++ ops')) !! r = Some a'
    ∧ origin a' = origin a
    ∧ (a_resolved a = true → a' = a)
    ∧ (a_acknowledged a = true → a_acknowledged a' = true)
    ∧ (a_status a ≠ "active" → a_status a' ≠ "active").
Proof.
  intros Hr. unfold run. rewrite foldl_app.
  exact (heap_later_foldl ops' _ (wf_run ops) r a Hr).
Qed.

(** * The security monitor *)

(** X26. The health status counts the breached limits. With [n] of the
    three readings above their limits (CPU above 80, memory above 85,
    disk above 90) the score is [100 - 20 n], so it is never below 40
    and the clamp at 0 never applies; the status is ['healthy'] for at
    most one breach, ['warning'] for two and ['critical'] for three. *)
Theorem system_health_counts_breaches (cpu_percent memory_percent
    disk_percent : Q) (now : Time) :
  let n := (Nat.b2n (Qgtb cpu_percent 80) + Nat.b2n (Qgtb memory_percent 85)
            + Nat.b2n (Qgtb disk_percent 90))%nat in
  let health := get_system_health cpu_percent memory_percent disk_percent now in
  h_health_score health = 100 - 20 * Z.of_nat n
  ∧ 40 ≤ h_health_score health ≤ 100
  ∧ h_status health
    = match n with
      | 0%nat | 1%nat => "healthy"
      | 2%nat => "warning"
      | _ => "critical"
      end.
Proof.
  unfold get_system_health, alert_thresholds.
  cbn [th_cpu_usage th_memory_usage th_disk_usage].
  destruct (Qgtb cpu_percent 80), (Qgtb memory_percent 85),
    (Qgtb disk_percent 90); cbn; split_and!; (reflexivity || lia).
Qed.

(** ** The uptime *)

Lemma int_of_inject_Z z : int_of (inject_Z z) = z.
Proof. unfold int_of. cbn. apply Z.quot_1_r. Qed.

Lemma int_of_nonneg x : (0 <= x)%Q → int_of x = Qfloor x.
Proof.
  intros Hx. destruct x as [n d]. unfold int_of, Qfloor. cbn [Qnum Qden].
  apply Z.quot_div_nonneg; [|lia].
  unfold Qle in Hx. cbn in Hx. lia.
Qed.

Lemma Qfloor_bounds x : (inject_Z (Qfloor x) <= x < inject_Z (Qfloor x) + 1)%Q.
Proof.
  split; [apply Qfloor_le|].
  pose proof (Qlt_floor x) as H. by rewrite inject_Z_plus in H.
Qed.

Lemma Qfloor_range x (lo hi : Z) :
  (inject_Z lo <= x)%Q → (x < inject_Z hi)%Q → lo ≤ Qfloor x < hi.
Proof.
  intros Hlo Hhi. destruct (Qfloor_bounds x) as [Hle Hlt].
  assert (inject_Z lo < inject_Z (Qfloor x + 1))%Q as H1.
  { rewrite inject_Z_plus. change (inject_Z 1) with 1%Q. lra. }
  assert (inject_Z (Qfloor x) < inject_Z hi)%Q as H2 by lra.
  rewrite <- Zlt_Qlt in H1, H2. lia.
Qed.

Lemma Qfloor_unique x z :
  (inject_Z z <= x)%Q → (x < inject_Z z + 1)%Q → Qfloor x = z.
Proof.
  intros Hle Hlt.
  assert (z ≤ Qfloor x < z + 1); [|lia].
  apply Qfloor_range; [done|]. by rewrite inject_Z_plus.
Qed.

(** The quotient and the remainder of a division by a whole number. *)
Lemma floor_div_bounds x (c : Z) :
  0 < c →
  (inject_Z c * inject_Z (Qfloor (x / inject_Z c)) <= x
   < inject_Z c * inject_Z (Qfloor (x / inject_Z c)) + inject_Z c)%Q.
Proof.
  intros Hc.
  assert (0 < inject_Z c)%Q as Hc'.
  { change 0%Q with (inject_Z 0). by rewrite <- Zlt_Qlt. }
  destruct (Qfloor_bounds (x / inject_Z c)) as [Hle Hlt].
  assert (x == (x / inject_Z c) * inject_Z c)%Q as Hx by (field; lra).
  split.
  - rewrite Hx at 2. nra.
  - rewrite Hx at 1. nra.
Qed.

Lemma float_fmod_nonneg x (c : Z) :
  (0 <= x)%Q → 0 < c →
  float_fmod x (inject_Z c)
  = (x - inject_Z c * inject_Z (Qfloor (x / inject_Z c)))%Q
  ∧ wrong_sign (float_fmod x (inject_Z c)) (inject_Z c) = false.
Proof.
  intros Hx Hc.
  assert (0 < inject_Z c)%Q as Hc'.
  { change 0%Q with (inject_Z 0). by rewrite <- Zlt_Qlt. }
  unfold float_fmod. rewrite int_of_nonneg.
  2:{ apply Qle_shift_div_l; lra. }
  split; [done|].
  destruct (floor_div_bounds x c Hc) as [Hle _].
  unfold wrong_sign.
  assert (Qltb (inject_Z c) 0 = false) as -> by (apply Qltb_false; lra).
  assert (Qltb (x - inject_Z c * inject_Z (Qfloor (x / inject_Z c))) 0 = false)
    as -> by (apply Qltb_false; lra).
  apply andb_false_r.
Qed.

Lemma float_mod_nonneg x (c : Z) :
  (0 <= x)%Q → 0 < c →
  float_mod x (inject_Z c)
  = (x - inject_Z c * inject_Z (Qfloor (x / inject_Z c)))%Q.
Proof.
  intros Hx Hc. unfold float_mod.
  destruct (float_fmod_nonneg x c Hx Hc) as [E Hsign].
  cbv zeta. by rewrite Hsign.
Qed.

Lemma float_floordiv_nonneg x (c : Z) :
  (0 <= x)%Q → (x < inject_Z (2 ^ 53))%Q → 0 < c →
  int_of (float_floordiv x (inject_Z c)) = Qfloor (x / inject_Z c).
Proof.
  intros Hx Hbig Hc.
  assert (0 < inject_Z c)%Q as Hc'.
  { change 0%Q with (inject_Z 0). by rewrite <- Zlt_Qlt. }
  set (k := Qfloor (x / inject_Z c)).
  destruct (floor_div_bounds x c Hc) as [Hle Hlt]. fold k in Hle, Hlt.
  assert (0 ≤ k) as Hk.
  { apply (Qfloor_range _ 0 (k + 1)); [|apply Qlt_floor].
    apply Qle_shift_div_l; [done|]. change (inject_Z 0) with 0%Q. lra. }
  assert (0 ≤ c * k < 2 ^ 53) as Hck.
  { split; [lia|]. rewrite Zlt_Qlt, inject_Z_mult. lra. }
  assert (0 ≤ k < 2 ^ 53) as Hk' by nia.
  unfold float_floordiv.
  destruct (float_fmod_nonneg x c Hx Hc) as [E Hsign].
  cbv zeta. rewrite Hsign, E. fold k.
  assert (float_round (x - (x - inject_Z c * inject_Z k)) == inject_Z (c * k))%Q
    as H1.
  { apply float_round_Z; [|done]. rewrite inject_Z_mult. ring. }
  assert (float_round
            (float_round (x - (x - inject_Z c * inject_Z k)) / inject_Z c)
          == inject_Z k)%Q as H2.
  { apply float_round_Z; [|done]. rewrite H1, inject_Z_mult. field. lra. }
  cbv zeta.
  destruct (Qeq_bool _ 0) eqn:E0.
  - apply Qeq_bool_iff in E0. rewrite H2 in E0.
    assert (k = 0) as Hk0 by (apply inject_Z_injective; exact E0).
    by rewrite Hk0.
  - assert (Qfloor
              (float_round
                 (float_round (x - (x - inject_Z c * inject_Z k)) / inject_Z c))
            = k) as -> by (rewrite H2; apply Qfloor_Z).
    rewrite (float_round_comp _ 0%Q) by (rewrite H2; ring).
    change (Qgtb (float_round 0) (1 # 2)) with false. cbv iota.
    apply int_of_inject_Z.
Qed.

(** X27. For an uptime from 0 up to 2^53 seconds the float divisions of
    [_format_uptime] are exact: the uptime is split into days, hours
    below 24 and minutes below 60 that add up to the given seconds,
    leaving less than a minute; days are shown only when positive, hours
    only when days or hours are positive. *)
Theorem format_uptime_parts (seconds : Q) :
  (0 <= seconds)%Q → (seconds < inject_Z (2 ^ 53))%Q →
  ∃ days hours minutes : Z,
    0 ≤ days ∧ 0 ≤ hours < 24 ∧ 0 ≤ minutes < 60
    ∧ (86400 * inject_Z days + 3600 * inject_Z hours + 60 * inject_Z minutes
       <= seconds)%Q
    ∧ (seconds < 86400 * inject_Z days + 3600 * inject_Z hours
                 + 60 * inject_Z minutes + 60)%Q
    ∧ _format_uptime seconds
      = if 0 <? days then
          pretty days +:+ "d " +:+ pretty hours +:+ "h " +:+ pretty minutes
            +:+ "m"
        else if 0 <? hours then pretty hours +:+ "h " +:+ pretty minutes +:+ "m"
        else pretty minutes +:+ "m".
Proof.
  intros Hpos Hbig.
  set (d := Qfloor (seconds / inject_Z 86400)).
  set (s := Qfloor (seconds / inject_Z 3600)).
  set (r1 := (seconds - inject_Z 86400 * inject_Z d)%Q).
  set (r2 := (seconds - inject_Z 3600 * inject_Z s)%Q).
  set (h := Qfloor (r1 / inject_Z 3600)).
  set (m := Qfloor (r2 / inject_Z 60)).
  destruct (floor_div_bounds seconds 86400 ltac:(lia)) as [Hd1 Hd2].
  destruct (floor_div_bounds seconds 3600 ltac:(lia)) as [Hs1 Hs2].
  destruct (floor_div_bounds r1 3600 ltac:(lia)) as [Hh1 Hh2].
  destruct (floor_div_bounds r2 60 ltac:(lia)) as [Hm1 Hm2].
  fold d in Hd1, Hd2. fold s in Hs1, Hs2. fold h in Hh1, Hh2.
  fold m in Hm1, Hm2. unfold r1 in Hh1, Hh2. unfold r2 in Hm1, Hm2.
  change (inject_Z 86400) with 86400%Q in *.
  change (inject_Z 3600) with 3600%Q in *.
  change (inject_Z 60) with 60%Q in *.
  pose proof Hbig as Hbig'.
  change (inject_Z (2 ^ 53)) with 9007199254740992%Q in Hbig'.
  assert (s = 24 * d + h) as Hs.
  { apply Qfloor_unique; rewrite inject_Z_plus, inject_Z_mult;
      change (inject_Z 24) with 24%Q.
    - apply Qle_shift_div_l; lra.
    - apply Qlt_shift_div_r; lra. }
  assert (inject_Z s == 24 * inject_Z d + inject_Z h)%Q as Hs'.
  { rewrite Hs, inject_Z_plus, inject_Z_mult. reflexivity. }
  exists d, h, m.
  split; [|split; [|split; [|split; [|split]]]].
  - apply (Qfloor_range _ 0 (d + 1)); [|apply Qlt_floor].
    apply Qle_shift_div_l; [lra|]. change (inject_Z 0) with 0%Q. lra.
  - apply (Qfloor_range _ 0 24).
    + apply Qle_shift_div_l; [lra|]. change (inject_Z 0) with 0%Q.
      unfold r1. lra.
    + apply Qlt_shift_div_r; [lra|]. change (inject_Z 24) with 24%Q.
      unfold r1. lra.
  - apply (Qfloor_range _ 0 60).
    + apply Qle_shift_div_l; [lra|]. change (inject_Z 0) with 0%Q.
      unfold r2. lra.
    + apply Qlt_shift_div_r; [lra|]. change (inject_Z 60) with 60%Q.
      unfold r2. lra.
  - lra.
  - lra.
  - unfold _format_uptime.
    change 86400%Q with (inject_Z 86400).
    change 3600%Q with (inject_Z 3600).
    change 60%Q with (inject_Z 60).
    rewrite !float_mod_nonneg by (done || lia).
    rewrite !float_floordiv_nonneg;
      [reflexivity| | |lia| | |lia|done|done|lia].
    + change (0 <= seconds - 3600 * inject_Z s)%Q. lra.
    + change (seconds - 3600 * inject_Z s < 9007199254740992)%Q. lra.
    + change (0 <= seconds - 86400 * inject_Z d)%Q. lra.
    + change (seconds - 86400 * inject_Z d < 9007199254740992)%Q. lra.
Qed.

(** Below zero the rounding shows: for a reading 2^-40 seconds under
    zero the remainder by 86400 rounds up to a full day, and the hours
    come out as 24. *)
Lemma format_uptime_rounds_to_a_day :
  _format_uptime (- (1 # 2 ^ 40)) = "24h 59m".
Proof. vm_compute. reflexivity. Qed.

(** * The statistics of the detector *)

Lemma analyze_pass_detected str_float passes o :
  detected_threats (foldl (analyze_pass str_float) o passes)
  = detected_threats o.
Proof.
  revert o. induction passes as [|p passes IH]; intros o; [done|].
  cbn [foldl]. by rewrite IH.
Qed.

Lemma analyze_pass_history str_float passes p o :
  ∃ record,
    last (analysis_history
            (detector (foldl (analyze_pass str_float) o (passes ++ [p]))))
    = Some record
    ∧ ar_timestamp record = p_now p.
Proof.
  rewrite foldl_app. cbn [foldl analyze_pass detector].
  set (o' := foldl (analyze_pass str_float) o passes).
  unfold analyze_data.
  destruct (match last (system_metrics (p_security_data p)) with
            | Some s => _analyze_system_metrics str_float s (p_now p)
                          (detector o')
            | None => (detector o', [])
            end) as [d1 ts].
  cbn [fst analysis_history]. eexists.
  destruct (100 <? _)%nat eqn:E.
  - apply Nat.ltb_lt in E. unfold last_n.
    rewrite length_app in *. cbn [length] in *.
    rewrite drop_app_le by lia. by rewrite last_snoc.
  - by rewrite last_snoc.
Qed.

(** X28. The statistics of the detector never see a threat. Whatever
    passes have been run, and whatever threats they returned,
    [get_threat_statistics] reports a total of 0 and empty counts by
    type, severity and source, and its result has no ['last_analysis']
    entry, although after a pass the analysis history does end with the
    record of that pass: the list the statistics are computed from is
    never filled. *)
Theorem threat_statistics_stay_empty (str_float : Q → string)
    (passes : list Pass) :
  let o := foldl (analyze_pass str_float) DetectorObject_init passes in
  get_threat_statistics o
  = {| ts_total_threats := 0; ts_by_type := ∅; ts_by_severity := ∅;
       ts_by_source := ∅; ts_last_analysis := None |}
  ∧ match last passes with
    | Some p =>
        ∃ record, last (analysis_history (detector o)) = Some record
                  ∧ ar_timestamp record = p_now p
    | None => analysis_history (detector o) = []
    end.
Proof.
  cbv zeta. split.
  - unfold get_threat_statistics. by rewrite analyze_pass_detected.
  - destruct passes as [|p0 passes0] using rev_ind; [done|].
    rewrite last_snoc. apply analyze_pass_history.
Qed.

(** * The vulnerability check *)

Lemma elem_of_list_filter_bool {A} (f : A → bool) (l : list A) x :
  x ∈ List.filter f l ↔ x ∈ l ∧ f x = true.
Proof.
  rewrite !list_elem_of_In, filter_In. done.
Qed.

Lemma NoDup_list_filter_bool {A} (f : A → bool) (l : list A) :
  NoDup l → NoDup (List.filter f l).
Proof.
  induction 1 as [|x l Hx Hl IH]; cbn [List.filter]; [constructor|].
  destruct (f x); [|done]. constructor; [|done].
  rewrite elem_of_list_filter_bool. by intros [? _].
Qed.

Lemma fmap_const_replicate {A B} (f : A → B) (b : B) (l : list A) :
  (∀ x, f x = b) → f <$> l = replicate (length l) b.
Proof.
  intros Hf. induction l as [|x l IH]; [done|]. cbn. by rewrite Hf, IH.
Qed.

(** X29. The findings of the vulnerability check. A port is reported
    exactly when it is one of the six watched ports (22, 23, 3389, 5900,
    8080, 8443) and some connection listens on it; it is reported once
    however many connections listen on it, so there are at most six
    port findings; and there is one further finding for every process
    whose user is [root] or [SYSTEM], in the order of the processes,
    after the port findings. *)
Theorem vulnerability_findings (connections : list Connection)
    (processes : list ProcInfo) :
  ∃ ports : list Z,
    v_port <$> check_security_vulnerabilities connections processes
    = (Some <$> ports)
      ++ replicate (length (List.filter is_high_privilege processes)) None
    ∧ v_process <$> check_security_vulnerabilities connections processes
      = replicate (length ports) None
        ++ (Some <$> List.filter is_high_privilege processes)
    ∧ NoDup ports
    ∧ (length ports ≤ 6)%nat
    ∧ ∀ port, port ∈ ports ↔
        port ∈ [22; 23; 3389; 5900; 8080; 8443]
        ∧ ∃ conn, conn ∈ connections ∧ c_status conn = "LISTEN"
                  ∧ c_laddr_port conn = port.
Proof.
  unfold check_security_vulnerabilities.
  set (listening := List.filter _ connections).
  set (ports := List.filter _ (elements _)).
  assert (NoDup ports) as Hnodup.
  { apply NoDup_list_filter_bool, NoDup_elements. }
  assert (∀ port, port ∈ ports ↔
            port ∈ [22; 23; 3389; 5900; 8080; 8443]
            ∧ ∃ conn, conn ∈ connections ∧ c_status conn = "LISTEN"
                      ∧ c_laddr_port conn = port) as Hports.
  { intros port. unfold ports. rewrite elem_of_list_filter_bool.
    rewrite elem_of_elements, elem_of_list_to_set, list_elem_of_fmap.
    rewrite bool_decide_eq_true. unfold suspicious_ports.
    rewrite elem_of_list_to_set. split.
    - intros [(conn & -> & Hconn) Hsusp]. split; [done|]. exists conn.
      apply elem_of_list_filter_bool in Hconn as [Hin Hst].
      by apply String.eqb_eq in Hst.
    - intros [Hsusp (conn & Hin & Hst & <-)]. split; [|done].
      exists conn. split; [done|]. apply elem_of_list_filter_bool.
      split; [done|]. by apply String.eqb_eq. }
  exists ports. split_and!; [| |done| |done].
  - rewrite fmap_app, <- !list_fmap_compose.
    by rewrite (fmap_const_replicate _ None (List.filter _ processes)).
  - rewrite fmap_app, <- !list_fmap_compose.
    by rewrite (fmap_const_replicate _ None ports).
  - change 6%nat with (length [22; 23; 3389; 5900; 8080; 8443]).
    apply submseteq_length, NoDup_submseteq; [done|].
    intros port Hport. by apply Hports in Hport as [? _].
Qed.

(** * The further statements at concrete inputs *)

Lemma resolved_id_is_unknown_witness :
  resolve_alert "alert_1700000000_4242" "alice" None 1700000060
    (run one_alert) = (run one_alert_resolved, true)
  ∧ acknowledge_alert "alert_1700000000_4242" "bob" 1700000070
      (run one_alert_resolved) = (run one_alert_resolved, false)
  ∧ resolve_alert "alert_1700000000_4242" "bob" (Some "again") 1700000070
      (run one_alert_resolved) = (run one_alert_resolved, false)
  ∧ escalate_alert "alert_1700000000_4242" 1700000070
      (run one_alert_resolved) = (run one_alert_resolved, false).
Proof.
  assert (resolve_alert "alert_1700000000_4242" "alice" None 1700000060
            (run one_alert) = (run one_alert_resolved, true)) as Hres.
  { vm_compute. reflexivity. }
  split; [exact Hres|].
  apply (resolved_id_is_unknown one_alert "alert_1700000000_4242" "alice"
           None 1700000060 (run one_alert_resolved) "bob" (Some "again")
           1700000070); [|exact Hres].
  intros r1 r2 a1 a2 H1 H2 _ _ _ _. vm_compute in H1, H2.
  apply list_elem_of_singleton in H1, H2. congruence.
Defined.

Lemma escalate_twice_fails_witness :
  escalate_alert "alert_1700000000_4242" 1700000030 (run one_alert)
  = ((escalate_alert "alert_1700000000_4242" 1700000030 (run one_alert)).1,
     true)
  ∧ escalate_alert "alert_1700000000_4242" 1700000090
      (escalate_alert "alert_1700000000_4242" 1700000030 (run one_alert)).1
    = ((escalate_alert "alert_1700000000_4242" 1700000030 (run one_alert)).1,
       false).
Proof.
  assert (escalate_alert "alert_1700000000_4242" 1700000030 (run one_alert)
          = ((escalate_alert "alert_1700000000_4242" 1700000030
                (run one_alert)).1, true)) as Hesc.
  { vm_compute. reflexivity. }
  split; [exact Hesc|].
  exact (escalate_twice_fails one_alert "alert_1700000000_4242" 1700000030
           1700000090 _ Hesc).
Defined.


Lemma escalate_alert_counts_witness :
  (escalate_alert "alert_1700000000_4242" 1700000030 (run one_alert)).2 = true
  ∧ S (active_alerts
         (get_alert_statistics
            (escalate_alert "alert_1700000000_4242" 1700000030
               (run one_alert)).1))
    = active_alerts (get_alert_statistics (run one_alert))
  ∧ escalated_alerts
      (get_alert_statistics
         (escalate_alert "alert_1700000000_4242" 1700000030
            (run one_alert)).1)
    = S (escalated_alerts (get_alert_statistics (run one_alert))).
Proof.
  assert (escalate_alert "alert_1700000000_4242" 1700000030 (run one_alert)
          = ((escalate_alert "alert_1700000000_4242" 1700000030
                (run one_alert)).1, true)) as Hesc.
  { vm_compute. reflexivity. }
  split; [vm_compute; reflexivity|].
  destruct (escalate_alert_counts one_alert "alert_1700000000_4242"
              1700000030 _ Hesc) as (_ & Hactive & Hescalated).
  split; assumption.
Defined.

Lemma resolve_alert_counts_witness :
  (resolve_alert "alert_1700000000_4242" "alice" None 1700000060
     (run one_alert)).2 = true
  ∧ S (total_alerts
         (get_alert_statistics
            (resolve_alert "alert_1700000000_4242" "alice" None 1700000060
               (run one_alert)).1))
    = total_alerts (get_alert_statistics (run one_alert)).
Proof.
  assert (resolve_alert "alert_1700000000_4242" "alice" None 1700000060
            (run one_alert)
          = ((resolve_alert "alert_1700000000_4242" "alice" None 1700000060
                (run one_alert)).1, true)) as Hres.
  { vm_compute. reflexivity. }
  split; [vm_compute; reflexivity|].
  destruct (resolve_alert_counts one_alert "alert_1700000000_4242" "alice"
              None 1700000060 _ Hres) as (r & a & _ & Htotal & _).
  exact Htotal.
Defined.

Lemma auto_resolve_ignores_network_witness :
  system_metrics (system_history [cpu_snapshot 65])
  = system_metrics
      {| system_metrics := [cpu_snapshot 65];
         network_traffic := [net_snapshot 2000 80];
         security_events := [] |}
  ∧ auto_resolve_alerts (system_history [cpu_snapshot 65]) 1700000100
      (run one_alert)
    = auto_resolve_alerts
        {| system_metrics := [cpu_snapshot 65];
           network_traffic := [net_snapshot 2000 80];
           security_events := [] |} 1700000100 (run one_alert).
Proof.
  split; [reflexivity|].
  apply (auto_resolve_ignores_network one_alert). reflexivity.
Defined.

Lemma auto_resolve_without_snapshot_witness :
  system_metrics (system_history []) = []
  ∧ auto_resolve_alerts (system_history []) 1700000100 (run one_alert)
    = (run one_alert, None).
Proof.
  split; [reflexivity|].
  apply (auto_resolve_without_snapshot one_alert). reflexivity.
Defined.

Lemma auto_resolve_high_memory_witness :
  0%nat ∈ get_active_alerts (run resource_alerts)
  ∧ (0%nat ∉ alerts (auto_resolve_alerts
                       (system_history [usage_snapshot 50 60 50]) 1700000100
                       (run resource_alerts)).1)
  ∧ 0%nat ∈ get_active_alerts
              (auto_resolve_alerts (system_history [usage_snapshot 50 70 50])
                 1700000100 (run resource_alerts)).1.
Proof.
  assert (0%nat ∈ get_active_alerts (run resource_alerts)) as Hactive.
  { vm_compute. left. }
  assert (∃ a, heap (run resource_alerts) !! 0%nat = Some a
               ∧ a_id a = "alert_1700000000_5151"
               ∧ a_auto_resolve a = true ∧ a_type a = "resource_abuse"
               ∧ startswith (a_description a) "High memory usage" = true)
    as (a & Ha & Hid & Hauto & Hty & Hdesc).
  { vm_compute. eexists. split_and!; reflexivity. }
  assert (∀ r' a', r' ∈ alerts (run resource_alerts) → r' ≠ 0%nat →
            heap (run resource_alerts) !! r' = Some a' → a_id a' ≠ a_id a)
    as Huniq.
  { intros r' a' Hin Hne Ha'. rewrite Hid. vm_compute in Hin.
    repeat (apply elem_of_cons in Hin as [->|Hin]);
      [contradiction| | |by apply elem_of_nil in Hin];
      vm_compute in Ha'; injection Ha' as <-; vm_compute; discriminate. }
  split; [exact Hactive|].
  destruct (auto_resolve_high_memory resource_alerts 0%nat a
              (system_history [usage_snapshot 50 60 50])
              (usage_snapshot 50 60 50) 1700000100
              Hactive Ha Hauto Hty Hdesc Huniq eq_refl) as [Hlow _].
  destruct (auto_resolve_high_memory resource_alerts 0%nat a
              (system_history [usage_snapshot 50 70 50])
              (usage_snapshot 50 70 50) 1700000100
              Hactive Ha Hauto Hty Hdesc Huniq eq_refl) as [_ Hhigh].
  destruct Hlow as (Hgone & _); [vm_compute; reflexivity|].
  destruct Hhigh as (Hkept & _); [vm_compute; discriminate|].
  split; assumption.
Defined.

Lemma auto_resolve_high_disk_witness :
  2%nat ∈ get_active_alerts (run resource_alerts)
  ∧ (2%nat ∉ alerts (auto_resolve_alerts
                       (system_history [usage_snapshot 50 60 50]) 1700000100
                       (run resource_alerts)).1)
  ∧ 2%nat ∈ get_active_alerts
              (auto_resolve_alerts (system_history [usage_snapshot 50 60 91])
                 1700000100 (run resource_alerts)).1.
Proof.
  assert (2%nat ∈ get_active_alerts (run resource_alerts)) as Hactive.
  { vm_compute. right. left. }
  assert (∃ a, heap (run resource_alerts) !! 2%nat = Some a
               ∧ a_id a = "alert_1700000000_6262"
               ∧ a_auto_resolve a = true ∧ a_type a = "resource_abuse"
               ∧ startswith (a_description a) "High disk usage" = true)
    as (a & Ha & Hid & Hauto & Hty & Hdesc).
  { vm_compute. eexists. split_and!; reflexivity. }
  assert (∀ r' a', r' ∈ alerts (run resource_alerts) → r' ≠ 2%nat →
            heap (run resource_alerts) !! r' = Some a' → a_id a' ≠ a_id a)
    as Huniq.
  { intros r' a' Hin Hne Ha'. rewrite Hid. vm_compute in Hin.
    repeat (apply elem_of_cons in Hin as [->|Hin]);
      [|contradiction| |by apply elem_of_nil in Hin];
      vm_compute in Ha'; injection Ha' as <-; vm_compute; discriminate. }
  split; [exact Hactive|].
  destruct (auto_resolve_high_disk resource_alerts 2%nat a
              (system_history [usage_snapshot 50 60 50])
              (usage_snapshot 50 60 50) 1700000100
              Hactive Ha Hauto Hty Hdesc Huniq eq_refl) as [Hlow _].
  destruct (auto_resolve_high_disk resource_alerts 2%nat a
              (system_history [usage_snapshot 50 60 91])
              (usage_snapshot 50 60 91) 1700000100
              Hactive Ha Hauto Hty Hdesc Huniq eq_refl) as [_ Hhigh].
  destruct Hlow as (Hgone & _); [vm_compute; reflexivity|].
  destruct Hhigh as (Hkept & _); [vm_compute; discriminate|].
  split; assumption.
Defined.

Lemma auto_resolve_skips_other_descriptions_witness :
  4%nat ∈ get_active_alerts (run resource_alerts)
  ∧ 4%nat ∈ get_active_alerts
              (auto_resolve_alerts (system_history [usage_snapshot 5 5 5])
                 1700000100 (run resource_alerts)).1.
Proof.
  assert (4%nat ∈ get_active_alerts (run resource_alerts)) as Hactive.
  { vm_compute. right. right. left. }
  assert (∃ a, heap (run resource_alerts) !! 4%nat = Some a
               ∧ a_id a = "alert_1700000000_7373"
               ∧ a_type a = "resource_abuse"
               ∧ startswith (a_description a) "High CPU usage" = false
               ∧ startswith (a_description a) "High memory usage" = false
               ∧ startswith (a_description a) "High disk usage" = false)
    as (a & Ha & Hid & Hty & Hcpu & Hmem & Hdisk).
  { vm_compute. eexists. split_and!; reflexivity. }
  assert (∀ r' a', r' ∈ alerts (run resource_alerts) → r' ≠ 4%nat →
            heap (run resource_alerts) !! r' = Some a' → a_id a' ≠ a_id a)
    as Huniq.
  { intros r' a' Hin Hne Ha'. rewrite Hid. vm_compute in Hin.
    repeat (apply elem_of_cons in Hin as [->|Hin]);
      [| |contradiction|by apply elem_of_nil in Hin];
      vm_compute in Ha'; injection Ha' as <-; vm_compute; discriminate. }
  split; [exact Hactive|].
  exact (proj1 (auto_resolve_skips_other_descriptions resource_alerts 4%nat a
                  (system_history [usage_snapshot 5 5 5]) 1700000100
                  Hactive Ha Hty Hcpu Hmem Hdisk Huniq)).
Defined.

Lemma resource_abuse_count_witness :
  count_type "resource_abuse"
    (analyze_data str_whole
       (system_history [cpu_snapshot 40; cpu_snapshot 50; cpu_snapshot 96])
       1700000000 120 ThreatDetector_init).2 = 2%nat
  ∧ count_type "resource_abuse"
      (analyze_data str_whole
         (system_history
            [cpu_snapshot (float_round (22 # 10)); cpu_snapshot 50;
             cpu_snapshot (float_round (322 # 10))])
         1700000000 120 ThreatDetector_init).2 = 1%nat
  ∧ count_type "resource_abuse"
      (analyze_data str_whole
         (system_history
            [cpu_snapshot (float_round (1 # 10)); cpu_snapshot 50;
             cpu_snapshot (float_round (301 # 10))])
         1700000000 120 ThreatDetector_init).2 = 0%nat.
Proof.
  split_and!.
  - rewrite (resource_abuse_count str_whole
               (system_history
                  [cpu_snapshot 40; cpu_snapshot 50; cpu_snapshot 96])
               [] (cpu_snapshot 40) (cpu_snapshot 50) (cpu_snapshot 96)
               1700000000 120 ThreatDetector_init eq_refl).
    vm_compute. reflexivity.
  - rewrite (resource_abuse_count str_whole
               (system_history
                  [cpu_snapshot (float_round (22 # 10)); cpu_snapshot 50;
                   cpu_snapshot (float_round (322 # 10))])
               [] (cpu_snapshot (float_round (22 # 10))) (cpu_snapshot 50)
               (cpu_snapshot (float_round (322 # 10)))
               1700000000 120 ThreatDetector_init eq_refl).
    vm_compute. reflexivity.
  - rewrite (resource_abuse_count str_whole
               (system_history
                  [cpu_snapshot (float_round (1 # 10)); cpu_snapshot 50;
                   cpu_snapshot (float_round (301 # 10))])
               [] (cpu_snapshot (float_round (1 # 10))) (cpu_snapshot 50)
               (cpu_snapshot (float_round (301 # 10)))
               1700000000 120 ThreatDetector_init eq_refl).
    vm_compute. reflexivity.
Defined.

Lemma cpu_breach_threat_witness :
  (95 < default 0 (cpu_usage_percent (cpu_snapshot 96)))%Q
  ∧ cpu_threat_at 96 1700000000
    ∈ (analyze_data str_whole (system_history [cpu_snapshot 96]) 1700000000
         120 ThreatDetector_init).2.
Proof.
  assert (95 < default 0 (cpu_usage_percent (cpu_snapshot 96)))%Q as Hhigh.
  { vm_compute. reflexivity. }
  split; [exact Hhigh|].
  exact (cpu_breach_threat str_whole (system_history [cpu_snapshot 96])
           (cpu_snapshot 96) 1700000000 120 ThreatDetector_init eq_refl
           Hhigh).
Defined.

Lemma trend_needs_three_snapshots_witness :
  (length (system_metrics (system_history [cpu_snapshot 40; cpu_snapshot 96]))
   < 3)%nat
  ∧ count_type "resource_abuse"
      (analyze_data str_whole
         (system_history [cpu_snapshot 40; cpu_snapshot 96]) 1700000000 120
         ThreatDetector_init).2 = 1%nat.
Proof.
  assert (length (system_metrics
                    (system_history [cpu_snapshot 40; cpu_snapshot 96]))
          < 3)%nat as Hfew by (cbn; lia).
  split; [exact Hfew|].
  rewrite (trend_needs_three_snapshots str_whole
             (system_history [cpu_snapshot 40; cpu_snapshot 96])
             1700000000 120
             ThreatDetector_init Hfew).
  vm_compute. reflexivity.
Defined.

Lemma network_anomaly_count_witness :
  count_type "network_anomaly"
    (analyze_data str_whole
       {| system_metrics := [];
          network_traffic :=
            [net_snapshot 100 10; net_snapshot 200 10; net_snapshot 1600 60];
          security_events := [] |} 1700000000 120 ThreatDetector_init).2
  = 3%nat.
Proof.
  rewrite (network_anomaly_count str_whole
             {| system_metrics := [];
                network_traffic :=
                  [net_snapshot 100 10; net_snapshot 200 10;
                   net_snapshot 1600 60];
                security_events := [] |} [] (net_snapshot 100 10)
             (net_snapshot 200 10) (net_snapshot 1600 60) 1700000000 120
             ThreatDetector_init eq_refl).
  vm_compute. reflexivity.
Defined.


Lemma detected_threat_alert_witness :
  cpu_threat_at 96 1700000000
    ∈ (analyze_data str_whole (system_history [cpu_snapshot 96]) 1700000000
         120 ThreatDetector_init).2
  ∧ ∃ a, heap (run [Create (cpu_threat_at 96 1700000000) 1700000001 4242])
           !! 0%nat = Some a
         ∧ (a_auto_resolve a = true ↔ a_type a = "resource_abuse")
         ∧ a_threat_id a = t_id (cpu_threat_at 96 1700000000)
         ∧ a_status a = "active".
Proof.
  assert (cpu_threat_at 96 1700000000
            ∈ (analyze_data str_whole (system_history [cpu_snapshot 96])
                 1700000000 120 ThreatDetector_init).2) as Hin.
  { vm_compute. left. }
  split; [exact Hin|].
  destruct (detected_threat_alert str_whole _ _ _ _ _ 1700000001 4242
              AlertManager_init Hin)
    as (a & Ha & _ & _ & Hauto & _ & Hid & Hst).
  exists a. split_and!; assumption.
Defined.

Lemma alert_objects_only_advance_witness :
  ∃ a, heap (run one_alert_resolved) !! 0%nat = Some a
       ∧ a_resolved a = true
       ∧ heap (run (one_alert_resolved ++ late_calls)) !! 0%nat = Some a.
Proof.
  assert (∃ a, heap (run one_alert_resolved) !! 0%nat = Some a
               ∧ a_resolved a = true) as (a & Ha & Hres).
  { vm_compute. eexists. split; reflexivity. }
  destruct (alert_objects_only_advance one_alert_resolved late_calls 0%nat a
              Ha) as (a' & Ha' & _ & Hsame & _).
  exists a. split_and!; [exact Ha|exact Hres|].
  by rewrite <- (Hsame Hres).
Defined.

Lemma format_uptime_parts_witness :
  (0 <= 93784)%Q ∧ (93784 < inject_Z (2 ^ 53))%Q
  ∧ _format_uptime 93784 = "1d 2h 3m"
  ∧ ∃ days hours minutes : Z,
      0 ≤ days ∧ 0 ≤ hours < 24 ∧ 0 ≤ minutes < 60
      ∧ (86400 * inject_Z days + 3600 * inject_Z hours
         + 60 * inject_Z minutes <= 93784)%Q
      ∧ (93784 < 86400 * inject_Z days + 3600 * inject_Z hours
                 + 60 * inject_Z minutes + 60)%Q
      ∧ _format_uptime 93784
        = if 0 <? days then
            pretty days +:+ "d " +:+ pretty hours +:+ "h "
              +:+ pretty minutes +:+ "m"
          else if 0 <? hours then
            pretty hours +:+ "h " +:+ pretty minutes +:+ "m"
          else pretty minutes +:+ "m".
Proof.
  assert (0 <= 93784)%Q as Hpos by (vm_compute; discriminate).
  assert (93784 < inject_Z (2 ^ 53))%Q as Hbig by (vm_compute; reflexivity).
  split_and!; [exact Hpos|exact Hbig|vm_compute; reflexivity|].
  exact (format_uptime_parts 93784 Hpos Hbig).
Defined.
